(** * federalist-garden-build: the build orchestration pipeline

    A shallow embedding of the two Python sources of the repository,

    - [src/main.py]   : the command line entry point, which filters and
                        shell-quotes the build request before calling [build],
                        and [load_vcap], which reads the key of the user
                        variables from the platform's service list;
    - [tasks/main.py] : [run_task], [main] and [private_values], the pipeline
                        that fetches, builds and publishes a site under a
                        45 minute deadline and reports one outcome,

    followed by the properties of the specification that can be stated on
    them, and by further properties of the code.  Python [str] values are
    byte strings here (their UTF-8 encoding); [dict]s are association lists
    in insertion order; [os.environ] is a finite map.  A call that leaves
    the process (a stage, a notification, the logging set-up) is an event;
    an oracle says how many seconds it takes and whether it returns or
    raises.  Time passes inside such calls only, and the deadline of [main]
    is a timer on that clock. *)

From Stdlib Require Import Ascii NArith ZArith Lia.
From Stdlib Require Import Floats.SpecFloat.
From stdpp Require Import base option list strings gmap.

Set Warnings "-register-all".
Local Open Scope N_scope.

(* ===================================================================== *)
(** * Strings *)
(* ===================================================================== *)

Module Str.

(** [sep.join(parts)] *)
Fixpoint join (sep : string) (parts : list string) : string :=
  match parts with
  | [] => ""
  | [p] => p
  | p :: rest => p +:+ sep +:+ join sep rest
  end.

(** [s.replace(old, new)] for a one character [old]. *)
Fixpoint replace_char (old : ascii) (new : string) (s : string) : string :=
  match s with
  | EmptyString => ""
  | String c rest =>
      if Ascii.eqb c old then new +:+ replace_char old new rest
      else String c (replace_char old new rest)
  end.

(** [c in chars] *)
Fixpoint mem (c : ascii) (chars : string) : bool :=
  match chars with
  | EmptyString => false
  | String d rest => Ascii.eqb c d || mem c rest
  end.

(** [all(p(c) for c in s)] *)
Fixpoint all (p : ascii -> bool) (s : string) : bool :=
  match s with
  | EmptyString => true
  | String c rest => p c && all p rest
  end.

Definition is_empty (s : string) : bool :=
  match s with EmptyString => true | _ => false end.

(** [str.lower()] on the ASCII letters; bytes of other code points are
    kept (Python also maps non-ASCII upper case letters, which no
    identifier of this program contains). *)
Definition lower_char (c : ascii) : ascii :=
  let n := N_of_ascii c in
  if (65 <=? n) && (n <=? 90) then ascii_of_N (n + 32) else c.

Fixpoint lower (s : string) : string :=
  match s with
  | EmptyString => ""
  | String c rest => String (lower_char c) (lower rest)
  end.

End Str.

(* ===================================================================== *)
(** * [shlex.quote] and the shell's token recognition *)
(* ===================================================================== *)

Module Shlex.

(** [\w] under [re.ASCII]: [[a-zA-Z0-9_]]. *)
Definition is_word_char (c : ascii) : bool :=
  let n := N_of_ascii c in
  ((48 <=? n) && (n <=? 57)) || ((65 <=? n) && (n <=? 90))
  || ((97 <=? n) && (n <=? 122)) || (n =? 95).

(** The complement of [_find_unsafe]'s class [[^\w@%+=:,./-]]. *)
Definition is_safe (c : ascii) : bool :=
  is_word_char c || Str.mem c "@%+=:,./-".

(** [_find_unsafe(s) is None] *)
Definition no_unsafe (s : string) : bool := Str.all is_safe s.

Definition squote : ascii := "'"%char.
Definition dquote : ascii := "034"%char.

(** The replacement text of a single quote: close the single-quoted
    string, a double-quoted single quote, reopen. *)
Definition squote_escape : string :=
  String squote (String dquote (String squote (String dquote (String squote "")))).

(** [shlex.quote(s)]:
<<
    if not s: return "''"
    if _find_unsafe(s) is None: return s
    return "'" + s.replace("'", "'\"'\"'") + "'"
>> *)
Definition quote (s : string) : string :=
  if Str.is_empty s then String squote (String squote "")
  else if no_unsafe s then s
  else String squote (Str.replace_char squote squote_escape s +:+ String squote "").

End Shlex.

(** The reader of the command lines: a POSIX shell.  This is the token
    recognition and quote removal of the Shell Command Language (sections
    2.2 Quoting, 2.3 Token Recognition, 2.6 Word Expansions), for words in
    argument position.  A word records whether every character of it is
    literal; a word holding an unquoted character that the shell expands or
    matches ([$], a backquote, [*], [?], [[], [~], [{], [}], [!], [^]) is
    not. *)
Module Sh.

Inductive token : Type :=
| Word (literal : bool) (text : string)
| Operator (c : ascii).

Inductive mode : Type :=
| Plain         (* outside quotes *)
| PlainEsc      (* after an unquoted backslash *)
| Single        (* inside '...' *)
| Double        (* inside "..." *)
| DoubleEsc     (* after a backslash inside "..." *)
| Comment.      (* after an unquoted # that starts a word *)

(** The lexer's state: the tokens delimited so far, the word in progress
    (if any: [''] starts an empty word), and the quoting mode. *)
Record lexer : Type := Lexer {
  toks : list token;
  cur : option (bool * string);
  md : mode
}.

Definition init : lexer := Lexer [] None Plain.

(** Append a character to the word in progress. *)
Definition push (literal : bool) (c : ascii) (w : option (bool * string))
  : option (bool * string) :=
  match w with
  | None => Some (literal, String c "")
  | Some (l, t) => Some (l && literal, t +:+ String c "")
  end.

(** A quote starts a word even when nothing follows inside it. *)
Definition start (w : option (bool * string)) : option (bool * string) :=
  match w with
  | None => Some (true, "")
  | Some _ => w
  end.

(** Delimit the word in progress. *)
Definition flush (ts : list token) (w : option (bool * string)) : list token :=
  match w with
  | None => ts
  | Some (l, t) => ts ++ [Word l t]
  end.

Definition is_blank (c : ascii) : bool := Str.mem c (String " " (String "009" "")).
Definition newline : ascii := "010"%char.
Definition backslash : ascii := "\"%char.
Definition is_operator (c : ascii) : bool :=
  Ascii.eqb c newline || Str.mem c ";&|<>()".
Definition is_expansion (c : ascii) : bool := Str.mem c "$`".
Definition is_pattern (c : ascii) : bool := Str.mem c "*?[~{}!^".

Definition step (st : lexer) (c : ascii) : lexer :=
  match md st with
  | Plain =>
      if Ascii.eqb c Shlex.squote then Lexer (toks st) (start (cur st)) Single
      else if Ascii.eqb c Shlex.dquote then Lexer (toks st) (start (cur st)) Double
      else if Ascii.eqb c backslash then Lexer (toks st) (cur st) PlainEsc
      else if is_blank c then Lexer (flush (toks st) (cur st)) None Plain
      else if is_operator c then
        Lexer (flush (toks st) (cur st) ++ [Operator c]) None Plain
      else if Ascii.eqb c "#" then
        match cur st with
        | None => Lexer (toks st) None Comment
        | Some _ => Lexer (toks st) (push true c (cur st)) Plain
        end
      else if is_expansion c || is_pattern c then
        Lexer (toks st) (push false c (cur st)) Plain
      else Lexer (toks st) (push true c (cur st)) Plain
  | PlainEsc =>
      if Ascii.eqb c newline then Lexer (toks st) (cur st) Plain
      else Lexer (toks st) (push true c (cur st)) Plain
  | Single =>
      if Ascii.eqb c Shlex.squote then Lexer (toks st) (cur st) Plain
      else Lexer (toks st) (push true c (cur st)) Single
  | Double =>
      if Ascii.eqb c Shlex.dquote then Lexer (toks st) (cur st) Plain
      else if Ascii.eqb c backslash then Lexer (toks st) (cur st) DoubleEsc
      else if is_expansion c then Lexer (toks st) (push false c (cur st)) Double
      else Lexer (toks st) (push true c (cur st)) Double
  | DoubleEsc =>
      if Ascii.eqb c newline then Lexer (toks st) (cur st) Double
      else if is_expansion c || Ascii.eqb c Shlex.dquote || Ascii.eqb c backslash
      then Lexer (toks st) (push true c (cur st)) Double
      else Lexer (toks st) (push true c (push true backslash (cur st))) Double
  | Comment =>
      if Ascii.eqb c newline then Lexer (toks st ++ [Operator c]) None Plain
      else st
  end.

Fixpoint feed (st : lexer) (s : string) : lexer :=
  match s with
  | EmptyString => st
  | String c rest => feed (step st c) rest
  end.

(** End of input: an open quote is a syntax error. *)
Definition finish (st : lexer) : option (list token) :=
  match md st with
  | Plain | Comment => Some (flush (toks st) (cur st))
  | _ => None
  end.

Definition lex (s : string) : option (list token) := finish (feed init s).

(** Append literal text to the word in progress. *)
Definition push_text (t : string) (w : option (bool * string))
  : option (bool * string) :=
  match w with
  | None => Some (true, t)
  | Some (l, u) => Some (l, u +:+ t)
  end.

End Sh.

(* ===================================================================== *)
(** * Python values, exceptions and dictionaries *)
(* ===================================================================== *)

Module Py.

(** The exceptions the two files raise, catch or let through.
    [UnexpectedExit] is invoke's, [TimeoutException] is stopit's; both
    derive from [Exception].  [SystemExit] and [BaseException] (any other
    class outside the [Exception] hierarchy, such as [KeyboardInterrupt])
    are not caught by [except Exception]. *)
Inductive exn : Type :=
| KeyError (key : string)
| TypeError (msg : string)
| ValueError (msg : string)          (* json.JSONDecodeError is one *)
| UnexpectedExit (detail : string)
| TimeoutException
| Exception (msg : string)           (* any other subclass of Exception *)
| SystemExit (code : Z)
| BaseException (msg : string).

(** [isinstance(e, Exception)] *)
Definition is_Exception (e : exn) : bool :=
  match e with
  | SystemExit _ | BaseException _ => false
  | _ => true
  end.

(** [str(e)].  A [KeyError] prints the [repr] of its key, written here for
    keys without quotes or escapes. *)
Definition str (e : exn) : string :=
  match e with
  | KeyError k => "'" +:+ k +:+ "'"
  | TypeError m | ValueError m | UnexpectedExit m | Exception m
  | BaseException m => m
  | TimeoutException => ""
  | SystemExit _ => ""
  end.

Inductive result (A : Type) : Type :=
| Ok (a : A)
| Raise (e : exn).
Arguments Ok {A} a.
Arguments Raise {A} e.

Definition bind {A B} (r : result A) (k : A -> result B) : result B :=
  match r with
  | Ok a => k a
  | Raise e => Raise e
  end.

(** What [json.loads] returns. *)
Inductive value : Type :=
| VNone
| VBool (b : bool)
| VInt (z : Z)
| VFloat (f : spec_float)
| VStr (s : string)
| VList (items : list value)
| VDict (items : list (string * value)).

(** [bool(v)] *)
Definition truthy (v : value) : bool :=
  match v with
  | VNone => false
  | VBool b => b
  | VInt z => negb (z =? 0)%Z
  | VFloat (S754_zero _) => false
  | VFloat _ => true
  | VStr s => negb (Str.is_empty s)
  | VList l => match l with [] => false | _ => true end
  | VDict d => match d with [] => false | _ => true end
  end.

(** [v is not None] *)
Definition is_not_None (v : value) : bool :=
  match v with VNone => false | _ => true end.

(** [isinstance(v, str)] *)
Definition is_str (v : value) : bool :=
  match v with VStr _ => true | _ => false end.

(** [v != 0] *)
Definition ne_zero (v : value) : bool :=
  match v with
  | VInt z => negb (z =? 0)%Z
  | VBool b => b
  | VFloat (S754_zero _) => false
  | _ => true
  end.

(** A [dict] with string keys, in insertion order. *)
Definition dict (V : Type) : Type := list (string * V).

Fixpoint dict_get {V} (k : string) (d : dict V) : option V :=
  match d with
  | [] => None
  | (k', v) :: rest => if String.eqb k' k then Some v else dict_get k rest
  end.

(** [d[k] = v]: replaces the value of a key already there, in place;
    appends a new key. *)
Fixpoint dict_set {V} (k : string) (v : V) (d : dict V) : dict V :=
  match d with
  | [] => [(k, v)]
  | (k', v') :: rest =>
      if String.eqb k' k then (k', v) :: rest else (k', v') :: dict_set k v rest
  end.

(** [d[k]] *)
Definition getitem {V} (d : dict V) (k : string) : result V :=
  match dict_get k d with
  | Some v => Ok v
  | None => Raise (KeyError k)
  end.

(** [k in names] for a list of names *)
Definition contains (names : list string) (k : string) : bool :=
  existsb (String.eqb k) names.

(** [v[k]] for a string [k] and any value [v]. *)
Definition subscript (v : value) (k : string) : result value :=
  match v with
  | VDict d => getitem d k
  | VStr _ => Raise (TypeError "string indices must be integers")
  | VList _ => Raise (TypeError "list indices must be integers or slices, not str")
  | _ => Raise (TypeError "object is not subscriptable")
  end.

(** [for x in v]: the items of a list, the keys of a dict, the characters
    of a string. *)
Definition iterate (v : value) : result (list value) :=
  match v with
  | VList l => Ok l
  | VDict d => Ok (map (fun kv => VStr (fst kv)) d)
  | VStr s => Ok (map (fun c => VStr (String c EmptyString)) (String.list_ascii_of_string s))
  | _ => Raise (TypeError "object is not iterable")
  end.

(** [shlex.quote(v)] on any value: [not v] comes first, then the regular
    expression search, which needs a string. *)
Definition quote (v : value) : result string :=
  if negb (truthy v) then Ok (Shlex.quote EmptyString)
  else match v with
       | VStr s => Ok (Shlex.quote s)
       | _ => Raise (TypeError "expected string or bytes-like object")
       end.

(** [os.environ[k]] and [os.getenv(k, default)] *)
Definition environ (env : gmap string string) (k : string) : result string :=
  match env !! k with
  | Some v => Ok v
  | None => Raise (KeyError k)
  end.

Definition getenv (env : gmap string string) (k default : string) : string :=
  match env !! k with
  | Some v => v
  | None => default
  end.

End Py.

Declare Scope result_scope.
Delimit Scope result_scope with result.
Notation "x <- e ;; k" := (Py.bind e (fun x => k))
  (at level 100, e at next level, right associativity, only parsing)
  : result_scope.

(* ===================================================================== *)
(** * [src/main.py]: the parameter sanitizer *)
(* ===================================================================== *)

Module Sanitizer.
Import Py.
Local Open Scope result_scope.

Section WithBuild.
(** [inspect.getfullargspec(build)[0]]: the parameter names of the build
    step, which lives in another module. *)
Variable build_arguments : list string.
(** [json.loads] *)
Variable json_loads : string -> result value.

(** Lines 49-52: one warning per request key that is not a parameter of
    [build]. *)
Definition warning (k : string) : string :=
  "WARNING - Ignoring unused build argument: " +:+ k.

Definition warnings (params : dict value) : list string :=
  map warning (List.filter (fun k => negb (contains build_arguments k))
                           (map fst params)).

(** Line 54:
    [{k.lower(): v for (k, v) in params.items()
                   if v is not None and k in build_arguments}] *)
Definition kwargs_of (params : dict value) : dict value :=
  fold_left
    (fun acc kv =>
       if is_not_None (snd kv) && contains build_arguments (fst kv)
       then dict_set (Str.lower (fst kv)) (snd kv) acc
       else acc)
    params [].

(** [kwargs[k] = shlex.quote(kwargs[k])] *)
Definition quote_key (k : string) (kwargs : dict value) : result (dict value) :=
  v <- getitem kwargs k ;;
  q <- quote v ;;
  Ok (dict_set k (VStr q) kwargs).

(** Lines 56-58: a string given for [user_environment_variables] is
    parsed. *)
Definition parse_uevs (kwargs : dict value) : result (dict value) :=
  uevs <- getitem kwargs "user_environment_variables" ;;
  if truthy uevs && is_str uevs
  then match uevs with
       | VStr s =>
           parsed <- json_loads s ;;
           Ok (dict_set "user_environment_variables" parsed kwargs)
       | _ => Ok kwargs
       end
  else Ok kwargs.

(** Lines 56-62, from the filtered keywords to the ones given to
    [build]. *)
Definition clean (kwargs : dict value) : result (dict value) :=
  kwargs <- parse_uevs kwargs ;;
  kwargs <- quote_key "branch" kwargs ;;
  kwargs <- quote_key "owner" kwargs ;;
  quote_key "repository" kwargs.

(** The lines of [clean] that run before [kwargs[k]] is read for the
    first time. *)
Definition before (k : string) (kwargs : dict value) : result (dict value) :=
  if String.eqb k "user_environment_variables" then Ok kwargs
  else if String.eqb k "branch" then parse_uevs kwargs
  else if String.eqb k "owner" then
    kwargs <- parse_uevs kwargs ;; quote_key "branch" kwargs
  else
    kwargs <- parse_uevs kwargs ;;
    kwargs <- quote_key "branch" kwargs ;;
    quote_key "owner" kwargs.

(** Lines 48-62: what is printed, and the keywords the script
    passes to [build], or the exception that ends the script before the call. *)
Definition sanitize (params : dict value) : list string * result (dict value) :=
  (warnings params, clean (kwargs_of params)).

End WithBuild.

(** The four keywords the script reads. *)
Definition required : list string :=
  ["user_environment_variables"; "branch"; "owner"; "repository"].

(** The three keywords the script quotes. *)
Definition identifiers : list string := ["branch"; "owner"; "repository"].

(** Build parameters are Python identifiers written in lower case. *)
Definition lower_case_names (names : list string) : Prop :=
  forall a, In a names -> Str.lower a = a.

End Sanitizer.

(* ===================================================================== *)
(** * [src/main.py]: the script around the sanitizer, and [load_vcap] *)
(* ===================================================================== *)

(** Lines 10-22 and 42-67 of the script, for a request that is a JSON
    object.  The script changes [os.environ] before it calls [build]: the
    environment is threaded through, and the result of the script is the
    environment and the keywords with which [build] is called. *)
Module Entry.
Import Py.

(** What ends the script: an exception of [Py], or [StopIteration], which
    [next] raises on a generator that has nothing left. *)
Inductive error : Type :=
| Builtin (e : exn)
| StopIteration.

Inductive res (A : Type) : Type :=
| Done (a : A)
| Failed (e : error).
Arguments Done {A} a.
Arguments Failed {A} e.

Definition bind {A B} (r : res A) (k : A -> res B) : res B :=
  match r with
  | Done a => k a
  | Failed e => Failed e
  end.

Definition std {A} (r : result A) : res A :=
  match r with
  | Ok a => Done a
  | Raise e => Failed (Builtin e)
  end.

(** [type(v).__name__] *)
Definition type_name (v : value) : string :=
  match v with
  | VNone => "NoneType"
  | VBool _ => "bool"
  | VInt _ => "int"
  | VFloat _ => "float"
  | VStr _ => "str"
  | VList _ => "list"
  | VDict _ => "dict"
  end.

(** [v == s] for a string [s]: no other kind of value equals a string. *)
Definition eq_str (v : value) (s : string) : bool :=
  match v with
  | VStr t => String.eqb t s
  | _ => false
  end.

Definition nul : ascii := "000"%char.

(** [os.environ[k] = v], for a name [k] that is a legal variable name:
    the value must be a string, and [putenv] refuses a null byte. *)
Definition setenv (env : gmap string string) (k : string) (v : value)
  : res (gmap string string) :=
  match v with
  | VStr s =>
      if Str.mem nul s then Failed (Builtin (ValueError "embedded null byte"))
      else Done (<[k := s]> env)
  | _ => Failed (Builtin (TypeError ("str expected, not " +:+ type_name v)))
  end.

(** [if os.getenv(k, None):] *)
Definition is_set (env : gmap string string) (k : string) : bool :=
  match env !! k with
  | Some s => negb (Str.is_empty s)
  | None => false
  end.

Declare Scope entry_scope.
Delimit Scope entry_scope with entry.
Notation "x <- e ;; k" := (bind e (fun x => k))
  (at level 100, e at next level, right associativity, only parsing)
  : entry_scope.
Local Open Scope entry_scope.

Section WithBuild.
(** [inspect.getfullargspec(build)[0]], [json.loads], and [str] on the
    values that are not strings. *)
Variable build_arguments : list string.
Variable json_loads : string -> result value.
Variable str_of : value -> string.

(** [f'{v}'] *)
Definition format (v : value) : string :=
  match v with
  | VStr s => s
  | _ => str_of v
  end.

(** [f'federalist-{space}-uev-key'] *)
Definition uev_key_name (space : value) : string :=
  "federalist-" +:+ format space +:+ "-uev-key".

(** [next(ups for ups in services if ups['name'] == name)]: the services
    are looked at in order, up to the first one with that name. *)
Fixpoint next_ups (name : string) (services : list value) : res value :=
  match services with
  | [] => Failed StopIteration
  | ups :: rest =>
      n <- std (subscript ups "name") ;;
      if eq_str n name then Done ups else next_ups name rest
  end.

(** [load_vcap()], lines 10-22. *)
Definition load_vcap (env : gmap string string) : res (gmap string string) :=
  vcap_application <- std (json_loads (getenv env "VCAP_APPLICATION" "{}")) ;;
  vcap_services <- std (json_loads (getenv env "VCAP_SERVICES" "{}")) ;;
  space <- std (subscript vcap_application "space_name") ;;
  user_provided <- std (subscript vcap_services "user-provided") ;;
  services <- std (iterate user_provided) ;;
  uev_ups <- next_ups (uev_key_name space) services ;;
  credentials <- std (subscript uev_ups "credentials") ;;
  key <- std (subscript credentials "key") ;;
  setenv env "USER_ENVIRONMENT_VARIABLE_KEY" key.

(** Lines 42-46: [if k in params: os.environ[k] = params[k]]. *)
Definition promote (k : string) (params : dict value) (env : gmap string string)
  : res (gmap string string) :=
  match dict_get k params with
  | Some v => setenv env k v
  | None => Done env
  end.

(** Lines 42-67: what the script prints, and the environment and the
    keywords with which [build] is called, or what ends the script before
    the call. *)
Definition script (env : gmap string string) (params : dict value)
  : list string * res (gmap string string * dict value) :=
  match (env <- promote "FEDERALIST_BUILDER_CALLBACK" params env ;;
         promote "STATUS_CALLBACK" params env) with
  | Failed e => ([], Failed e)
  | Done env =>
      (Sanitizer.warnings build_arguments params,
       kwargs <- std (Sanitizer.clean json_loads
                        (Sanitizer.kwargs_of build_arguments params)) ;;
       env <- (if is_set env "VCAP_APPLICATION" then load_vcap env else Done env) ;;
       Done (env, kwargs))
  end.

End WithBuild.

(** The variables the script may set. *)
Definition assigned : list string :=
  ["FEDERALIST_BUILDER_CALLBACK"; "STATUS_CALLBACK"; "USER_ENVIRONMENT_VARIABLE_KEY"].

End Entry.

(* ===================================================================== *)
(** * [tasks/main.py]: the task runner adapter and the pipeline *)
(* ===================================================================== *)

Module Tasks.
Import Py.

Definition TIMEOUT_SECONDS : N := 45 * 60.

(** ** Calls that leave the process

    The collaborators of [main] live in other modules ([steps],
    [log_utils.remote_logs], [invoke]).  A call to one of them is recorded
    with its arguments; an oracle says how long it takes and how it ends. *)
Inductive call : Type :=
| should_skip_logging
| init_logging (priv_vals : list string) (logattrs : dict string)
               (db_url : string) (skip_logging : value)
| post_build_processing (status_callback : string)
| fetch_repo (owner repository branch github_token : string)
| ctx_run (command : string) (env : option (dict string))
| publish (base_url site_prefix bucket cache_control aws_region
           access_key_id secret_access_key : string)
| post_build_complete (status_callback builder_callback : string)
| post_build_error (status_callback builder_callback message : string)
| post_build_timeout (status_callback builder_callback : string).

Inductive outcome : Type :=
| Returned (v : value)
| Raised (e : exn).

Inductive level : Type := INFO | WARNING | ERROR.

(** What a run leaves behind, in order: the calls, each with whether the
    deadline timer was armed when it was made and how it ended, and the
    lines given to the [main] logger. *)
Inductive event : Type :=
| Called (c : call) (timed : bool) (o : outcome)
| Logged (lv : level) (msg : string).

(** The oracle's answer to the n-th call: the seconds it takes and its
    result. *)
Record response : Type := Response { elapsed : N; ending : outcome }.

Definition world : Type := nat -> response.

(** [alarm] is the instant at which stopit's timer fires, when armed. *)
Record state : Type := State {
  trace : list event;
  calls : nat;
  clock : N;
  alarm : option N
}.

Definition initial : state := State [] 0%nat 0 None.

Definition armed (st : state) : bool :=
  match alarm st with Some _ => true | None => false end.

Definition M (A : Type) : Type := world -> state -> result A * state.

Definition ret {A} (a : A) : M A := fun _ st => (Ok a, st).

Definition raise {A} (e : exn) : M A := fun _ st => (Raise e, st).

Definition lift {A} (r : result A) : M A := fun _ st => (r, st).

Definition mbind {A B} (m : M A) (k : A -> M B) : M B :=
  fun w st =>
    match m w st with
    | (Ok a, st') => k a w st'
    | (Raise e, st') => (Raise e, st')
    end.

(** [datetime.now()] *)
Definition now : M N := fun _ st => (Ok (clock st), st).

(** A line of the [main] logger.  Python's [logging] does not raise into
    its caller; a line takes no time here. *)
Definition log (lv : level) (msg : string) : M unit :=
  fun _ st =>
    (Ok tt, State (trace st ++ [Logged lv msg]) (calls st) (clock st) (alarm st)).

(** A call to a collaborator.  If the timer is armed and fires before the
    call is over, the signal handler raises [TimeoutException] out of the
    call; otherwise the call ends as the oracle says. *)
Definition perform (c : call) : M value :=
  fun w st =>
    let r := w (calls st) in
    let finished :=
      (match ending r with Returned v => Ok v | Raised e => Raise e end,
       State (trace st ++ [Called c (armed st) (ending r)])
             (S (calls st)) (clock st + elapsed r) (alarm st)) in
    match alarm st with
    | Some t =>
        if t <? clock st + elapsed r
        then (Raise TimeoutException,
              State (trace st ++ [Called c true (Raised TimeoutException)])
                    (S (calls st)) t None)
        else finished
    | None => finished
    end.

(** [with Timeout(seconds, swallow_exc=False): body].  The timer is
    cancelled on the way out, and no exception is swallowed. *)
Definition with_Timeout {A} (seconds : N) (body : M A) : M A :=
  fun w st =>
    let (r, st') :=
      body w (State (trace st) (calls st) (clock st) (Some (clock st + seconds))) in
    (r, State (trace st') (calls st') (clock st') None).

(** [try: body  except ...: handler].  [handlers e] is the first clause
    that matches [e], if any. *)
Definition try_except {A} (body : M A) (handlers : exn -> option (M A)) : M A :=
  fun w st =>
    match body w st with
    | (Ok a, st') => (Ok a, st')
    | (Raise e, st') =>
        match handlers e with
        | Some h => h w st'
        | None => (Raise e, st')
        end
    end.

Declare Scope task_scope.
Delimit Scope task_scope with task.
Notation "x <- e ;; k" := (mbind e (fun x => k))
  (at level 100, e at next level, right associativity, only parsing)
  : task_scope.
Notation "e ;; k" := (mbind e (fun _ => k))
  (at level 100, right associativity, only parsing) : task_scope.

(** ** [run_task] *)

(** [flag_args]: one [flag=quoted_val] per entry of [flags_dict], if it is
    given and not empty. *)
Definition flag_args (flags_dict : option (dict string)) : list string :=
  match flags_dict with
  | Some d => map (fun fv => fst fv +:+ "=" +:+ Shlex.quote (snd fv)) d
  | None => []
  end.

(** [f'inv {task_name} {" ".join(flag_args)}'] *)
Definition command (task_name : string) (flags_dict : option (dict string))
  : string :=
  "inv " +:+ task_name +:+ " " +:+ Str.join " " (flag_args flags_dict).

(** [run_task(ctx, task_name, log_attrs, flags_dict, env)]: [ctx.run] gets
    the command, and [env] when it is given and not empty.  The logger of
    the task only receives the output of the subprocess. *)
Definition run_task (task_name : string) (log_attrs : dict string)
    (flags_dict : option (dict string)) (env : option (dict string)) : M unit :=
  (let run_kwargs := match env with
                     | Some (_ :: _) => env
                     | _ => None
                     end in
   perform (ctx_run (command task_name flags_dict) run_kwargs) ;;
   ret tt)%task.

(** A word that needs no quoting: not empty, and of safe characters
    only.  The task names and the flag names of [main] are such words. *)
Definition plain_word (s : string) : bool :=
  negb (Str.is_empty s) && Shlex.no_unsafe s.

(** The argument the shell is meant to see for a flag and its value. *)
Definition flag_word (fv : string * string) : Sh.token :=
  Sh.Word true (fst fv +:+ "=" +:+ snd fv).

(** ** [private_values] *)

Definition private_values (env : gmap string string) (user_values : list string)
  : result (list string) :=
  (access_key <- environ env "AWS_ACCESS_KEY_ID" ;;
   secret_key <- environ env "AWS_SECRET_ACCESS_KEY" ;;
   let priv_vals := [access_key; secret_key] in
   let GITHUB_TOKEN := getenv env "GITHUB_TOKEN" "" in
   let priv_vals := if negb (Str.is_empty GITHUB_TOKEN)
                    then priv_vals ++ [GITHUB_TOKEN] else priv_vals in
   Ok (priv_vals ++ user_values))%result.

(** ** [main] *)

(** The values [main] reads from the environment before the [try]
    statement, under the names it gives them. *)
Record locals : Type := Locals {
  AWS_DEFAULT_REGION : string;
  BUCKET : string;
  BASEURL : string;
  BUILD_ID : string;
  CACHE_CONTROL : string;
  BRANCH : string;
  CONFIG : string;
  REPOSITORY : string;
  OWNER : string;
  SITE_PREFIX : string;
  GENERATOR : string;
  AWS_ACCESS_KEY_ID : string;
  AWS_SECRET_ACCESS_KEY : string;
  USER_ENVIRONMENT_VARIABLES : value;
  USER_ENVIRONMENT_VARIABLE_KEY : string;
  GITHUB_TOKEN : string;
  FEDERALIST_BUILDER_CALLBACK : string;
  STATUS_CALLBACK : string;
  DATABASE_URL : string
}.

(** [f'{OWNER}/{REPOSITORY}@id:{BUILD_ID}'] *)
Definition BUILD_INFO (l : locals) : string :=
  OWNER l +:+ "/" +:+ REPOSITORY l +:+ "@id:" +:+ BUILD_ID l.

(** A decrypted user environment variable, [{'name': ..., 'value': ...}]. *)
Record uev : Type := Uev { uev_name : value; uev_value : string }.

Definition uev_dict (u : uev) : value :=
  VDict [("name", uev_name u); ("value", VStr (uev_value u))].

Definition fetch_failure_message : string :=
  "There was a problem fetching the repository, see the above logs for details.".

(** The message of the last handler. *)
Definition unexpected_message (l : locals) : string :=
  "Unexpected build(" +:+ BUILD_INFO l +:+ ") error. Please try"
  +:+ " again and contact federalist-support" +:+ " if it persists.".

Definition logattrs (l : locals) : dict string :=
  [("branch", BRANCH l); ("buildid", BUILD_ID l); ("owner", OWNER l);
   ("repository", REPOSITORY l)].

Section WithCollaborators.
(** [json.loads] and [json.dumps] of the standard library,
    [crypto.decrypt.decrypt] and [log_utils.delta_to_mins_secs]. *)
Variable json_loads : string -> result value.
Variable json_dumps : value -> string.
Variable decrypt : value -> string -> result string.
Variable delta_to_mins_secs : N -> string.

(** Lines 64-94. *)
Definition load (env : gmap string string) : result locals :=
  (AWS_DEFAULT_REGION <- environ env "AWS_DEFAULT_REGION" ;;
   BUCKET <- environ env "BUCKET" ;;
   BASEURL <- environ env "BASEURL" ;;
   BUILD_ID <- environ env "BUILD_ID" ;;
   CACHE_CONTROL <- environ env "CACHE_CONTROL" ;;
   BRANCH <- environ env "BRANCH" ;;
   CONFIG <- environ env "CONFIG" ;;
   REPOSITORY <- environ env "REPOSITORY" ;;
   OWNER <- environ env "OWNER" ;;
   SITE_PREFIX <- environ env "SITE_PREFIX" ;;
   GENERATOR <- environ env "GENERATOR" ;;
   AWS_ACCESS_KEY_ID <- environ env "AWS_ACCESS_KEY_ID" ;;
   AWS_SECRET_ACCESS_KEY <- environ env "AWS_SECRET_ACCESS_KEY" ;;
   USER_ENVIRONMENT_VARIABLES <-
     json_loads (getenv env "USER_ENVIRONMENT_VARIABLES" "[]") ;;
   USER_ENVIRONMENT_VARIABLE_KEY <- environ env "USER_ENVIRONMENT_VARIABLE_KEY" ;;
   let GITHUB_TOKEN := getenv env "GITHUB_TOKEN" "" in
   FEDERALIST_BUILDER_CALLBACK <- environ env "FEDERALIST_BUILDER_CALLBACK" ;;
   let STATUS_CALLBACK := getenv env "STATUS_CALLBACK" "" in
   let DATABASE_URL := getenv env "DATABASE_URL" "" in
   Ok (Locals AWS_DEFAULT_REGION BUCKET BASEURL BUILD_ID CACHE_CONTROL BRANCH
         CONFIG REPOSITORY OWNER SITE_PREFIX GENERATOR AWS_ACCESS_KEY_ID
         AWS_SECRET_ACCESS_KEY USER_ENVIRONMENT_VARIABLES
         USER_ENVIRONMENT_VARIABLE_KEY GITHUB_TOKEN FEDERALIST_BUILDER_CALLBACK
         STATUS_CALLBACK DATABASE_URL))%result.

(** Lines 98-101: the list comprehension over
    [USER_ENVIRONMENT_VARIABLES]. *)
Fixpoint decrypt_each (items : list value) (key : string) : result (list uev) :=
  match items with
  | [] => Ok []
  | item :: rest =>
      (name <- subscript item "name" ;;
       ciphertext <- subscript item "ciphertext" ;;
       plain <- decrypt ciphertext key ;;
       others <- decrypt_each rest key ;;
       Ok (Uev name plain :: others))%result
  end.

Definition decrypt_uevs (l : locals) : result (list uev) :=
  (items <- iterate (USER_ENVIRONMENT_VARIABLES l) ;;
   decrypt_each items (USER_ENVIRONMENT_VARIABLE_KEY l))%result.

(** Lines 150-157. *)
Definition build_flags (l : locals) (decrypted_uevs : list uev) : dict string :=
  [("--branch", BRANCH l);
   ("--owner", OWNER l);
   ("--repository", REPOSITORY l);
   ("--site-prefix", SITE_PREFIX l);
   ("--base-url", BASEURL l);
   ("--user-env-vars", json_dumps (VList (map uev_dict decrypted_uevs)))].

(** The local function [run] of [main]. *)
Definition run (l : locals) (task : string) (args : option (dict string))
    (env : option (dict string)) : M unit :=
  run_task task (logattrs l) args env.

(** Lines 162-175: the build engine for [GENERATOR]. *)
Definition dispatch (l : locals) (flags : dict string) : M unit :=
  if String.eqb (GENERATOR l) "jekyll" then
    run l "build-jekyll" (Some (dict_set "--config" (CONFIG l) flags)) None
  else if String.eqb (GENERATOR l) "hugo" then
    run l "build-hugo" (Some flags) None
  else if String.eqb (GENERATOR l) "static" then
    run l "build-static" None None
  else if String.eqb (GENERATOR l) "node.js"
          || String.eqb (GENERATOR l) "script only" then
    log INFO "build already ran in 'npm run federalist'"
  else
    raise (ValueError ("Invalid GENERATOR: " +:+ GENERATOR l)).

(** Lines 124-187: the block under the deadline. *)
Definition timed_block (l : locals) (decrypted_uevs : list uev) (start_time : N)
  : M unit :=
  (log INFO ("Running build for " +:+ OWNER l +:+ "/" +:+ REPOSITORY l
             +:+ "/" +:+ BRANCH l) ;;
   return_code <- perform (fetch_repo (OWNER l) (REPOSITORY l) (BRANCH l)
                                      (GITHUB_TOKEN l)) ;;
   (if ne_zero return_code then
      let msg := fetch_failure_message in
      log ERROR msg ;;
      perform (post_build_error (STATUS_CALLBACK l)
                                (FEDERALIST_BUILDER_CALLBACK l) msg) ;;
      raise (SystemExit 1)
    else ret tt) ;;
   let flags := build_flags l decrypted_uevs in
   run l "run-federalist-script" (Some flags) None ;;
   dispatch l flags ;;
   perform (publish (BASEURL l) (SITE_PREFIX l) (BUCKET l) (CACHE_CONTROL l)
                    (AWS_DEFAULT_REGION l) (AWS_ACCESS_KEY_ID l)
                    (AWS_SECRET_ACCESS_KEY l)) ;;
   finish <- now ;;
   let delta_string := delta_to_mins_secs (finish - start_time) in
   log INFO ("Total build time: " +:+ delta_string) ;;
   perform (post_build_complete (STATUS_CALLBACK l)
                                (FEDERALIST_BUILDER_CALLBACK l)) ;;
   ret tt)%task.

(** Lines 189-219: the three [except] clauses, in order. *)
Definition handlers (l : locals) (err : exn) : option (M unit) :=
  match err with
  | TimeoutException =>
      Some (log WARNING ("Build(" +:+ BUILD_INFO l +:+ ") has timed out") ;;
            perform (post_build_timeout (STATUS_CALLBACK l)
                                        (FEDERALIST_BUILDER_CALLBACK l)) ;;
            ret tt)%task
  | UnexpectedExit _ =>
      let err_string := str err in
      Some (log WARNING ("Exception raised during build(" +:+ BUILD_INFO l
                         +:+ "):" +:+ err_string) ;;
            perform (post_build_error (STATUS_CALLBACK l)
                                      (FEDERALIST_BUILDER_CALLBACK l) err_string) ;;
            ret tt)%task
  | _ =>
      if is_Exception err then
        let err_string := str err in
        let err_message := unexpected_message l in
        Some (log WARNING ("Unexpected exception raised during build("
                           +:+ BUILD_INFO l +:+ "): " +:+ err_string) ;;
              perform (post_build_error (STATUS_CALLBACK l)
                                        (FEDERALIST_BUILDER_CALLBACK l)
                                        err_message) ;;
              ret tt)%task
      else None
  end.

(** Lines 121-187: the block of the [try] statement. *)
Definition try_block (l : locals) (decrypted_uevs : list uev) (start_time : N)
  : M unit :=
  (perform (post_build_processing (STATUS_CALLBACK l)) ;;
   with_Timeout TIMEOUT_SECONDS (timed_block l decrypted_uevs start_time))%task.

(** Lines 120-219: the [try] statement. *)
Definition try_statement (l : locals) (decrypted_uevs : list uev) (start_time : N)
  : M unit :=
  try_except (try_block l decrypted_uevs start_time) (handlers l).

(** Lines 62-118: everything before the [try] statement. *)
Definition setup (env : gmap string string) : M (locals * list uev * N) :=
  (start_time <- now ;;
   l <- lift (load env) ;;
   decrypted_uevs <- lift (decrypt_uevs l) ;;
   priv_vals <- lift (private_values env (map uev_value decrypted_uevs)) ;;
   skip <- perform should_skip_logging ;;
   perform (init_logging priv_vals (logattrs l) (DATABASE_URL l) skip) ;;
   ret (l, decrypted_uevs, start_time))%task.

Definition main (env : gmap string string) : M unit :=
  (s <- setup env ;;
   let '(l, decrypted_uevs, start_time) := s in
   try_statement l decrypted_uevs start_time)%task.

(** A whole run, from the initial state. *)
Definition run_main (env : gmap string string) (w : world) : result unit * state :=
  main env w initial.

End WithCollaborators.

(** ** Reading a trace *)

Definition is_terminal (c : call) : bool :=
  match c with
  | post_build_complete _ _ | post_build_error _ _ _ | post_build_timeout _ _ => true
  | _ => false
  end.

(** The stages: the fetch, the subprocesses of the build, the publish. *)
Definition is_stage (c : call) : bool :=
  match c with
  | fetch_repo _ _ _ _ | ctx_run _ _ | publish _ _ _ _ _ _ _ => true
  | _ => false
  end.

Fixpoint calls_of (tr : list event) : list call :=
  match tr with
  | [] => []
  | Called c _ _ :: rest => c :: calls_of rest
  | Logged _ _ :: rest => calls_of rest
  end.

(** The terminal notifications of a run, in order. *)
Definition terminal_notifications (tr : list event) : list call :=
  List.filter is_terminal (calls_of tr).

(** The stages of a run, in order. *)
Definition stages (tr : list event) : list call :=
  List.filter is_stage (calls_of tr).

(** The notification each [except] clause sends for the exception it
    catches, and the line it logs before. *)
Definition handler_call (l : locals) (err : exn) : option call :=
  match err with
  | TimeoutException =>
      Some (post_build_timeout (STATUS_CALLBACK l) (FEDERALIST_BUILDER_CALLBACK l))
  | UnexpectedExit _ =>
      Some (post_build_error (STATUS_CALLBACK l) (FEDERALIST_BUILDER_CALLBACK l)
                             (str err))
  | _ =>
      if is_Exception err
      then Some (post_build_error (STATUS_CALLBACK l)
                                  (FEDERALIST_BUILDER_CALLBACK l)
                                  (unexpected_message l))
      else None
  end.

Definition handler_log (l : locals) (err : exn) : string :=
  match err with
  | TimeoutException => "Build(" +:+ BUILD_INFO l +:+ ") has timed out"
  | UnexpectedExit _ =>
      "Exception raised during build(" +:+ BUILD_INFO l +:+ "):" +:+ str err
  | _ =>
      "Unexpected exception raised during build(" +:+ BUILD_INFO l +:+ "): "
      +:+ str err
  end.

(** What the [except] clauses add to a run whose [try] block ended with
    [r] in state [st]. *)
Definition handled (l : locals) (w : world) (r : result unit) (st : state)
  : result unit * state :=
  match r with
  | Ok a => (Ok a, st)
  | Raise err =>
      match handler_call l err with
      | Some c =>
          (match ending (w (calls st)) with
           | Returned _ => Ok tt
           | Raised e => Raise e
           end,
           State (trace st ++ [Logged WARNING (handler_log l err);
                               Called c false (ending (w (calls st)))])
                 (S (calls st)) (clock st + elapsed (w (calls st))) None)
      | None => (Raise err, st)
      end
  end.

(** No call of the run raised an exception from outside the [Exception]
    hierarchy (a [SystemExit] of a collaborator, a [KeyboardInterrupt]). *)
Definition raises_only_Exceptions (tr : list event) : bool :=
  forallb (fun ev => match ev with
                     | Called _ _ (Raised e) => is_Exception e
                     | _ => true
                     end) tr.

(** Every terminal notification sent under the timer returned: none
    raised, none was cut by the deadline. *)
Definition timed_notifications_return (tr : list event) : bool :=
  forallb (fun ev => match ev with
                     | Called c true (Raised _) => negb (is_terminal c)
                     | _ => true
                     end) tr.

(** The trace of a setup that reaches the [try] statement. *)
Definition setup_trace (l : locals) (pv : list string) (v0 v1 : value)
  : list event :=
  [Called should_skip_logging false (Returned v0);
   Called (init_logging pv (logattrs l) (DATABASE_URL l) v0) false (Returned v1)].

(** The events the [except] clauses add. *)
Definition handler_events (l : locals) (w : world) (r : result unit) (st : state)
  : list event :=
  match r with
  | Ok _ => []
  | Raise err =>
      match handler_call l err with
      | Some c => [Logged WARNING (handler_log l err);
                   Called c false (ending (w (calls st)))]
      | None => []
      end
  end.



(** The generators [main] knows. *)
Definition generators : list string :=
  ["jekyll"; "hugo"; "static"; "node.js"; "script only"].

(** The tasks that receive the build flags. *)
Definition build_tasks : list string :=
  ["run-federalist-script"; "build-jekyll"; "build-hugo"].


End Tasks.

(** ** The stages [main] is written to run *)

Module Plan.
Import Py Tasks.

(** The variables [main] reads with [os.environ[...]], in the order of
    lines 64-88. *)
Definition required_variables : list string :=
  ["AWS_DEFAULT_REGION"; "BUCKET"; "BASEURL"; "BUILD_ID"; "CACHE_CONTROL";
   "BRANCH"; "CONFIG"; "REPOSITORY"; "OWNER"; "SITE_PREFIX"; "GENERATOR";
   "AWS_ACCESS_KEY_ID"; "AWS_SECRET_ACCESS_KEY"; "USER_ENVIRONMENT_VARIABLE_KEY";
   "FEDERALIST_BUILDER_CALLBACK"].

(** The calls of lines 140 and 180. *)
Definition fetch (l : locals) : call :=
  fetch_repo (OWNER l) (REPOSITORY l) (BRANCH l) (GITHUB_TOKEN l).

Definition upload (l : locals) : call :=
  publish (BASEURL l) (SITE_PREFIX l) (BUCKET l) (CACHE_CONTROL l)
          (AWS_DEFAULT_REGION l) (AWS_ACCESS_KEY_ID l) (AWS_SECRET_ACCESS_KEY l).

(** The subprocess of a task, as [run] starts it. *)
Definition subprocess (task : string) (args : option (dict string)) : call :=
  ctx_run (command task args) None.

(** The build engine of lines 163-171, if the generator has one. *)
Definition engine (l : locals) (flags : dict string) : list call :=
  if String.eqb (GENERATOR l) "jekyll" then
    [subprocess "build-jekyll" (Some (dict_set "--config" (CONFIG l) flags))]
  else if String.eqb (GENERATOR l) "hugo" then
    [subprocess "build-hugo" (Some flags)]
  else if String.eqb (GENERATOR l) "static" then
    [subprocess "build-static" None]
  else [].

(** The stages of the block under the deadline, in the order of the
    text. *)
Definition pipeline (json_dumps : value -> string) (l : locals)
    (decrypted_uevs : list uev) : list call :=
  let flags := build_flags json_dumps l decrypted_uevs in
  [fetch l; subprocess "run-federalist-script" (Some flags)]
  ++ engine l flags ++ [upload l].

(** The call returned: it did not raise and was not cut by the deadline. *)
Definition returned (ev : event) : bool :=
  match ev with
  | Called _ _ (Raised _) => false
  | _ => true
  end.

(** What follows the set-up and the processing notification in a run: log
    lines, stages and terminal notifications. *)
Definition later_event (ev : event) : bool :=
  match ev with
  | Called c _ _ => is_stage c || is_terminal c
  | Logged _ _ => true
  end.

(** The seconds the first [n] calls of a run take. *)
Fixpoint spent (w : world) (n : nat) : N :=
  match n with
  | O => 0
  | S m => spent w m + elapsed (w m)
  end.

(** The private values [main] gives to [init_logging]. *)
Definition priv_vals (l : locals) (decrypted_uevs : list uev) : list string :=
  [AWS_ACCESS_KEY_ID l; AWS_SECRET_ACCESS_KEY l]
  ++ (if Str.is_empty (GITHUB_TOKEN l) then [] else [GITHUB_TOKEN l])
  ++ map uev_value decrypted_uevs.

(** What the [except] clauses leave behind for the exception [err],
    when their notification ends with [o]. *)
Definition reported (l : locals) (err : exn) (o : outcome) : list event :=
  match err with
  | TimeoutException =>
      [Logged WARNING ("Build(" +:+ BUILD_INFO l +:+ ") has timed out");
       Called (post_build_timeout (STATUS_CALLBACK l) (FEDERALIST_BUILDER_CALLBACK l))
              false o]
  | UnexpectedExit detail =>
      [Logged WARNING ("Exception raised during build(" +:+ BUILD_INFO l
                       +:+ "):" +:+ detail);
       Called (post_build_error (STATUS_CALLBACK l) (FEDERALIST_BUILDER_CALLBACK l)
                                detail)
              false o]
  | _ =>
      if is_Exception err then
        [Logged WARNING ("Unexpected exception raised during build("
                         +:+ BUILD_INFO l +:+ "): " +:+ str err);
         Called (post_build_error (STATUS_CALLBACK l) (FEDERALIST_BUILDER_CALLBACK l)
                                  (unexpected_message l))
                false o]
      else []
  end.

End Plan.

(* ===================================================================== *)
(** * Sample runs *)
(* ===================================================================== *)

(** Concrete collaborators, requests, environments and oracles, on which
    the properties below are exercised. *)
Module Sample.
Import Py Tasks.

Definition dq : string := String Shlex.dquote EmptyString.

(** The document [[{"name": "API_KEY", "ciphertext": "c2VjcmV0"}]]. *)
Definition uevs_json : string :=
  "[{" +:+ dq +:+ "name" +:+ dq +:+ ": " +:+ dq +:+ "API_KEY" +:+ dq +:+ ", "
  +:+ dq +:+ "ciphertext" +:+ dq +:+ ": " +:+ dq +:+ "c2VjcmV0" +:+ dq +:+ "}]".

(** A [json.loads] that knows the documents of the samples. *)
Definition json_loads (s : string) : result value :=
  if String.eqb s "[]" then Ok (VList [])
  else if String.eqb s uevs_json
  then Ok (VList [VDict [("name", VStr "API_KEY"); ("ciphertext", VStr "c2VjcmV0")]])
  else Raise (ValueError "Expecting value").

(** A [json.dumps] for lists and dictionaries of strings that need no
    escape. *)
Fixpoint json_dumps (v : value) : string :=
  match v with
  | VStr s => dq +:+ s +:+ dq
  | VList items =>
      "[" +:+ (fix go (l : list value) : string :=
                 match l with
                 | [] => EmptyString
                 | [x] => json_dumps x
                 | x :: rest => json_dumps x +:+ ", " +:+ go rest
                 end) items +:+ "]"
  | VDict items =>
      "{" +:+ (fix go (l : list (string * value)) : string :=
                 match l with
                 | [] => EmptyString
                 | [(k, x)] => dq +:+ k +:+ dq +:+ ": " +:+ json_dumps x
                 | (k, x) :: rest =>
                     dq +:+ k +:+ dq +:+ ": " +:+ json_dumps x +:+ ", " +:+ go rest
                 end) items +:+ "}"
  | _ => "null"
  end.

(** A stand-in for the cipher: with the right key, the ciphertext marked
    as plain. *)
Definition decrypt (ciphertext : value) (key : string) : result string :=
  match ciphertext with
  | VStr c => if String.eqb key "k3y" then Ok ("plain:" +:+ c)
              else Raise (Exception "Invalid key")
  | _ => Raise (TypeError "ciphertext must be a string")
  end.

Definition delta_to_mins_secs (seconds : N) : string :=
  if seconds <? 60 then "0m" else "1m or more".

(** The parameters of the build step. *)
Definition build_arguments : list string :=
  ["aws_access_key_id"; "aws_default_region"; "aws_secret_access_key";
   "federalist_builder_callback"; "status_callback"; "baseurl"; "branch";
   "bucket"; "build_id"; "config"; "generator"; "github_token"; "owner";
   "repository"; "site_prefix"; "user_environment_variables"].

(** A request whose branch carries a command. *)
Definition request : dict value :=
  [("branch", VStr "; rm -rf /");
   ("owner", VStr "18F");
   ("repository", VStr "it's");
   ("generator", VStr "hugo");
   ("user_environment_variables", VStr "[]");
   ("colour", VStr "red")].

(** The same request with the branch key in upper case. *)
Definition request_upper : dict value :=
  [("BRANCH", VStr "main");
   ("owner", VStr "18F");
   ("repository", VStr "site");
   ("user_environment_variables", VList [])].

(** A request without a branch. *)
Definition request_no_branch : dict value :=
  [("owner", VStr "18F");
   ("repository", VStr "site");
   ("branch", VNone);
   ("user_environment_variables", VList [])].

(** The environment of a build with generator [g]. *)
Definition environment (g : string) : gmap string string :=
  list_to_map
    [("AWS_DEFAULT_REGION", "us-gov-west-1"); ("BUCKET", "bucket");
     ("BASEURL", "/site"); ("BUILD_ID", "42"); ("CACHE_CONTROL", "max-age=60");
     ("BRANCH", "main"); ("CONFIG", "{}"); ("REPOSITORY", "site");
     ("OWNER", "18F"); ("SITE_PREFIX", "site/18F/site"); ("GENERATOR", g);
     ("AWS_ACCESS_KEY_ID", "AKIA"); ("AWS_SECRET_ACCESS_KEY", "s3cr3t");
     ("USER_ENVIRONMENT_VARIABLES", uevs_json);
     ("USER_ENVIRONMENT_VARIABLE_KEY", "k3y");
     ("GITHUB_TOKEN", "ghp");
     ("FEDERALIST_BUILDER_CALLBACK", "https://builder/callback");
     ("STATUS_CALLBACK", "https://app/status")].

(** The same environment with a key that does not decrypt the variables. *)
Definition environment_wrong_key (g : string) : gmap string string :=
  <["USER_ENVIRONMENT_VARIABLE_KEY" := "0ther"]> (environment g).

Definition locals_of (g : string) : locals :=
  Locals "us-gov-west-1" "bucket" "/site" "42" "max-age=60" "main" "{}" "site"
         "18F" "site/18F/site" g "AKIA" "s3cr3t"
         (VList [VDict [("name", VStr "API_KEY"); ("ciphertext", VStr "c2VjcmV0")]])
         "k3y" "ghp" "https://builder/callback" "https://app/status" EmptyString.

Definition uevs : list uev := [Uev (VStr "API_KEY") "plain:c2VjcmV0"].

(** The state in which the [try] statement starts when both set-up calls
    take a second. *)
Definition started (g : string) : state :=
  State [Called should_skip_logging false (Returned (VBool false));
         Called (init_logging ["AKIA"; "s3cr3t"; "ghp"; "plain:c2VjcmV0"]
                              (logattrs (locals_of g)) EmptyString (VBool false))
                false (Returned VNone)]
        2 2 None.

(** Oracles.  Calls are numbered from 0: [should_skip_logging],
    [init_logging], [post_build_processing], [fetch_repo], then the calls
    of the path taken. *)
Definition quick (v : value) : response := Response 1 (Returned v).

(** The answers of [special] at the calls it lists, a quick return
    elsewhere; [should_skip_logging] says no, [fetch_repo] says 0. *)
Definition oracle (special : list (nat * response)) : world :=
  fun n =>
    match List.find (fun p => Nat.eqb (fst p) n) special with
    | Some p => snd p
    | None => if Nat.eqb n 0 then quick (VBool false)
              else if Nat.eqb n 3 then quick (VInt 0)
              else quick VNone
    end.

(** Every call returns at once. *)
Definition all_well : world := oracle [].

(** The fetch exits with 1. *)
Definition fetch_fails : world := oracle [(3%nat, quick (VInt 1))].



(** The processing notification cannot be delivered. *)
Definition processing_fails : world :=
  oracle [(2%nat, Response 1 (Raised (Exception "ConnectionError")))].


(** With generator [static]: the completion notification raises. *)
Definition completion_fails : world :=
  oracle [(7%nat, Response 1 (Raised (Exception "ConnectionError")))].

(** The fetch alone takes longer than the deadline, after a set-up and a
    processing notification that took an hour each. *)
Definition slow_fetch : world :=
  oracle [(1%nat, Response 3600 (Returned VNone));
          (2%nat, Response 3600 (Returned VNone));
          (3%nat, Response 2701 (Returned (VInt 0)))].

(** The run of [main] for generator [g] under oracle [w], and its trace. *)
Definition run (g : string) (w : world) : result unit * state :=
  run_main json_loads json_dumps decrypt delta_to_mins_secs (environment g) w.

Definition trace_of (g : string) (w : world) : list event := trace (snd (run g w)).

Definition status_url : string := "https://app/status".
Definition builder_url : string := "https://builder/callback".

End Sample.

(** Sample input of the script on the platform. *)
Module Cloud.
Import Py.

Definition vcap_application : value := VDict [("space_name", VStr "staging")].

(** Three user-provided services; the second and the third carry the
    name of the key service. *)
Definition vcap_services : value :=
  VDict [("user-provided",
          VList [VDict [("name", VStr "federalist-staging-rds");
                        ("credentials", VDict [("uri", VStr "postgres://db")])];
                 VDict [("name", VStr "federalist-staging-uev-key");
                        ("credentials", VDict [("key", VStr "k3y")])];
                 VDict [("name", VStr "federalist-staging-uev-key");
                        ("credentials", VStr "stale")]])].

(** The same without a key service. *)
Definition vcap_services_without_key : value :=
  VDict [("user-provided",
          VList [VDict [("name", VStr "federalist-staging-rds");
                        ("credentials", VDict [("uri", VStr "postgres://db")])]])].

(** A [json.loads] that knows the documents above, written as
    [Sample.json_dumps] writes them, and those of [Sample]. *)
Definition json_loads (s : string) : result value :=
  if String.eqb s (Sample.json_dumps vcap_application) then Ok vcap_application
  else if String.eqb s (Sample.json_dumps vcap_services) then Ok vcap_services
  else if String.eqb s (Sample.json_dumps vcap_services_without_key)
  then Ok vcap_services_without_key
  else if String.eqb s "{}" then Ok (VDict [])
  else Sample.json_loads s.

(** [str] on [None], the booleans and the small numbers. *)
Definition str_of (v : value) : string :=
  match v with
  | VNone => "None"
  | VBool true => "True"
  | VBool false => "False"
  | VInt 0 => "0"
  | VInt 1 => "1"
  | _ => "?"
  end.

Definition environment : gmap string string :=
  list_to_map
    [("VCAP_APPLICATION", Sample.json_dumps vcap_application);
     ("VCAP_SERVICES", Sample.json_dumps vcap_services);
     ("HOME", "/home/vcap")].

Definition environment_without_key : gmap string string :=
  <["VCAP_SERVICES" := Sample.json_dumps vcap_services_without_key]> environment.

(** A request that carries the two callbacks. *)
Definition request : dict value :=
  [("FEDERALIST_BUILDER_CALLBACK", VStr "https://builder/callback");
   ("STATUS_CALLBACK", VStr "https://app/status");
   ("branch", VStr "main");
   ("owner", VStr "18F");
   ("repository", VStr "site");
   ("generator", VStr "hugo");
   ("config", VNone);
   ("user_environment_variables", VList [])].

(** The keywords the script makes of [Sample.request]. *)
Definition sanitized : dict value :=
  [("branch", VStr "'; rm -rf /'");
   ("owner", VStr "18F");
   ("repository", VStr (Shlex.quote "it's"));
   ("generator", VStr "hugo");
   ("user_environment_variables", VList [])].

(** The environment and the keywords with which the script calls [build]
    for [request] in [environment]. *)
Definition environment_at_build : gmap string string :=
  <["USER_ENVIRONMENT_VARIABLE_KEY" := "k3y"]>
    (<["STATUS_CALLBACK" := "https://app/status"]>
       (<["FEDERALIST_BUILDER_CALLBACK" := "https://builder/callback"]>
          environment)).

Definition keywords_at_build : dict value :=
  [("branch", VStr "main");
   ("owner", VStr "18F");
   ("repository", VStr "site");
   ("generator", VStr "hugo");
   ("user_environment_variables", VList [])].

Definition printed : list string :=
  ["WARNING - Ignoring unused build argument: FEDERALIST_BUILDER_CALLBACK";
   "WARNING - Ignoring unused build argument: STATUS_CALLBACK"].

End Cloud.

(* ===================================================================== *)
(** * Properties *)
(* ===================================================================== *)

(** ** Strings *)

Lemma str_app_cons (c : ascii) (s t : string) :
  String c s +:+ t = String c (s +:+ t).
Proof. reflexivity. Qed.

Lemma str_app_nil_r (s : string) : s +:+ EmptyString = s.
Proof.
  induction s as [|c s IH]; [reflexivity|].
  now rewrite str_app_cons, IH.
Qed.

Lemma str_app_assoc (a b c : string) : (a +:+ b) +:+ c = a +:+ (b +:+ c).
Proof.
  induction a as [|x a IH]; [reflexivity|].
  now rewrite !str_app_cons, IH.
Qed.

Lemma str_app_snoc (a : string) (c : ascii) (b : string) :
  (a +:+ String c EmptyString) +:+ b = a +:+ String c b.
Proof. now rewrite str_app_assoc. Qed.

(** ** The shell reads a quoted value as literal text *)

Section ShellQuoting.
Import Sh.

Lemma feed_app (a b : string) : forall st, feed st (a +:+ b) = feed (feed st a) b.
Proof. induction a as [|c a IH]; intros st; simpl; [reflexivity | apply IH]. Qed.

Lemma push_text_push (c : ascii) (t : string) (w : option (bool * string)) :
  push_text t (push true c w) = push_text (String c t) w.
Proof.
  destruct w as [[l u]|]; simpl; [|reflexivity].
  now rewrite andb_true_r, str_app_snoc.
Qed.

(** A character of [shlex]'s safe class is an ordinary character of a
    word for the shell. *)
Lemma step_safe (st : lexer) (c : ascii) :
  md st = Plain -> Shlex.is_safe c = true ->
  step st c = Lexer (toks st) (push true c (cur st)) Plain.
Proof.
  intros Hmd Hsafe. unfold step. rewrite Hmd. clear Hmd.
  destruct c as [[] [] [] [] [] [] [] []];
    solve [ discriminate Hsafe | reflexivity ].
Qed.

Lemma feed_safe (s : string) : forall st,
  md st = Plain -> Shlex.no_unsafe s = true -> s <> EmptyString ->
  feed st s = Lexer (toks st) (push_text s (cur st)) Plain.
Proof.
  induction s as [|c s IH]; intros st Hmd Hsafe Hne; [congruence|].
  simpl in Hsafe. apply andb_true_iff in Hsafe as [Hc Hs].
  simpl. rewrite (step_safe st c Hmd Hc).
  destruct s as [|d s'].
  - simpl. destruct (cur st) as [[l u]|]; simpl; [|reflexivity].
    now rewrite andb_true_r.
  - rewrite IH; [|reflexivity|exact Hs|discriminate].
    cbn [toks cur]. now rewrite push_text_push.
Qed.

(** Inside single quotes, the text [replace] makes of [s] adds exactly [s]
    to the word: every character but the quote stands for itself, and the
    five characters written for a quote leave and re-enter the quotes
    around one double-quoted quote. *)
Lemma feed_single (s : string) : forall ts l u,
  feed (Lexer ts (Some (l, u)) Single)
       (Str.replace_char Shlex.squote Shlex.squote_escape s)
  = Lexer ts (Some (l, u +:+ s)) Single.
Proof.
  induction s as [|c s IH]; intros ts l u; cbn [Str.replace_char].
  - cbn [feed]. now rewrite str_app_nil_r.
  - destruct (Ascii.eqb c Shlex.squote) eqn:Hc.
    + apply Ascii.eqb_eq in Hc. subst c.
      rewrite feed_app.
      change (feed (Lexer ts (Some (l, u)) Single) Shlex.squote_escape)
        with (Lexer ts (Some (l && true, u +:+ String Shlex.squote EmptyString))
                    Single).
      rewrite IH. now rewrite andb_true_r, str_app_snoc.
    + cbn [feed]. unfold step at 1. cbn [md]. rewrite Hc. cbn [toks cur push].
      rewrite IH. now rewrite andb_true_r, str_app_snoc.
Qed.

(** The text [shlex.quote] makes of [s], read by the shell outside quotes,
    adds the literal text [s] to the word in progress and leaves the shell
    outside quotes: nothing of [s] ends the word, starts an operator or an
    expansion. *)
Lemma feed_quote (s : string) (st : lexer) :
  md st = Plain ->
  feed st (Shlex.quote s) = Lexer (toks st) (push_text s (cur st)) Plain.
Proof.
  intros Hmd. unfold Shlex.quote.
  destruct s as [|c s]; [|cbn [Str.is_empty]].
  - cbn. unfold step. rewrite Hmd. cbn.
    destruct (cur st) as [[l u]|]; cbn; [|reflexivity].
    now rewrite str_app_nil_r.
  - destruct (Shlex.no_unsafe (String c s)) eqn:Hsafe.
    + apply feed_safe; [exact Hmd|exact Hsafe|discriminate].
    + change (feed st (String Shlex.squote ?t)) with (feed (step st Shlex.squote) t).
      rewrite feed_app.
      assert (Hopen : step st Shlex.squote
                      = Lexer (toks st) (start (cur st)) Single).
      { unfold step. now rewrite Hmd. }
      rewrite Hopen.
      destruct (cur st) as [[l u]|]; cbn [start].
      * rewrite feed_single. reflexivity.
      * rewrite feed_single. reflexivity.
Qed.

Lemma lex_quote (s : string) : lex (Shlex.quote s) = Some [Word true s].
Proof. unfold lex. now rewrite feed_quote. Qed.

End ShellQuoting.

(** ** The command line of [run_task] *)

Section CommandLine.
Import Sh Tasks.


Lemma feed_plain_word (s : string) (st : lexer) :
  md st = Plain -> plain_word s = true ->
  feed st s = Lexer (toks st) (push_text s (cur st)) Plain.
Proof.
  intros Hmd Hs. apply andb_true_iff in Hs as [Hne Hsafe].
  apply feed_safe; [exact Hmd|exact Hsafe|].
  intros ->. discriminate Hne.
Qed.

Lemma feed_flag_arg (f v : string) (ts : list token) :
  plain_word f = true ->
  feed (Lexer ts None Plain) (f +:+ "=" +:+ Shlex.quote v)
  = Lexer ts (Some (true, f +:+ "=" +:+ v)) Plain.
Proof.
  intros Hf. rewrite feed_app, (feed_plain_word f); [|reflexivity|exact Hf].
  cbn [toks cur push_text]. rewrite feed_app.
  change (feed (Lexer ts (Some (true, f)) Plain) "=")
    with (Lexer ts (Some (true && true, f +:+ "=")) Plain).
  rewrite feed_quote; [|reflexivity].
  cbn [toks cur push_text andb]. now rewrite str_app_assoc.
Qed.

Lemma feed_space (ts : list token) (w : bool * string) (rest : string) :
  feed (Lexer ts (Some w) Plain) (" " +:+ rest)
  = feed (Lexer (ts ++ [Word (fst w) (snd w)]) None Plain) rest.
Proof. destruct w as [l t]. reflexivity. Qed.

Lemma lex_flag_args (flags : list (string * string)) : forall ts,
  forallb plain_word (map fst flags) = true ->
  finish (feed (Lexer ts None Plain)
               (Str.join " " (Tasks.flag_args (Some flags))))
  = Some (ts ++ map flag_word flags).
Proof.
  unfold Tasks.flag_args.
  induction flags as [|[f v] rest IH]; intros ts Hplain.
  - cbn. now rewrite app_nil_r.
  - cbn [map fst forallb] in Hplain.
    apply andb_true_iff in Hplain as [Hf Hrest].
    destruct rest as [|[f' v'] rest'].
    + cbn [map Str.join fst snd]. rewrite feed_flag_arg by exact Hf.
      reflexivity.
    + change (Str.join " " (map ?g ((f, v) :: ?r)))
        with (g (f, v) +:+ " " +:+ Str.join " " (map g r)).
      cbn [fst snd]. rewrite feed_app, feed_flag_arg by exact Hf.
      rewrite feed_space, IH by exact Hrest.
      cbn [fst snd map]. now rewrite <- app_assoc.
Qed.

(** The shell splits the command line of [run_task] into [inv], the task
    name and one literal word per flag, whose text is the flag, an equals
    sign and the value as it was before quoting. *)
Lemma lex_command (task : string) (flags : list (string * string)) :
  plain_word task = true ->
  forallb plain_word (map fst flags) = true ->
  lex (Tasks.command task (Some flags))
  = Some (Word true "inv" :: Word true task :: map flag_word flags).
Proof.
  intros Htask Hflags. unfold lex, Tasks.command.
  change (feed init ("inv " +:+ ?r))
    with (feed (Lexer [Word true "inv"] None Plain) r).
  rewrite feed_app, (feed_plain_word task) by (reflexivity || exact Htask).
  cbn [toks cur push_text]. rewrite feed_space.
  now rewrite lex_flag_args by exact Hflags.
Qed.

(** Without flags the command is [inv], the task name and nothing else. *)
Lemma lex_command_no_flags (task : string) :
  plain_word task = true ->
  lex (Tasks.command task None) = Some [Word true "inv"; Word true task].
Proof.
  intros Htask. unfold lex, Tasks.command.
  change (feed init ("inv " +:+ ?r))
    with (feed (Lexer [Word true "inv"] None Plain) r).
  rewrite feed_app, (feed_plain_word task) by (reflexivity || exact Htask).
  reflexivity.
Qed.

End CommandLine.

(** ** Dictionaries *)

Section Dicts.
Import Py.
Context {V : Type}.

Lemma dict_get_set_eq (k : string) (v : V) (d : dict V) :
  dict_get k (dict_set k v d) = Some v.
Proof.
  induction d as [|[k' v'] d IH]; simpl.
  - now rewrite String.eqb_refl.
  - destruct (String.eqb k' k) eqn:E; simpl; rewrite E; [reflexivity|exact IH].
Qed.

Lemma dict_get_set_ne (k k' : string) (v : V) (d : dict V) :
  k <> k' -> dict_get k' (dict_set k v d) = dict_get k' d.
Proof.
  intros Hne. induction d as [|[k0 v0] d IH]; simpl.
  - apply String.eqb_neq in Hne. now rewrite Hne.
  - destruct (String.eqb k0 k) eqn:E; simpl.
    + apply String.eqb_eq in E. subst k0.
      apply String.eqb_neq in Hne. now rewrite Hne.
    + now rewrite IH.
Qed.

Lemma getitem_missing (d : dict V) (k : string) :
  dict_get k d = None -> getitem d k = Raise (KeyError k).
Proof. unfold getitem. now intros ->. Qed.

End Dicts.

(** ** The parameter sanitizer *)

Section SanitizerFacts.
Import Py Sanitizer.
Local Open Scope result_scope.

Variable build_arguments : list string.
Variable json_loads : string -> result value.

Let kwargs_of := Sanitizer.kwargs_of build_arguments.
Let clean := Sanitizer.clean json_loads.
Let parse_uevs := Sanitizer.parse_uevs json_loads.
Let before := Sanitizer.before json_loads.


Lemma quote_key_Ok (k : string) (kw kw' : dict value) :
  quote_key k kw = Ok kw' ->
  exists v q, dict_get k kw = Some v /\ quote v = Ok q
              /\ kw' = dict_set k (VStr q) kw.
Proof.
  unfold quote_key, getitem. destruct (dict_get k kw) as [v|]; simpl; [|discriminate].
  destruct (quote v) as [q|e] eqn:Hq; simpl; [|discriminate].
  intros [= <-]. now exists v, q.
Qed.

Lemma quote_key_missing (k : string) (kw : dict value) :
  dict_get k kw = None -> quote_key k kw = Raise (KeyError k).
Proof. unfold quote_key, getitem. now intros ->. Qed.

Lemma quote_key_other (k k' : string) (kw kw' : dict value) :
  quote_key k kw = Ok kw' -> k <> k' -> dict_get k' kw' = dict_get k' kw.
Proof.
  intros H Hne. apply quote_key_Ok in H as (v & q & _ & _ & ->).
  now apply dict_get_set_ne.
Qed.

Lemma quote_key_self (k : string) (kw kw' : dict value) :
  quote_key k kw = Ok kw' ->
  exists v q, dict_get k kw = Some v /\ quote v = Ok q
              /\ dict_get k kw' = Some (VStr q).
Proof.
  intros H. apply quote_key_Ok in H as (v & q & Hv & Hq & ->).
  exists v, q. now rewrite dict_get_set_eq.
Qed.

Lemma parse_uevs_missing (kw : dict value) :
  dict_get "user_environment_variables" kw = None ->
  parse_uevs kw = Raise (KeyError "user_environment_variables").
Proof. unfold parse_uevs, Sanitizer.parse_uevs, getitem. now intros ->. Qed.

Lemma parse_uevs_other (k : string) (kw kw' : dict value) :
  parse_uevs kw = Ok kw' -> k <> "user_environment_variables" ->
  dict_get k kw' = dict_get k kw.
Proof.
  unfold parse_uevs, Sanitizer.parse_uevs, getitem.
  destruct (dict_get "user_environment_variables" kw) as [uevs|]; simpl;
    [|discriminate].
  intros H Hne.
  destruct (truthy uevs && is_str uevs); [|now inversion H].
  destruct uevs; try (now inversion H).
  destruct (json_loads s) as [parsed|e]; simpl in H; [|discriminate].
  inversion H; subst. apply dict_get_set_ne. congruence.
Qed.

(** Every value [shlex.quote] returns is the quotation of a string. *)
Lemma quote_is_quotation (v : value) (q : string) :
  quote v = Ok q -> exists s, q = Shlex.quote s /\ (forall t, v = VStr t -> t = s).
Proof.
  unfold quote. destruct (negb (truthy v)) eqn:E.
  - intros [= <-]. exists EmptyString. split; [reflexivity|].
    intros t ->. simpl in E. now destruct t.
  - destruct v; try discriminate. intros [= <-]. exists s.
    split; [reflexivity|]. now intros t [= ->].
Qed.

(** After [clean], each identifier is bound to the quotation of the
    string it was bound to. *)
Lemma clean_identifier (k : string) (kw kw' : dict value) :
  In k identifiers -> clean kw = Ok kw' ->
  exists s, dict_get k kw' = Some (VStr (Shlex.quote s))
            /\ (forall t, dict_get k kw = Some (VStr t) -> t = s).
Proof.
  intros Hk. unfold clean, Sanitizer.clean. fold parse_uevs.
  destruct (parse_uevs kw) as [kw0|e] eqn:H0; simpl; [|discriminate].
  destruct (quote_key "branch" kw0) as [kw1|e] eqn:H1; simpl; [|discriminate].
  destruct (quote_key "owner" kw1) as [kw2|e] eqn:H2; simpl; [|discriminate].
  intros H3.
  assert (Hstep : forall j a b, quote_key j a = Ok b ->
            exists s, dict_get j b = Some (VStr (Shlex.quote s))
                      /\ (forall t, dict_get j a = Some (VStr t) -> t = s)).
  { intros j a b H. apply quote_key_self in H as (v & q & Hv & Hq & Hb).
    apply quote_is_quotation in Hq as (s & -> & Hs).
    exists s. split; [exact Hb|]. intros t Ht. apply Hs. congruence. }
  simpl in Hk. destruct Hk as [<-|[<-|[<-|[]]]].
  - destruct (Hstep _ _ _ H1) as (s & Hs & Hin). exists s. split.
    + rewrite (quote_key_other _ "branch" _ _ H3), (quote_key_other _ "branch" _ _ H2);
        [exact Hs|discriminate|discriminate].
    + intros t Ht. apply Hin.
      now rewrite (parse_uevs_other "branch" _ _ H0).
  - destruct (Hstep _ _ _ H2) as (s & Hs & Hin). exists s. split.
    + rewrite (quote_key_other _ "owner" _ _ H3); [exact Hs|discriminate].
    + intros t Ht. apply Hin.
      rewrite (quote_key_other _ "owner" _ _ H1), (parse_uevs_other "owner" _ _ H0);
        [exact Ht|discriminate|discriminate].
  - destruct (Hstep _ _ _ H3) as (s & Hs & Hin). exists s. split; [exact Hs|].
    intros t Ht. apply Hin.
    rewrite (quote_key_other _ "repository" _ _ H2),
      (quote_key_other _ "repository" _ _ H1),
      (parse_uevs_other "repository" _ _ H0);
      [exact Ht|discriminate..].
Qed.

Lemma contains_In (names : list string) (k : string) :
  contains names k = true <-> In k names.
Proof.
  unfold contains. rewrite existsb_exists. split.
  - intros (x & Hx & E). apply String.eqb_eq in E. now subst.
  - intros H. exists k. split; [exact H|apply String.eqb_refl].
Qed.

(** A keyword is missing after the filter when no request key that
    passes the filter is written [k] in lower case. *)
Lemma kwargs_of_missing (k : string) (params : dict value) :
  (forall k' v, In (k', v) params -> is_not_None v = true ->
                contains build_arguments k' = true -> Str.lower k' <> k) ->
  dict_get k (kwargs_of params) = None.
Proof.
  unfold kwargs_of, Sanitizer.kwargs_of.
  assert (G : forall acc, dict_get k acc = None ->
    (forall k' v, In (k', v) params -> is_not_None v = true ->
                  contains build_arguments k' = true -> Str.lower k' <> k) ->
    dict_get k
      (fold_left
         (fun acc kv =>
            if is_not_None (snd kv) && contains build_arguments (fst kv)
            then dict_set (Str.lower (fst kv)) (snd kv) acc else acc)
         params acc) = None).
  { induction params as [|[k' v] rest IH]; intros acc Hacc Hall; [exact Hacc|].
    cbn [fold_left fst snd]. apply IH.
    - destruct (is_not_None v && contains build_arguments k') eqn:E; [|exact Hacc].
      apply andb_true_iff in E as [Hv Hk'].
      rewrite dict_get_set_ne; [exact Hacc|].
      apply (Hall k' v); [now left|exact Hv|exact Hk'].
    - intros k'' v' Hin. apply Hall. now right. }
  intros Hall. now apply G.
Qed.


(** A keyword the request leaves out, or gives as [null], is missing
    after the filter. *)
Lemma kwargs_of_absent (k : string) (params : dict value) :
  lower_case_names build_arguments ->
  (forall v, In (k, v) params -> v = VNone) ->
  dict_get k (kwargs_of params) = None.
Proof.
  intros Hlow Hnull. apply kwargs_of_missing.
  intros k' v Hin Hv Hk' Heq.
  apply contains_In in Hk'. rewrite (Hlow _ Hk') in Heq. subst k'.
  apply Hnull in Hin. subst v. discriminate Hv.
Qed.

(** What the filter binds a keyword to: the value of the last request key
    that is not [null], is spelled exactly as a parameter of the build
    step, and is written [k] in lower case. *)
Lemma kwargs_of_lookup (k : string) (params : dict value) :
  dict_get k (kwargs_of params)
  = fold_left
      (fun found kv =>
         if is_not_None (snd kv) && contains build_arguments (fst kv)
            && String.eqb (Str.lower (fst kv)) k
         then Some (snd kv) else found)
      params None.
Proof.
  unfold kwargs_of, Sanitizer.kwargs_of.
  change (@None value) with (dict_get k (@nil (string * value))) at 1.
  generalize (@nil (string * value)) as acc.
  induction params as [|[k' v] rest IH]; intros acc; [reflexivity|].
  cbn [fold_left fst snd]. rewrite IH. f_equal.
  destruct (is_not_None v && contains build_arguments k'); [|reflexivity].
  cbn [andb]. destruct (String.eqb (Str.lower k') k) eqn:E.
  - apply String.eqb_eq in E. subst k. apply dict_get_set_eq.
  - apply String.eqb_neq in E. now apply dict_get_set_ne.
Qed.

(** With a keyword missing, [clean] ends with the [KeyError] of the first
    read of that keyword, or with the exception of an earlier line. *)
Lemma clean_missing (k : string) (kw0 : dict value) :
  In k required -> dict_get k kw0 = None ->
  match before k kw0 with
  | Ok kw => getitem kw k = Raise (KeyError k) /\ clean kw0 = Raise (KeyError k)
  | Raise e => clean kw0 = Raise e
  end.
Proof.
  intros Hk Hmiss. unfold clean, before, Sanitizer.clean, Sanitizer.before.
  fold parse_uevs.
  simpl in Hk. destruct Hk as [<-|[<-|[<-|[<-|[]]]]]; cbn [String.eqb Ascii.eqb Bool.eqb].
  - rewrite (parse_uevs_missing _ Hmiss). cbn [bind].
    split; [now apply getitem_missing|reflexivity].
  - destruct (parse_uevs kw0) as [kw1|e] eqn:H0; cbn [bind]; [|reflexivity].
    assert (H1 : dict_get "branch" kw1 = None)
      by now rewrite (parse_uevs_other "branch" _ _ H0).
    rewrite (quote_key_missing _ _ H1). cbn [bind].
    split; [now apply getitem_missing|reflexivity].
  - destruct (parse_uevs kw0) as [kw1|e] eqn:H0; cbn [bind]; [|reflexivity].
    destruct (quote_key "branch" kw1) as [kw2|e] eqn:H1; cbn [bind]; [|reflexivity].
    assert (H2 : dict_get "owner" kw2 = None).
    { rewrite (quote_key_other _ "owner" _ _ H1) by discriminate.
      now rewrite (parse_uevs_other "owner" _ _ H0). }
    rewrite (quote_key_missing _ _ H2). cbn [bind].
    split; [now apply getitem_missing|reflexivity].
  - destruct (parse_uevs kw0) as [kw1|e] eqn:H0; cbn [bind]; [|reflexivity].
    destruct (quote_key "branch" kw1) as [kw2|e] eqn:H1; cbn [bind]; [|reflexivity].
    destruct (quote_key "owner" kw2) as [kw3|e] eqn:H2; cbn [bind]; [|reflexivity].
    assert (H3 : dict_get "repository" kw3 = None).
    { rewrite (quote_key_other _ "repository" _ _ H2) by discriminate.
      rewrite (quote_key_other _ "repository" _ _ H1) by discriminate.
      now rewrite (parse_uevs_other "repository" _ _ H0). }
    rewrite (quote_key_missing _ _ H3).
    split; [now apply getitem_missing|reflexivity].
Qed.

End SanitizerFacts.

(** ** More on the parameter sanitizer *)

Section SanitizerMore.
Import Py Sanitizer.
Local Open Scope result_scope.
Local Set Default Proof Using "Type".

Variable build_arguments : list string.
Variable json_loads : string -> result value.

Let kwargs_of := Sanitizer.kwargs_of build_arguments.
Let clean := Sanitizer.clean json_loads.
Let parse_uevs := Sanitizer.parse_uevs json_loads.
Let before := Sanitizer.before json_loads.

Lemma dict_get_set_Some {V} (k k' : string) (v x : V) (d : dict V) :
  dict_get k' (dict_set k v d) = Some x ->
  (k' = k /\ x = v) \/ dict_get k' d = Some x.
Proof.
  destruct (String.eqb k k') eqn:E.
  - apply String.eqb_eq in E. subst k'. rewrite dict_get_set_eq.
    intros [= <-]. now left.
  - apply String.eqb_neq in E. rewrite dict_get_set_ne by exact E. now right.
Qed.

(** What [parse_uevs] leaves for [user_environment_variables]. *)
Lemma parse_uevs_self (kw : dict value) (given : value) :
  dict_get "user_environment_variables" kw = Some given ->
  match given with
  | VStr (String _ _ as text) =>
      match json_loads text with
      | Raise e => parse_uevs kw = Raise e
      | Ok parsed =>
          exists kw', parse_uevs kw = Ok kw'
                      /\ dict_get "user_environment_variables" kw' = Some parsed
      end
  | _ => parse_uevs kw = Ok kw
  end.
Proof.
  intros H. unfold parse_uevs, Sanitizer.parse_uevs, getitem. rewrite H. cbn [bind].
  destruct given as [| | | |[|c s]| |]; try reflexivity.
  - destruct b; reflexivity.
  - destruct (z =? 0)%Z eqn:E; cbn; rewrite E; reflexivity.
  - destruct f; reflexivity.
  - cbn [truthy is_str Str.is_empty negb andb].
    destruct (json_loads (String c s)) as [parsed|e]; cbn [bind]; [|reflexivity].
    eexists. split; [reflexivity|]. apply dict_get_set_eq.
  - destruct items; reflexivity.
  - destruct items; reflexivity.
Qed.

(** The three quotings leave every other keyword as it is. *)
Lemma quotings_other (k : string) (kw1 kw2 kw3 kw4 : dict value) :
  quote_key "branch" kw1 = Ok kw2 -> quote_key "owner" kw2 = Ok kw3 ->
  quote_key "repository" kw3 = Ok kw4 -> ~ In k identifiers ->
  dict_get k kw4 = dict_get k kw1.
Proof.
  intros H1 H2 H3 Hk.
  rewrite (quote_key_other _ k _ _ H3), (quote_key_other _ k _ _ H2),
    (quote_key_other _ k _ _ H1); [reflexivity|intros <-; apply Hk; cbn; auto..].
Qed.

Lemma clean_Ok (kw kw' : dict value) :
  clean kw = Ok kw' ->
  exists kw1 kw2 kw3,
    parse_uevs kw = Ok kw1 /\ quote_key "branch" kw1 = Ok kw2
    /\ quote_key "owner" kw2 = Ok kw3 /\ quote_key "repository" kw3 = Ok kw'.
Proof.
  unfold clean, Sanitizer.clean. fold parse_uevs.
  destruct (parse_uevs kw) as [kw1|e]; cbn [bind]; [|discriminate].
  destruct (quote_key "branch" kw1) as [kw2|e] eqn:H1; cbn [bind]; [|discriminate].
  destruct (quote_key "owner" kw2) as [kw3|e] eqn:H2; cbn [bind]; [|discriminate].
  intros H3. now exists kw1, kw2, kw3.
Qed.

(** [clean] leaves the keywords it does not read as they are. *)
Lemma clean_other (k : string) (kw kw' : dict value) :
  clean kw = Ok kw' -> ~ In k required -> dict_get k kw' = dict_get k kw.
Proof.
  intros H Hk. apply clean_Ok in H as (kw1 & kw2 & kw3 & H0 & H1 & H2 & H3).
  rewrite (quotings_other k _ _ _ _ H1 H2 H3)
    by (intros Hin; apply Hk; cbn in Hin |- *; auto 10).
  apply (parse_uevs_other json_loads k _ _ H0). intros ->. apply Hk. cbn. auto.
Qed.

(** [clean] binds no keyword that was not bound. *)
Lemma clean_bound (k : string) (kw kw' : dict value) (v : value) :
  clean kw = Ok kw' -> dict_get k kw' = Some v -> exists v0, dict_get k kw = Some v0.
Proof.
  intros H Hv.
  destruct (in_dec String.string_dec k required) as [Hin|Hout].
  - apply clean_Ok in H as (kw1 & kw2 & kw3 & H0 & H1 & H2 & H3).
    cbn in Hin. destruct Hin as [<-|[<-|[<-|[<-|[]]]]].
    + unfold parse_uevs, Sanitizer.parse_uevs, getitem in H0.
      destruct (dict_get "user_environment_variables" kw) as [u|]; [eauto|discriminate].
    + apply quote_key_Ok in H1 as (b & q & Hb & _ & _).
      rewrite (parse_uevs_other json_loads "branch" _ _ H0) in Hb by discriminate.
      eauto.
    + apply quote_key_Ok in H2 as (b & q & Hb & _ & _).
      rewrite (quote_key_other _ "owner" _ _ H1) in Hb by discriminate.
      rewrite (parse_uevs_other json_loads "owner" _ _ H0) in Hb by discriminate.
      eauto.
    + apply quote_key_Ok in H3 as (b & q & Hb & _ & _).
      rewrite (quote_key_other _ "repository" _ _ H2) in Hb by discriminate.
      rewrite (quote_key_other _ "repository" _ _ H1) in Hb by discriminate.
      rewrite (parse_uevs_other json_loads "repository" _ _ H0) in Hb by discriminate.
      eauto.
  - rewrite (clean_other k _ _ H Hout) in Hv. eauto.
Qed.

(** A keyword bound after the filter comes from a request entry that
    passes the filter. *)
Lemma kwargs_of_bound (k : string) (params : dict value) (v : value) :
  dict_get k (kwargs_of params) = Some v ->
  exists k', In (k', v) params /\ is_not_None v = true
             /\ contains build_arguments k' = true /\ Str.lower k' = k.
Proof.
  unfold kwargs_of. rewrite kwargs_of_lookup.
  assert (G : forall acc,
    fold_left
      (fun found kv =>
         if is_not_None (snd kv) && contains build_arguments (fst kv)
            && String.eqb (Str.lower (fst kv)) k
         then Some (snd kv) else found) params acc = Some v ->
    acc = Some v \/
    exists k', In (k', v) params /\ is_not_None v = true
               /\ contains build_arguments k' = true /\ Str.lower k' = k).
  { induction params as [|[k' v'] rest IH]; intros acc H; [now left|].
    cbn [fold_left fst snd] in H. apply IH in H as [H|(k0 & Hin & H)].
    - destruct (is_not_None v' && contains build_arguments k'
                && String.eqb (Str.lower k') k) eqn:E; [|now left].
      injection H as ->. apply andb_true_iff in E as [E E3].
      apply andb_true_iff in E as [E1 E2]. apply String.eqb_eq in E3.
      right. exists k'. repeat split; try assumption. now left.
    - right. exists k0. split; [now right|exact H]. }
  intros H. apply G in H as [H|H]; [discriminate H|exact H].
Qed.

(** A request entry that passes the filter leaves its name bound, in
    lower case. *)
Lemma kwargs_of_kept (k : string) (v : value) (params : dict value) :
  In (k, v) params -> is_not_None v = true -> contains build_arguments k = true ->
  exists v', dict_get (Str.lower k) (kwargs_of params) = Some v'.
Proof.
  intros Hin Hv Hk. unfold kwargs_of. rewrite kwargs_of_lookup.
  assert (G : forall ps acc,
    (acc <> None \/ In (k, v) ps) ->
    fold_left
      (fun found kv =>
         if is_not_None (snd kv) && contains build_arguments (fst kv)
            && String.eqb (Str.lower (fst kv)) (Str.lower k)
         then Some (snd kv) else found) ps acc <> None).
  { induction ps as [|[k' v'] rest IH]; intros acc H.
    - destruct H as [H|[]]. exact H.
    - cbn [fold_left fst snd]. apply IH. destruct H as [H|[H|H]].
      + left. destruct (_ && _ && _); [discriminate|exact H].
      + injection H as -> ->. left. rewrite Hv, Hk, String.eqb_refl. discriminate.
      + now right. }
  specialize (G params None (or_intror Hin)).
  destruct (fold_left _ params None) as [v'|]; [eauto|congruence].
Qed.

(** For a request without repeated keys and a build step with lower-case
    parameters, the filter binds a keyword to the request's value of that
    very name, when it is a parameter and not [null]. *)
Lemma kwargs_of_request (k : string) (params : dict value) :
  lower_case_names build_arguments -> List.NoDup (map fst params) ->
  dict_get k (kwargs_of params)
  = match dict_get k params with
    | Some v => if is_not_None v && contains build_arguments k then Some v else None
    | None => None
    end.
Proof.
  intros Hlow Hnd. unfold kwargs_of. rewrite kwargs_of_lookup.
  assert (G : forall acc,
    fold_left
      (fun found kv =>
         if is_not_None (snd kv) && contains build_arguments (fst kv)
            && String.eqb (Str.lower (fst kv)) k
         then Some (snd kv) else found) params acc
    = match dict_get k params with
      | Some v => if is_not_None v && contains build_arguments k then Some v else acc
      | None => acc
      end).
  { induction params as [|[k' v'] rest IH]; intros acc; [reflexivity|].
    cbn [map fst] in Hnd. apply List.NoDup_cons_iff in Hnd as [Hnew Hnd].
    cbn [fold_left fst snd dict_get]. rewrite IH by exact Hnd.
    destruct (String.eqb k' k) eqn:E.
    - apply String.eqb_eq in E. subst k'.
      assert (Hrest : dict_get k rest = None).
      { clear -Hnew. induction rest as [|[k0 v0] rest IH]; [reflexivity|].
        cbn [dict_get]. destruct (String.eqb k0 k) eqn:E.
        - apply String.eqb_eq in E. subst k0. exfalso. apply Hnew. now left.
        - apply IH. intros H. apply Hnew. now right. }
      rewrite Hrest.
      destruct (is_not_None v' && contains build_arguments k) eqn:C; [|reflexivity].
      apply andb_true_iff in C as [_ C]. apply contains_In in C.
      now rewrite (Hlow _ C), String.eqb_refl.
    - destruct (is_not_None v' && contains build_arguments k') eqn:C; [|reflexivity].
      apply andb_true_iff in C as [_ C]. apply contains_In in C.
      now rewrite (Hlow _ C), E. }
  apply G.
Qed.

(** An identifier bound to a value that [shlex.quote] refuses: the script
    ends at the line that quotes it, unless an earlier line ends it. *)
Lemma clean_unquotable (k : string) (kw0 : dict value) (v : value) (e : exn) :
  In k identifiers -> dict_get k kw0 = Some v -> quote v = Raise e ->
  match before k kw0 with
  | Ok _ => clean kw0 = Raise e
  | Raise e' => clean kw0 = Raise e'
  end.
Proof.
  intros Hk Hv Hq. unfold clean, before, Sanitizer.clean, Sanitizer.before.
  fold parse_uevs.
  assert (Hfail : forall kw, dict_get k kw = Some v -> quote_key k kw = Raise e).
  { intros kw H. unfold quote_key, getitem. rewrite H. cbn [bind]. now rewrite Hq. }
  cbn in Hk. destruct Hk as [<-|[<-|[<-|[]]]]; cbn [String.eqb Ascii.eqb Bool.eqb].
  - destruct (parse_uevs kw0) as [kw1|e'] eqn:H0; cbn [bind]; [|reflexivity].
    rewrite Hfail; [reflexivity|].
    now rewrite (parse_uevs_other json_loads "branch" _ _ H0).
  - destruct (parse_uevs kw0) as [kw1|e'] eqn:H0; cbn [bind]; [|reflexivity].
    destruct (quote_key "branch" kw1) as [kw2|e'] eqn:H1; cbn [bind]; [|reflexivity].
    rewrite Hfail; [reflexivity|].
    rewrite (quote_key_other _ "owner" _ _ H1) by discriminate.
    now rewrite (parse_uevs_other json_loads "owner" _ _ H0).
  - destruct (parse_uevs kw0) as [kw1|e'] eqn:H0; cbn [bind]; [|reflexivity].
    destruct (quote_key "branch" kw1) as [kw2|e'] eqn:H1; cbn [bind]; [|reflexivity].
    destruct (quote_key "owner" kw2) as [kw3|e'] eqn:H2; cbn [bind]; [|reflexivity].
    rewrite Hfail; [reflexivity|].
    rewrite (quote_key_other _ "repository" _ _ H2) by discriminate.
    rewrite (quote_key_other _ "repository" _ _ H1) by discriminate.
    now rewrite (parse_uevs_other json_loads "repository" _ _ H0).
Qed.

(** After [clean], an identifier is bound to what [shlex.quote] made of
    the value it was bound to. *)
Lemma clean_quotes (k : string) (kw kw' : dict value) :
  In k identifiers -> clean kw = Ok kw' ->
  exists v q, dict_get k kw = Some v /\ quote v = Ok q
              /\ dict_get k kw' = Some (VStr q).
Proof.
  intros Hk H. apply clean_Ok in H as (kw1 & kw2 & kw3 & H0 & H1 & H2 & H3).
  cbn in Hk. destruct Hk as [<-|[<-|[<-|[]]]].
  - destruct (quote_key_self _ _ _ H1) as (v & q & Hv & Hq & Hs).
    exists v, q. split; [|split; [exact Hq|]].
    + now rewrite <- (parse_uevs_other json_loads "branch" _ _ H0).
    + rewrite (quote_key_other _ "branch" _ _ H3), (quote_key_other _ "branch" _ _ H2);
        [exact Hs|discriminate..].
  - destruct (quote_key_self _ _ _ H2) as (v & q & Hv & Hq & Hs).
    exists v, q. split; [|split; [exact Hq|]].
    + rewrite <- (parse_uevs_other json_loads "owner" _ _ H0) by discriminate.
      now rewrite <- (quote_key_other _ "owner" _ _ H1) by discriminate.
    + rewrite (quote_key_other _ "owner" _ _ H3); [exact Hs|discriminate].
  - destruct (quote_key_self _ _ _ H3) as (v & q & Hv & Hq & Hs).
    exists v, q. split; [|split; [exact Hq|exact Hs]].
    rewrite <- (parse_uevs_other json_loads "repository" _ _ H0) by discriminate.
    rewrite <- (quote_key_other _ "repository" _ _ H1) by discriminate.
    now rewrite <- (quote_key_other _ "repository" _ _ H2) by discriminate.
Qed.

(** A request without repeated keys gives a key one value. *)
Lemma request_value_unique {V} (k : string) (v v' : V) (params : Py.dict V) :
  List.NoDup (map fst params) -> In (k, v) params -> In (k, v') params -> v = v'.
Proof.
  induction params as [|[k0 v0] rest IH]; intros Hnd Hv Hv'; [destruct Hv|].
  cbn [map fst] in Hnd. apply List.NoDup_cons_iff in Hnd as [Hnew Hnd].
  assert (Hkey : forall x, In (k0, x) rest -> False).
  { intros x Hx. apply Hnew. apply in_map_iff. now exists (k0, x). }
  destruct Hv as [Hv|Hv], Hv' as [Hv'|Hv'].
  - congruence.
  - injection Hv as -> _. now destruct (Hkey v').
  - injection Hv' as -> _. now destruct (Hkey v).
  - now apply IH.
Qed.

Lemma warning_inj (a b : string) : warning a = warning b -> a = b.
Proof. unfold warning. intros H. now injection H. Qed.

End SanitizerMore.

(** ** Quoting changes what needs quoting, and nothing else *)

Section QuotingFacts.

Lemma str_length_app (a b : string) :
  String.length (a +:+ b) = (String.length a + String.length b)%nat.
Proof.
  induction a as [|c a IH]; [reflexivity|].
  rewrite str_app_cons. cbn [String.length]. now rewrite IH.
Qed.

Lemma str_length_replace_char (s : string) :
  (String.length s
   <= String.length (Str.replace_char Shlex.squote Shlex.squote_escape s))%nat.
Proof.
  induction s as [|c s IH]; [reflexivity|]. cbn [Str.replace_char].
  destruct (Ascii.eqb c Shlex.squote).
  - rewrite str_length_app. cbn [String.length Shlex.squote_escape]. lia.
  - cbn [String.length]. lia.
Qed.

(** [shlex.quote] returns its argument exactly for the words that need no
    quoting. *)
Lemma quote_fixed (s : string) :
  Shlex.quote s = s <-> Tasks.plain_word s = true.
Proof.
  unfold Shlex.quote, Tasks.plain_word. destruct s as [|c s].
  - cbn. split; discriminate.
  - cbn [Str.is_empty negb andb].
    destruct (Shlex.no_unsafe (String c s)); [tauto|].
    split; [|discriminate]. intros H. exfalso.
    apply (f_equal String.length) in H. revert H.
    cbn [String.length]. rewrite str_length_app. cbn [String.length].
    pose proof (str_length_replace_char (String c s)) as Hlen.
    cbn [String.length] in Hlen. lia.
Qed.

End QuotingFacts.

(** ** The script and [load_vcap] *)

Section EntryFacts.
Import Py Entry.
Local Set Default Proof Using "Type".

Variable build_arguments : list string.
Variable json_loads : string -> result value.
Variable str_of : value -> string.

Let load_vcap := Entry.load_vcap json_loads str_of.
Let script := Entry.script build_arguments json_loads str_of.

Lemma setenv_Done (env env' : gmap string string) (k : string) (v : value) :
  setenv env k v = Done env' ->
  exists s, v = VStr s /\ Str.mem nul s = false /\ env' = <[k := s]> env.
Proof.
  unfold setenv. destruct v; try discriminate.
  destruct (Str.mem nul s) eqn:E; [discriminate|].
  intros [= <-]. now exists s.
Qed.

Lemma promote_Done (k : string) (params : dict value) (env env' : gmap string string) :
  promote k params env = Done env' ->
  match dict_get k params with
  | Some v => exists s, v = VStr s /\ env' = <[k := s]> env
  | None => env' = env
  end.
Proof.
  unfold promote. destruct (dict_get k params) as [v|].
  - intros H. apply setenv_Done in H as (s & -> & _ & ->). now exists s.
  - now intros [= <-].
Qed.

(** The services before the first one of the wanted name carry another
    name each; nothing is asked of the services after it. *)
Lemma next_ups_first (name : string) (pre post : list value) (ups : value) :
  Forall (fun u => exists n, subscript u "name" = Ok n /\ eq_str n name = false) pre ->
  subscript ups "name" = Ok (VStr name) ->
  next_ups name (pre ++ ups :: post) = Done ups.
Proof.
  intros Hpre Hups. induction Hpre as [|u pre (n & Hn & Hne) _ IH]; cbn [app next_ups].
  - rewrite Hups. cbn [std bind eq_str]. now rewrite String.eqb_refl.
  - rewrite Hn. cbn [std bind]. now rewrite Hne.
Qed.

Lemma next_ups_none (name : string) (services : list value) :
  Forall (fun u => exists n, subscript u "name" = Ok n /\ eq_str n name = false)
         services ->
  next_ups name services = Failed StopIteration.
Proof.
  intros H. induction H as [|u rest (n & Hn & Hne) _ IH]; cbn [next_ups].
  - reflexivity.
  - rewrite Hn. cbn [std bind]. now rewrite Hne.
Qed.

(** [load_vcap] changes one variable. *)
Lemma load_vcap_Done (env env' : gmap string string) :
  load_vcap env = Done env' ->
  exists key, env' = <["USER_ENVIRONMENT_VARIABLE_KEY" := key]> env.
Proof.
  unfold load_vcap, Entry.load_vcap.
  repeat match goal with
         | |- context [bind ?r _] =>
             destruct r; cbn [bind]; [|discriminate]
         end.
  intros H. apply setenv_Done in H as (s & _ & _ & ->). now exists s.
Qed.

End EntryFacts.

(** ** Running the pipeline, one call at a time *)

Section Execution.
Import Py Tasks.

Lemma mbind_ret {A B} (a : A) (k : A -> M B) w st :
  mbind (ret a) k w st = k a w st.
Proof. reflexivity. Qed.

Lemma mbind_raise {A B} (e : exn) (k : A -> M B) w st :
  mbind (raise e) k w st = (Raise e, st).
Proof. reflexivity. Qed.

Lemma mbind_lift_Ok {A B} (a : A) (k : A -> M B) w st :
  mbind (lift (Ok a)) k w st = k a w st.
Proof. reflexivity. Qed.

Lemma mbind_lift_Raise {A B} (e : exn) (k : A -> M B) w st :
  mbind (lift (Raise e)) k w st = (Raise e, st).
Proof. reflexivity. Qed.

Lemma mbind_now {B} (k : N -> M B) w st :
  mbind now k w st = k (clock st) w st.
Proof. reflexivity. Qed.

Lemma mbind_log {B} lv msg (k : unit -> M B) w tr n clk al :
  mbind (log lv msg) k w (State tr n clk al)
  = k tt w (State (tr ++ [Logged lv msg]) n clk al).
Proof. reflexivity. Qed.

Lemma mbind_assoc {A B C} (m : M A) (k1 : A -> M B) (k2 : B -> M C) w st :
  mbind (mbind m k1) k2 w st = mbind m (fun x => mbind (k1 x) k2) w st.
Proof.
  unfold mbind. destruct (m w st) as [[a|e] st']; reflexivity.
Qed.

(** A call made while the timer is not armed ends as the oracle says. *)
Lemma mbind_perform_unarmed {B} c (k : value -> M B) w tr n clk :
  mbind (perform c) k w (State tr n clk None)
  = match ending (w n) with
    | Returned v =>
        k v w (State (tr ++ [Called c false (Returned v)]) (S n)
                     (clk + elapsed (w n)) None)
    | Raised e =>
        (Raise e, State (tr ++ [Called c false (Raised e)]) (S n)
                        (clk + elapsed (w n)) None)
    end.
Proof.
  unfold mbind, perform. cbn [alarm calls clock trace armed].
  destruct (ending (w n)); reflexivity.
Qed.

(** A call made under the timer is cut when the timer fires first. *)
Lemma mbind_perform_armed {B} c (k : value -> M B) w tr n clk t :
  mbind (perform c) k w (State tr n clk (Some t))
  = if t <? clk + elapsed (w n)
    then (Raise TimeoutException,
          State (tr ++ [Called c true (Raised TimeoutException)]) (S n) t None)
    else match ending (w n) with
         | Returned v =>
             k v w (State (tr ++ [Called c true (Returned v)]) (S n)
                          (clk + elapsed (w n)) (Some t))
         | Raised e =>
             (Raise e, State (tr ++ [Called c true (Raised e)]) (S n)
                             (clk + elapsed (w n)) (Some t))
         end.
Proof.
  unfold mbind, perform. cbn [alarm calls clock trace armed].
  destruct (t <? clk + elapsed (w n)); [reflexivity|].
  destruct (ending (w n)); reflexivity.
Qed.

Lemma ret_run {A} (a : A) w st : ret a w st = (Ok a, st).
Proof. reflexivity. Qed.

Lemma raise_run {A} (e : exn) w st : @raise A e w st = (Raise e, st).
Proof. reflexivity. Qed.

End Execution.

(** Runs a computation of the pipeline held by the equation [H], call by
    call, with one case for each way a call can end. *)
Ltac exec_in H :=
  repeat first
    [ rewrite mbind_assoc in H
    | rewrite mbind_ret in H
    | rewrite mbind_raise in H
    | rewrite mbind_now in H
    | rewrite mbind_log in H
    | rewrite mbind_perform_unarmed in H
    | rewrite mbind_perform_armed in H
    | rewrite ret_run in H
    | rewrite raise_run in H
    | progress cbv beta iota in H
    | progress cbn [Tasks.trace Tasks.calls Tasks.clock Tasks.alarm] in H
    | progress unfold Tasks.with_Timeout, Tasks.run, Tasks.run_task, Tasks.dispatch in H
    | match type of H with
      | context [if (?t <? ?x) then _ else _] => destruct (t <? x) eqn:?
      | context [match Tasks.ending (?w ?n) with _ => _ end] =>
          destruct (Tasks.ending (w n)) as [?v|?e] eqn:?
      | context [if Py.ne_zero ?v then _ else _] => destruct (Py.ne_zero v) eqn:?
      | context [if (String.eqb ?a ?b) || _ then _ else _] =>
          destruct (String.eqb a b) eqn:?; cbn [orb] in H
      | context [if String.eqb ?a ?b then _ else _] =>
          destruct (String.eqb a b) eqn:?
      end ].

(** Splits a membership in a written-out trace into its cases, dropping the
    events of another shape. *)
Ltac split_in H :=
  cbn [In app] in H;
  repeat (destruct H as [H|H]; [try discriminate H|]); try contradiction.

(** ** The pipeline *)

Section PipelineFacts.
Import Py Tasks.
Variable json_loads : string -> result value.
Variable json_dumps : value -> string.
Variable decrypt : value -> string -> result string.
Variable delta_to_mins_secs : N -> string.

Let setup := Tasks.setup json_loads decrypt.
Let run_main := Tasks.run_main json_loads json_dumps decrypt delta_to_mins_secs.
Let try_statement := Tasks.try_statement json_dumps delta_to_mins_secs.
Let try_block := Tasks.try_block json_dumps delta_to_mins_secs.


Lemma setup_Ok env w l uevs t0 st1 :
  setup env w initial = (Ok (l, uevs, t0), st1) ->
  t0 = 0 /\ load json_loads env = Ok l /\ decrypt_uevs decrypt l = Ok uevs /\
  exists pv v0 v1,
    private_values env (map uev_value uevs) = Ok pv /\
    st1 = State (setup_trace l pv v0 v1) 2
                (0 + elapsed (w 0%nat) + elapsed (w 1%nat)) None.
Proof.
  unfold setup, Tasks.setup. rewrite mbind_now.
  destruct (load json_loads env) as [l'|e] eqn:Hl;
    [rewrite mbind_lift_Ok|rewrite mbind_lift_Raise; discriminate].
  destruct (decrypt_uevs decrypt l') as [u'|e] eqn:Hu;
    [rewrite mbind_lift_Ok|rewrite mbind_lift_Raise; discriminate].
  destruct (private_values env (map uev_value u')) as [pv|e] eqn:Hpv;
    [rewrite mbind_lift_Ok|rewrite mbind_lift_Raise; discriminate].
  unfold initial. cbn [clock]. rewrite mbind_perform_unarmed.
  destruct (ending (w 0%nat)) as [v0|e]; [|discriminate].
  rewrite mbind_perform_unarmed.
  destruct (ending (w 1%nat)) as [v1|e]; [|discriminate].
  unfold ret. intros H. inversion H; subst.
  split; [reflexivity|]. split; [reflexivity|]. split; [exact Hu|].
  exists pv, v0, v1. split; [exact Hpv|reflexivity].
Qed.

Lemma run_main_try env w l uevs t0 st1 :
  setup env w initial = (Ok (l, uevs, t0), st1) ->
  run_main env w = try_statement l uevs t0 w st1.
Proof.
  intros H. unfold run_main, Tasks.run_main, Tasks.main, mbind.
  fold setup. now rewrite H.
Qed.

(** The [except] clauses, summed up by [handled]. *)
Lemma handlers_handled l err w tr n clk :
  match handlers l err with
  | Some h => h w (State tr n clk None)
  | None => (Raise err, State tr n clk None)
  end = handled l w (Raise err) (State tr n clk None).
Proof.
  unfold handled.
  destruct err; cbn [handlers handler_call handler_log is_Exception];
    try reflexivity;
    rewrite mbind_log, mbind_perform_unarmed; cbn [calls trace clock];
    destruct (ending (w n)); rewrite ?ret_run, <- app_assoc; reflexivity.
Qed.

(** The block of the [try] statement leaves the timer off. *)
Lemma try_block_alarm l uevs t0 w tr n clk :
  alarm (snd (try_block l uevs t0 w (State tr n clk None))) = None.
Proof.
  unfold try_block, Tasks.try_block. rewrite mbind_perform_unarmed.
  destruct (ending (w n)); [|reflexivity].
  unfold with_Timeout. now destruct (timed_block _ _ _ _ _ _ _).
Qed.

Lemma try_statement_handled l uevs t0 w tr n clk :
  try_statement l uevs t0 w (State tr n clk None)
  = handled l w (fst (try_block l uevs t0 w (State tr n clk None)))
                (snd (try_block l uevs t0 w (State tr n clk None))).
Proof.
  unfold try_statement, Tasks.try_statement, try_except. fold try_block.
  pose proof (try_block_alarm l uevs t0 w tr n clk) as Hal.
  destruct (try_block l uevs t0 w (State tr n clk None)) as [[a|err] [tr' n' clk' al']].
  - reflexivity.
  - cbn [snd alarm] in Hal. subst al'. cbn [fst snd]. apply handlers_handled.
Qed.


Lemma handled_trace l w r st :
  trace (snd (handled l w r st)) = trace st ++ handler_events l w r st.
Proof.
  unfold handled, handler_events. destruct r as [a|err]; cbn.
  - now rewrite app_nil_r.
  - destruct (handler_call l err); cbn; [reflexivity|now rewrite app_nil_r].
Qed.

Lemma calls_of_app (a b : list event) :
  calls_of (a ++ b) = calls_of a ++ calls_of b.
Proof.
  induction a as [|[c t o|lv m] a IH]; cbn; [reflexivity| |exact IH].
  now rewrite IH.
Qed.

Lemma terminal_notifications_app (a b : list event) :
  terminal_notifications (a ++ b)
  = terminal_notifications a ++ terminal_notifications b.
Proof.
  unfold terminal_notifications. now rewrite calls_of_app, List.filter_app.
Qed.

Lemma stages_app (a b : list event) : stages (a ++ b) = stages a ++ stages b.
Proof. unfold stages. now rewrite calls_of_app, List.filter_app. Qed.

(** The [except] clauses send one notification for an exception of the
    [Exception] hierarchy, none otherwise, and run no stage. *)
Lemma handler_events_terminal l w err st :
  terminal_notifications (handler_events l w (Raise err) st)
  = match handler_call l err with Some c => [c] | None => [] end.
Proof.
  unfold handler_events. destruct err; cbn; reflexivity.
Qed.

Lemma handler_call_Exception l err :
  is_Exception err = true -> exists c, handler_call l err = Some c.
Proof. destruct err; cbn; intros H; try discriminate H; eauto. Qed.

Lemma handler_events_stages l w r st : stages (handler_events l w r st) = [].
Proof.
  unfold handler_events. destruct r as [a|err]; [reflexivity|].
  destruct err; reflexivity.
Qed.

Lemma handler_events_untimed l w r st c o :
  In (Called c true o) (handler_events l w r st) -> False.
Proof.
  unfold handler_events. destruct r as [a|err]; [intros []|].
  destruct (handler_call l err); cbn; [|intros []].
  intros [H|[H|[]]]; discriminate H.
Qed.

Lemma handler_events_terminal_calls l w r st c b o :
  In (Called c b o) (handler_events l w r st) -> is_terminal c = true.
Proof.
  unfold handler_events. destruct r as [a|err]; [intros []|].
  destruct err; cbn; intros H; split_in H; now injection H as <- _ _.
Qed.

Lemma handler_events_return l w r st :
  timed_notifications_return (handler_events l w r st) = true.
Proof.
  unfold handler_events. destruct r as [a|err]; [reflexivity|].
  destruct (handler_call l err); reflexivity.
Qed.



Lemma unexpected_message_distinct l : unexpected_message l <> fetch_failure_message.
Proof. unfold unexpected_message, fetch_failure_message. intros E. discriminate E. Qed.

Lemma decrypt_each_values (items : list value) (key : string) : forall us,
  decrypt_each decrypt items key = Ok us ->
  Forall2 (fun item u =>
             subscript item "name" = Ok (uev_name u)
             /\ exists ciphertext,
                 subscript item "ciphertext" = Ok ciphertext
                 /\ decrypt ciphertext key = Ok (uev_value u))
          items us.
Proof.
  induction items as [|item rest IH]; intros us; cbn [decrypt_each].
  - intros [= <-]. constructor.
  - destruct (subscript item "name") as [n|e] eqn:Hn; cbn [bind]; [|discriminate].
    destruct (subscript item "ciphertext") as [c|e] eqn:Hc; cbn [bind]; [|discriminate].
    destruct (decrypt c key) as [p|e] eqn:Hp; cbn [bind]; [|discriminate].
    destruct (decrypt_each decrypt rest key) as [others|e] eqn:Ho; cbn [bind];
      [|discriminate].
    intros [= <-]. constructor; [|now apply IH].
    split; [exact Hn|]. now exists c.
Qed.

End PipelineFacts.

(** ** More on the pipeline *)

Section PipelineMore.
Import Py Tasks Plan.
Local Set Default Proof Using "Type".

Variable json_loads : string -> result value.
Variable json_dumps : value -> string.
Variable decrypt : value -> string -> result string.
Variable delta_to_mins_secs : N -> string.

Let load := Tasks.load json_loads.
Let setup := Tasks.setup json_loads decrypt.
Let run_main := Tasks.run_main json_loads json_dumps decrypt delta_to_mins_secs.

Lemma bind_environ {A} (env : gmap string string) (k : string)
    (f : string -> result A) :
  bind (environ env k) f
  = match env !! k with
    | Some v => f v
    | None => Raise (KeyError k)
    end.
Proof. unfold environ. now destruct (env !! k). Qed.

(** What [main] has read when lines 64-94 are behind it. *)
Lemma load_Ok (env : gmap string string) (l : locals) :
  load env = Ok l ->
  env !! "AWS_DEFAULT_REGION" = Some (AWS_DEFAULT_REGION l)
  /\ env !! "BUCKET" = Some (BUCKET l)
  /\ env !! "BASEURL" = Some (BASEURL l)
  /\ env !! "BUILD_ID" = Some (BUILD_ID l)
  /\ env !! "CACHE_CONTROL" = Some (CACHE_CONTROL l)
  /\ env !! "BRANCH" = Some (BRANCH l)
  /\ env !! "CONFIG" = Some (CONFIG l)
  /\ env !! "REPOSITORY" = Some (REPOSITORY l)
  /\ env !! "OWNER" = Some (OWNER l)
  /\ env !! "SITE_PREFIX" = Some (SITE_PREFIX l)
  /\ env !! "GENERATOR" = Some (GENERATOR l)
  /\ env !! "AWS_ACCESS_KEY_ID" = Some (AWS_ACCESS_KEY_ID l)
  /\ env !! "AWS_SECRET_ACCESS_KEY" = Some (AWS_SECRET_ACCESS_KEY l)
  /\ env !! "USER_ENVIRONMENT_VARIABLE_KEY" = Some (USER_ENVIRONMENT_VARIABLE_KEY l)
  /\ env !! "FEDERALIST_BUILDER_CALLBACK" = Some (FEDERALIST_BUILDER_CALLBACK l)
  /\ json_loads (getenv env "USER_ENVIRONMENT_VARIABLES" "[]")
     = Ok (USER_ENVIRONMENT_VARIABLES l)
  /\ GITHUB_TOKEN l = getenv env "GITHUB_TOKEN" ""
  /\ STATUS_CALLBACK l = getenv env "STATUS_CALLBACK" ""
  /\ DATABASE_URL l = getenv env "DATABASE_URL" "".
Proof.
  unfold load, Tasks.load.
  repeat (rewrite bind_environ;
          match goal with
          | |- context [match env !! ?k with _ => _ end] =>
              destruct (env !! k) eqn:?; [|discriminate]
          end).
  destruct (json_loads _) eqn:?; cbn [bind]; [|discriminate].
  repeat (rewrite bind_environ;
          match goal with
          | |- context [match env !! ?k with _ => _ end] =>
              destruct (env !! k) eqn:?; [|discriminate]
          end).
  intros [= <-]. cbn. repeat split; assumption.
Qed.

(** With a required variable missing, lines 64-94 end with the
    [KeyError] of a missing variable, or with the exception of
    [json.loads]. *)
Lemma load_missing (env : gmap string string) (k : string) :
  In k required_variables -> env !! k = None ->
  exists e,
    load env = Raise e
    /\ ((exists k', e = KeyError k' /\ In k' required_variables /\ env !! k' = None)
        \/ json_loads (getenv env "USER_ENVIRONMENT_VARIABLES" "[]") = Raise e).
Proof.
  intros Hk Hmiss. unfold load, Tasks.load.
  repeat (rewrite bind_environ;
          match goal with
          | |- context [match env !! ?k with _ => _ end] =>
              destruct (env !! k) eqn:?;
              [|eexists; split; [reflexivity|];
                left; eexists; split; [reflexivity|];
                split; [cbn; auto 20|assumption]]
          end).
  destruct (json_loads _) eqn:?; cbn [bind];
    [|eexists; split; [reflexivity|]; now right].
  repeat (rewrite bind_environ;
          match goal with
          | |- context [match env !! ?k with _ => _ end] =>
              destruct (env !! k) eqn:?;
              [|eexists; split; [reflexivity|];
                left; eexists; split; [reflexivity|];
                split; [cbn; auto 20|assumption]]
          end).
  exfalso. cbn in Hk.
  repeat (destruct Hk as [<-|Hk]; [congruence|]). destruct Hk.
Qed.

(** With the variables of [load] read, [private_values] finds the
    credentials. *)
Lemma private_values_loaded (env : gmap string string) (l : locals)
    (user_values : list string) :
  load env = Ok l ->
  private_values env user_values
  = Ok ([AWS_ACCESS_KEY_ID l; AWS_SECRET_ACCESS_KEY l]
        ++ (if Str.is_empty (GITHUB_TOKEN l) then [] else [GITHUB_TOKEN l])
        ++ user_values).
Proof.
  intros H. apply load_Ok in H.
  destruct H as (_ & _ & _ & _ & _ & _ & _ & _ & _ & _ & _ & Ha & Hs & _ & _ & _ & Ht & _).
  unfold private_values, environ. rewrite Ha, Hs, <- Ht. cbn [bind].
  now destruct (Str.is_empty (GITHUB_TOKEN l)).
Qed.

(** The events of the [except] clauses, written out. *)
Lemma handler_events_reported (l : locals) (w : world) (err : exn) (st : state) :
  handler_events l w (Raise err) st = reported l err (ending (w (calls st))).
Proof. destruct err; reflexivity. Qed.

Lemma handled_reported (l : locals) (w : world) (err : exn) (st : state) :
  fst (handled l w (Raise err) st)
  = match reported l err (ending (w (calls st))) with
    | [] => Raise err
    | _ => match ending (w (calls st)) with
           | Returned _ => Ok tt
           | Raised e => Raise e
           end
    end.
Proof. destruct err; reflexivity. Qed.

(** The [except] clauses make no call but a terminal notification, and
    the completion notification is not one of theirs. *)
Lemma handler_events_kind (l : locals) (w : world) (r : result unit) (st : state) :
  forallb later_event (handler_events l w r st) = true.
Proof.
  destruct r as [a|err]; [reflexivity|]. destruct err; reflexivity.
Qed.

Lemma handler_events_no_complete (l : locals) (w : world) (r : result unit)
    (st : state) (s b : string) (t : bool) (o : outcome) :
  In (Called (post_build_complete s b) t o) (handler_events l w r st) -> False.
Proof.
  destruct r as [a|err]; [intros []|].
  destruct err; cbn; intros H; split_in H.
Qed.

Lemma handler_events_no_stage (l : locals) (w : world) (r : result unit)
    (st : state) (c : call) (t : bool) (o : outcome) :
  is_stage c = true -> In (Called c t o) (handler_events l w r st) -> False.
Proof.
  intros Hc H. apply handler_events_terminal_calls in H.
  destruct c; discriminate.
Qed.

End PipelineMore.

(** As [start_run], keeping what the set-up read ([Hload]) and the private
    values it computed ([Hpv]). *)
Ltac start_run_with H Hload Hpv :=
  cbv zeta; rewrite (run_main_try _ _ _ _ _ _ _ _ _ _ H);
  apply setup_Ok in H as (-> & Hload & _ & ?pv & ?v0 & ?v1 & Hpv & ->);
  rewrite try_statement_handled;
  let X := fresh "X" in
  let HX := fresh "HX" in
  match goal with
  | |- context [Tasks.try_block ?a ?b ?c ?d ?e ?f ?g] =>
      remember (Tasks.try_block a b c d e f g) as X eqn:HX
  end;
  unfold Tasks.try_block, Tasks.timed_block in HX;
  exec_in HX; subst X; cbn [fst snd]; unfold Tasks.setup_trace; cbn [app];
  rewrite ?handled_trace; cbn [Tasks.trace].

(** Rewrites with the tests of the generator that the path has made. *)
Ltac generator_tests :=
  repeat match goal with
         | Hb : String.eqb (Tasks.GENERATOR _) _ = _ |- _ => rewrite Hb
         end.

(* ===================================================================== *)
(** * The claims of the specification *)
(* ===================================================================== *)

(** ** Quoting *)

(** C2.  Whatever the request gives for [branch], [owner] or [repository],
    the script binds the keyword to [shlex.quote] of it, and the shell reads
    such a text, wherever it stands outside quotes in a command line, as
    literal text of one word: it reads [quote s] alone as the single literal
    word [s], and after [quote s] it goes on as if the characters of [s] had
    been ordinary ones.  Independently, [run_task] renders each flag as
    [flag=value] with the value quoted by [shlex.quote], and the shell
    splits its command line into [inv], the task and one literal word per
    flag, carrying the value as it was given. *)
Theorem quoted_values_are_single_literal_words
    (build_arguments : list string) (json_loads : string -> Py.result Py.value)
    (params kwargs : Py.dict Py.value) (k : string)
    (st : Sh.lexer) (rest : string)
    (task : string) (flags : Py.dict string) :
  snd (Sanitizer.sanitize build_arguments json_loads params) = Py.Ok kwargs ->
  In k Sanitizer.identifiers ->
  Sh.md st = Sh.Plain ->
  Tasks.plain_word task = true ->
  forallb Tasks.plain_word (map fst flags) = true ->
  (exists s,
      Py.dict_get k kwargs = Some (Py.VStr (Shlex.quote s))
      /\ (forall t, Py.dict_get k (Sanitizer.kwargs_of build_arguments params)
                     = Some (Py.VStr t) -> t = s)
      /\ Sh.lex (Shlex.quote s) = Some [Sh.Word true s]
      /\ Sh.feed st (Shlex.quote s +:+ rest)
         = Sh.feed (Sh.Lexer (Sh.toks st) (Sh.push_text s (Sh.cur st)) Sh.Plain) rest)
  /\ Tasks.flag_args (Some flags)
     = map (fun fv => fst fv +:+ "=" +:+ Shlex.quote (snd fv)) flags
  /\ Sh.lex (Tasks.command task (Some flags))
     = Some (Sh.Word true "inv" :: Sh.Word true task :: map Tasks.flag_word flags).
Proof.
  intros Hclean Hk Hmd Htask Hflags. split; [|split].
  - cbn [snd Sanitizer.sanitize] in Hclean.
    destruct (clean_identifier json_loads k _ _ Hk Hclean) as (s & Hs & Hin).
    exists s. split; [exact Hs|]. split; [exact Hin|].
    split; [apply lex_quote|].
    now rewrite feed_app, feed_quote.
  - reflexivity.
  - now apply lex_command.
Qed.

Lemma quoted_values_are_single_literal_words_witness :
  exists s,
    Py.dict_get "branch"
      [("branch", Py.VStr "'; rm -rf /'"); ("owner", Py.VStr "18F");
       ("repository", Py.VStr (Shlex.quote "it's")); ("generator", Py.VStr "hugo");
       ("user_environment_variables", Py.VList [])]
    = Some (Py.VStr (Shlex.quote s))
    /\ Sh.lex (Shlex.quote s) = Some [Sh.Word true s].
Proof.
  destruct (quoted_values_are_single_literal_words
              Sample.build_arguments Sample.json_loads Sample.request
              [("branch", Py.VStr "'; rm -rf /'"); ("owner", Py.VStr "18F");
               ("repository", Py.VStr (Shlex.quote "it's"));
               ("generator", Py.VStr "hugo");
               ("user_environment_variables", Py.VList [])]
              "branch" Sh.init " && reboot" "build-hugo"
              [("--branch", "; rm -rf /")])
    as [(s & Hs & _ & Hlex & _) _].
  - vm_compute. reflexivity.
  - simpl. auto.
  - reflexivity.
  - reflexivity.
  - reflexivity.
  - exists s. split; [exact Hs|exact Hlex].
Defined.

(** ** The keyword filter *)

(** C3.  The filter keeps a request key only when it is spelled exactly as
    a parameter of the build step: for the request [{"BRANCH": "main", ...}]
    and a build step with a parameter [branch], which the key matches when
    case is ignored, the script warns that [BRANCH] is unused and passes no
    [branch] on.  The comprehension lower-cases the keys it keeps, and the
    script itself reads two keys in upper case, so keys in upper case are
    expected; the membership test alone is case sensitive. *)
Theorem upper_case_key_is_dropped :
  Py.contains Sample.build_arguments (Str.lower "BRANCH") = true
  /\ Py.dict_get "branch"
       (Sanitizer.kwargs_of Sample.build_arguments Sample.request_upper) = None
  /\ Sanitizer.sanitize Sample.build_arguments Sample.json_loads Sample.request_upper
     = (["WARNING - Ignoring unused build argument: BRANCH"],
        Py.Raise (Py.KeyError "branch")).
Proof. vm_compute. repeat split. Qed.

(** ** Required keywords *)

(** C9.  When the request leaves out one of [user_environment_variables],
    [branch], [owner], [repository], or gives it as [null], the keyword is
    missing after the filter and the script never reaches [build]: when the
    lines before the first read of that keyword succeed, the read raises
    [KeyError] for it and that is the exception of the script; otherwise
    the script has already ended with the exception of one of those lines.
    (The parameters of the build step are lower-case names.) *)
Theorem missing_keyword_raises_KeyError
    (build_arguments : list string) (json_loads : string -> Py.result Py.value)
    (params : Py.dict Py.value) (k : string) :
  Sanitizer.lower_case_names build_arguments ->
  In k Sanitizer.required ->
  (forall v, In (k, v) params -> v = Py.VNone) ->
  let kwargs := Sanitizer.kwargs_of build_arguments params in
  let outcome := snd (Sanitizer.sanitize build_arguments json_loads params) in
  Py.dict_get k kwargs = None
  /\ (exists e, outcome = Py.Raise e)
  /\ match Sanitizer.before json_loads k kwargs with
     | Py.Ok reached =>
         Py.getitem reached k = Py.Raise (Py.KeyError k)
         /\ outcome = Py.Raise (Py.KeyError k)
     | Py.Raise e => outcome = Py.Raise e
     end.
Proof.
  intros Hlow Hk Hnull kwargs outcome.
  pose proof (kwargs_of_absent build_arguments k params Hlow Hnull) as Hmiss.
  pose proof (clean_missing json_loads k _ Hk Hmiss) as Hclean.
  fold kwargs in Hmiss, Hclean. change (Sanitizer.clean json_loads kwargs) with outcome in Hclean.
  split; [exact Hmiss|]. split; [|exact Hclean].
  destruct (Sanitizer.before json_loads k kwargs) as [reached|e].
  - exists (Py.KeyError k). apply Hclean.
  - now exists e.
Qed.

Lemma missing_keyword_raises_KeyError_witness :
  Py.dict_get "branch"
    (Sanitizer.kwargs_of Sample.build_arguments Sample.request_no_branch) = None
  /\ snd (Sanitizer.sanitize Sample.build_arguments Sample.json_loads
                             Sample.request_no_branch)
     = Py.Raise (Py.KeyError "branch").
Proof.
  destruct (missing_keyword_raises_KeyError
              Sample.build_arguments Sample.json_loads Sample.request_no_branch
              "branch")
    as (Hmiss & _ & Hread).
  - intros a Ha. simpl in Ha.
    repeat (destruct Ha as [<-|Ha]; [reflexivity|]). destruct Ha.
  - simpl. auto.
  - intros v Hin. simpl in Hin.
    repeat (destruct Hin as [Hin|Hin]; [inversion Hin; try reflexivity|]).
    destruct Hin.
  - split; [exact Hmiss|].
    exact (proj2 Hread).
Defined.

(** ** The secret set *)

(** C8.  [private_values] returns the two AWS credentials, then the
    source-control token exactly when [GITHUB_TOKEN] is set and not empty,
    then the user values in the order given. *)
Theorem private_values_order
    (env : gmap string string) (access_key secret_key : string)
    (user_values : list string) :
  env !! "AWS_ACCESS_KEY_ID" = Some access_key ->
  env !! "AWS_SECRET_ACCESS_KEY" = Some secret_key ->
  Tasks.private_values env user_values
  = Py.Ok ([access_key; secret_key]
           ++ match env !! "GITHUB_TOKEN" with
              | Some token => if Str.is_empty token then [] else [token]
              | None => []
              end
           ++ user_values).
Proof.
  intros Ha Hs. unfold Tasks.private_values, Py.environ, Py.getenv.
  rewrite Ha, Hs. cbn [Py.bind].
  destruct (env !! "GITHUB_TOKEN") as [[|c token]|]; reflexivity.
Qed.

Lemma private_values_order_witness :
  Tasks.private_values (Sample.environment "hugo") ["plain:c2VjcmV0"; "other"]
  = Py.Ok ["AKIA"; "s3cr3t"; "ghp"; "plain:c2VjcmV0"; "other"].
Proof.
  apply (private_values_order (Sample.environment "hugo") "AKIA" "s3cr3t"
           ["plain:c2VjcmV0"; "other"]); reflexivity.
Defined.

(** ** The pipeline *)

(** Opens a run that reached the [try] statement (equation [H] of the
    set-up) into one goal for each path of the block, with the trace of the
    path written out and the [except] clauses summed up by [handled]. *)
Ltac start_run H :=
  cbv zeta; rewrite (run_main_try _ _ _ _ _ _ _ _ _ _ H);
  apply setup_Ok in H as (-> & _ & _ & ?pv & ?v0 & ?v1 & _ & ->);
  rewrite try_statement_handled;
  let X := fresh "X" in
  let HX := fresh "HX" in
  match goal with
  | |- context [Tasks.try_block ?a ?b ?c ?d ?e ?f ?g] =>
      remember (Tasks.try_block a b c d e f g) as X eqn:HX
  end;
  unfold Tasks.try_block, Tasks.timed_block in HX;
  exec_in HX; subst X; cbn [fst snd]; unfold Tasks.setup_trace; cbn [app];
  rewrite ?handled_trace; cbn [Tasks.trace].

(** Closes a goal whose hypothesis names a generator other than the one
    of the path. *)
Ltac wrong_generator :=
  match goal with
  | Hg : Tasks.GENERATOR _ = _ |- _ =>
      rewrite Hg in *;
      repeat match goal with
             | Hb : String.eqb _ _ = _ |- _ =>
                 vm_compute in Hb; try discriminate Hb; clear Hb
             end
  end.

(** Closes a goal that takes the generator of the path for an unknown
    one. *)
Ltac known_generator :=
  match goal with
  | Hn : ~ In (Tasks.GENERATOR _) Tasks.generators |- _ =>
      exfalso; apply Hn;
      repeat match goal with
             | Hb : String.eqb _ _ = true |- _ => apply String.eqb_eq in Hb; rewrite Hb
             end;
      cbn; tauto
  end.

Section PipelineClaims.
Import Py Tasks.
Variable json_loads : string -> result value.
Variable json_dumps : value -> string.
Variable decrypt : value -> string -> result string.
Variable delta_to_mins_secs : N -> string.

Let setup := Tasks.setup json_loads decrypt.
Let run_main := Tasks.run_main json_loads json_dumps decrypt delta_to_mins_secs.

(** C1, as the code has it.  In a run that reaches the [try] statement and
    in which no call raises from outside the [Exception] hierarchy, at least
    one and at most two terminal notifications are sent; exactly one is
    sent if and only if the notification sent under the timer
    ([post_build_complete] at the end, [post_build_error] after a failed
    fetch) returns.  When that call raises or is cut by the deadline, the
    [except] clauses send a second notification. *)
Theorem one_terminal_notification env w l uevs t0 st1 :
  setup env w initial = (Ok (l, uevs, t0), st1) ->
  let tr := trace (snd (run_main env w)) in
  raises_only_Exceptions tr = true ->
  (1 <= length (terminal_notifications tr) <= 2)%nat
  /\ (length (terminal_notifications tr) = 1%nat
      <-> timed_notifications_return tr = true).
Proof.
  intros H. unfold run_main. start_run H.
  all: rewrite terminal_notifications_app, ?handler_events_terminal.
  all: match goal with
       | |- context [timed_notifications_return (?a ++ ?b)] =>
           replace (timed_notifications_return (a ++ b))
             with (timed_notifications_return a)
             by (unfold timed_notifications_return at 2; rewrite forallb_app;
                 fold (timed_notifications_return b);
                 rewrite handler_events_return, andb_true_r; reflexivity)
       end.
  all: unfold raises_only_Exceptions; rewrite forallb_app.
  all: cbn [handler_events app terminal_notifications calls_of List.filter
            is_terminal forallb negb andb handler_call is_Exception length
            timed_notifications_return].
  all: intros H1; repeat (apply andb_true_iff in H1 as [H1 ?]).
  all: try match goal with
           | He : is_Exception ?e = true |- _ =>
               destruct (handler_call_Exception l e He) as [c Hc]; rewrite Hc
           end.
  all: cbn [length]; (split; [lia|]); split; intros H2;
    first [reflexivity | discriminate H2].
Qed.


(** C7, as the code has it.  The processing notification is sent inside
    the [try] statement: when it raises, no stage is run, and the [except]
    clause for the exception sends its notification -- for an exception that
    is neither a timeout nor an [UnexpectedExit], the error notification
    with the message for unexpected errors. *)
Theorem processing_failure_ends_run env w l uevs t0 st1 b e :
  setup env w initial = (Ok (l, uevs, t0), st1) ->
  let tr := trace (snd (run_main env w)) in
  In (Called (post_build_processing (STATUS_CALLBACK l)) b (Raised e)) tr ->
  stages tr = []
  /\ terminal_notifications tr
     = match handler_call l e with Some c => [c] | None => [] end
  /\ (is_Exception e = true -> e <> TimeoutException ->
      (forall detail, e <> UnexpectedExit detail) ->
      terminal_notifications tr
      = [post_build_error (STATUS_CALLBACK l) (FEDERALIST_BUILDER_CALLBACK l)
                          (unexpected_message l)]).
Proof.
  intros H. unfold run_main. start_run H.
  all: intros Hin; apply in_app_iff in Hin as [Hin|Hin];
    [|apply handler_events_terminal_calls in Hin; discriminate Hin].
  all: split_in Hin.
  injection Hin as <- <-.
  rewrite stages_app, handler_events_stages, terminal_notifications_app,
    handler_events_terminal.
  split; [reflexivity|]. split; [reflexivity|].
  intros He Ht Hu. cbn [app terminal_notifications calls_of List.filter is_terminal].
  destruct e0; try discriminate He; try reflexivity.
  - now destruct (Hu detail).
  - now destruct Ht.
Qed.


(** C5.  Once the fetch has returned zero, the first stage after it is the
    project's build script, [run-federalist-script] with the build flags,
    for every generator.  Once that script has returned, the next stage is
    [build-jekyll] with the build flags and the [--config] flag for
    [jekyll], [build-hugo] with the build flags for [hugo], [build-static]
    without flags for [static], and the publish for [node.js] and
    [script only]; for any other generator no further stage runs, a
    [ValueError] naming the generator is logged, and the one terminal
    notification is the error notification with the message for unexpected
    errors, which is not the message of a failed fetch. *)
Theorem build_stage_dispatch env w l uevs t0 st1 :
  setup env w initial = (Ok (l, uevs, t0), st1) ->
  let tr := trace (snd (run_main env w)) in
  let fetch := fetch_repo (OWNER l) (REPOSITORY l) (BRANCH l) (GITHUB_TOKEN l) in
  let flags := build_flags json_dumps l uevs in
  let engine := fun task args => ctx_run (command task args) None in
  let script := engine "run-federalist-script" (Some flags) in
  let upload := publish (BASEURL l) (SITE_PREFIX l) (BUCKET l) (CACHE_CONTROL l)
                        (AWS_DEFAULT_REGION l) (AWS_ACCESS_KEY_ID l)
                        (AWS_SECRET_ACCESS_KEY l) in
  (forall rc, In (Called fetch true (Returned rc)) tr -> ne_zero rc = false ->
     exists rest, stages tr = fetch :: script :: rest)
  /\ (forall v, In (Called script true (Returned v)) tr ->
      exists rest,
        stages tr = fetch :: script :: rest
        /\ (GENERATOR l = "jekyll" ->
            exists rest', rest = engine "build-jekyll"
                                   (Some (flags ++ [("--config", CONFIG l)])) :: rest')
        /\ (GENERATOR l = "hugo" ->
            exists rest', rest = engine "build-hugo" (Some flags) :: rest')
        /\ (GENERATOR l = "static" ->
            exists rest', rest = engine "build-static" None :: rest')
        /\ (GENERATOR l = "node.js" \/ GENERATOR l = "script only" ->
            rest = [upload])
        /\ (~ In (GENERATOR l) generators ->
            rest = []
            /\ terminal_notifications tr
               = [post_build_error (STATUS_CALLBACK l) (FEDERALIST_BUILDER_CALLBACK l)
                                   (unexpected_message l)]
            /\ unexpected_message l <> fetch_failure_message
            /\ In (Logged WARNING
                     ("Unexpected exception raised during build(" +:+ BUILD_INFO l
                      +:+ "): " +:+ "Invalid GENERATOR: " +:+ GENERATOR l)) tr)).
Proof.
  intros H. unfold run_main. start_run H.
  all: (split;
        [ intros rc Hin Hrc; apply in_app_iff in Hin as [Hin|Hin];
          [|now apply handler_events_untimed in Hin];
          split_in Hin; try (injection Hin as ->; congruence);
          rewrite stages_app, handler_events_stages; eexists; reflexivity
        | ]).
  all: intros v' Hin; apply in_app_iff in Hin as [Hin|Hin];
    [|now apply handler_events_untimed in Hin].
  all: split_in Hin.
  all: clear Hin; rewrite stages_app, handler_events_stages;
    eexists; (split; [reflexivity|]).
  all: (split; [intros Hg; first [solve [wrong_generator] | solve [eexists; reflexivity]]|]).
  all: (split; [intros Hg; first [solve [wrong_generator] | solve [eexists; reflexivity]]|]).
  all: (split; [intros Hg; first [solve [wrong_generator] | solve [eexists; reflexivity]]|]).
  all: (split; [intros [Hg|Hg]; first [solve [wrong_generator] | reflexivity]|]).
  all: intros Hn; first [solve [known_generator] | idtac].
  all: split; [reflexivity|]; split;
    [rewrite terminal_notifications_app, handler_events_terminal; reflexivity|];
    split; [apply unexpected_message_distinct|].
  all: apply in_app_iff; right; left; reflexivity.
Qed.

(** C10.  The values of the user environment variables are the
    plaintexts [decrypt] returns for the ciphertexts, and every subprocess
    [main] starts is either [build-static], without flags, or one of
    [run-federalist-script], [build-jekyll] and [build-hugo], whose command
    line carries the flag [--user-env-vars] with the JSON document of the
    decrypted variables -- [json.dumps] of the list that holds, for each
    variable in order, the object of its [name] and of its plaintext as
    [value] -- quoted by [shlex.quote], which the shell reads back as one
    literal word holding the document. *)
Theorem decrypted_values_on_command_lines env w l uevs t0 st1 :
  setup env w initial = (Ok (l, uevs, t0), st1) ->
  let tr := trace (snd (run_main env w)) in
  let document :=
    json_dumps
      (VList (map (fun u => VDict [("name", uev_name u);
                                   ("value", VStr (uev_value u))]) uevs)) in
  (exists items,
      iterate (USER_ENVIRONMENT_VARIABLES l) = Ok items
      /\ Forall2 (fun item u =>
                    subscript item "name" = Ok (uev_name u)
                    /\ exists ciphertext,
                        subscript item "ciphertext" = Ok ciphertext
                        /\ decrypt ciphertext (USER_ENVIRONMENT_VARIABLE_KEY l)
                           = Ok (uev_value u))
                 items uevs)
  /\ (forall cmd e b o, In (Called (ctx_run cmd e) b o) tr ->
      (cmd = command "build-static" None
       /\ Sh.lex cmd = Some [Sh.Word true "inv"; Sh.Word true "build-static"])
      \/ exists task flags,
          cmd = command task (Some flags)
          /\ In task build_tasks
          /\ In ("--user-env-vars", document) flags
          /\ In ("--user-env-vars=" +:+ Shlex.quote document) (flag_args (Some flags))
          /\ Sh.lex cmd
             = Some (Sh.Word true "inv" :: Sh.Word true task :: map flag_word flags)
          /\ In (Sh.Word true ("--user-env-vars=" +:+ document)) (map flag_word flags)).
Proof.
  intros H. split.
  - apply setup_Ok in H as (_ & _ & Hdec & _).
    unfold decrypt_uevs in Hdec.
    destruct (iterate (USER_ENVIRONMENT_VARIABLES l)) as [items|e]; [|discriminate].
    exists items. split; [reflexivity|]. now apply decrypt_each_values.
  - revert H. unfold run_main. intros H. start_run H.
    all: intros cmd e' b o Hin; apply in_app_iff in Hin as [Hin|Hin];
      try (apply handler_events_terminal_calls in Hin; discriminate Hin).
    all: split_in Hin.
    all: injection Hin as <- <- <- <-.
    all: first
      [ left; split; [reflexivity|apply lex_command_no_flags; reflexivity]
      | right; do 2 eexists; split; [reflexivity|];
        split; [cbn; tauto|];
        split; [cbn; tauto|];
        split; [cbn; tauto|];
        split; [apply lex_command; reflexivity|];
        cbn; tauto ].
Qed.

End PipelineClaims.

(** ** The claims on sample runs *)

Section SampleRuns.
Import Py Tasks.

(** C1: a run in which the completion notification raises sends the
    completion notification and then an error notification; a run whose
    variables cannot be decrypted ends before the [try] statement and sends
    none. *)
Lemma completion_failure_sends_two_notifications :
  (raises_only_Exceptions (Sample.trace_of "static" Sample.completion_fails) = true
   /\ terminal_notifications (Sample.trace_of "static" Sample.completion_fails)
      = [post_build_complete Sample.status_url Sample.builder_url;
         post_build_error Sample.status_url Sample.builder_url
                          (unexpected_message (Sample.locals_of "static"))]
   /\ length (terminal_notifications
                (Sample.trace_of "static" Sample.completion_fails)) <> 1%nat)
  /\ (run_main Sample.json_loads Sample.json_dumps Sample.decrypt
               Sample.delta_to_mins_secs (Sample.environment_wrong_key "static")
               Sample.all_well
      = (Raise (Exception "Invalid key"), initial)
      /\ terminal_notifications (trace initial) = []).
Proof. vm_compute. repeat split. discriminate. Qed.

Lemma one_terminal_notification_witness :
  raises_only_Exceptions (Sample.trace_of "hugo" Sample.all_well) = true
  /\ timed_notifications_return (Sample.trace_of "hugo" Sample.all_well) = true
  /\ length (terminal_notifications (Sample.trace_of "hugo" Sample.all_well)) = 1%nat.
Proof.
  split; [vm_compute; reflexivity|]. split; [vm_compute; reflexivity|].
  destruct (one_terminal_notification
              Sample.json_loads Sample.json_dumps Sample.decrypt
              Sample.delta_to_mins_secs (Sample.environment "hugo") Sample.all_well
              (Sample.locals_of "hugo") Sample.uevs 0 (Sample.started "hugo"))
    as (_ & _ & Hone).
  - vm_compute. reflexivity.
  - vm_compute. reflexivity.
  - apply Hone. vm_compute. reflexivity.
Defined.



(** C7: the processing notification raises; no stage runs. *)
Lemma processing_failure_skips_the_stages :
  In (Called (post_build_processing Sample.status_url) false
             (Raised (Exception "ConnectionError")))
     (Sample.trace_of "hugo" Sample.processing_fails)
  /\ stages (Sample.trace_of "hugo" Sample.processing_fails) = []
  /\ ~ In (fetch_repo "18F" "site" "main" "ghp")
          (calls_of (Sample.trace_of "hugo" Sample.processing_fails)).
Proof.
  vm_compute. split; [tauto|]. split; [reflexivity|].
  intros H. repeat (destruct H as [H|H]; [discriminate H|]). exact H.
Qed.

Lemma processing_failure_ends_run_witness :
  stages (Sample.trace_of "hugo" Sample.processing_fails) = []
  /\ terminal_notifications (Sample.trace_of "hugo" Sample.processing_fails)
     = [post_build_error Sample.status_url Sample.builder_url
                         (unexpected_message (Sample.locals_of "hugo"))].
Proof.
  destruct (processing_failure_ends_run
              Sample.json_loads Sample.json_dumps Sample.decrypt
              Sample.delta_to_mins_secs (Sample.environment "hugo")
              Sample.processing_fails
              (Sample.locals_of "hugo") Sample.uevs 0 (Sample.started "hugo")
              false (Exception "ConnectionError"))
    as (Hstages & _ & Hgeneric).
  - vm_compute. reflexivity.
  - vm_compute. tauto.
  - split; [exact Hstages|].
    apply Hgeneric; [reflexivity|discriminate|discriminate].
Defined.



Lemma build_stage_dispatch_witness :
  terminal_notifications (Sample.trace_of "bogus" Sample.all_well)
  = [post_build_error Sample.status_url Sample.builder_url
                      (unexpected_message (Sample.locals_of "bogus"))]
  /\ stages (Sample.trace_of "bogus" Sample.all_well)
     = [fetch_repo "18F" "site" "main" "ghp";
        ctx_run (command "run-federalist-script"
                   (Some (build_flags Sample.json_dumps (Sample.locals_of "bogus")
                                      Sample.uevs))) None].
Proof.
  destruct (build_stage_dispatch
              Sample.json_loads Sample.json_dumps Sample.decrypt
              Sample.delta_to_mins_secs (Sample.environment "bogus") Sample.all_well
              (Sample.locals_of "bogus") Sample.uevs 0 (Sample.started "bogus"))
    as (_ & Hdispatch).
  - vm_compute. reflexivity.
  - destruct (Hdispatch VNone) as (rest & Hstages & _ & _ & _ & _ & Hother).
    + vm_compute. tauto.
    + destruct Hother as (-> & Hone & _ & _).
      * vm_compute. intros H.
        repeat (destruct H as [H|H]; [discriminate H|]). exact H.
      * split; [exact Hone|exact Hstages].
Defined.

Lemma decrypted_values_on_command_lines_witness :
  exists cmd tokens,
    In (Called (ctx_run cmd None) true (Returned VNone))
       (Sample.trace_of "jekyll" Sample.all_well)
    /\ cmd = command "build-jekyll"
               (Some [("--branch", "main"); ("--owner", "18F");
                      ("--repository", "site"); ("--site-prefix", "site/18F/site");
                      ("--base-url", "/site");
                      ("--user-env-vars",
                       Sample.json_dumps
                         (VList [VDict [("name", VStr "API_KEY");
                                        ("value", VStr "plain:c2VjcmV0")]]));
                      ("--config", "{}")])
    /\ Sh.lex cmd = Some tokens
    /\ In (Sh.Word true
             ("--user-env-vars="
              +:+ Sample.json_dumps
                    (VList [VDict [("name", VStr "API_KEY");
                                   ("value", VStr "plain:c2VjcmV0")]])))
          tokens.
Proof.
  destruct (decrypted_values_on_command_lines
              Sample.json_loads Sample.json_dumps Sample.decrypt
              Sample.delta_to_mins_secs (Sample.environment "jekyll") Sample.all_well
              (Sample.locals_of "jekyll") Sample.uevs 0 (Sample.started "jekyll"))
    as (_ & Hcmd).
  - vm_compute. reflexivity.
  - exists (command "build-jekyll"
              (Some [("--branch", "main"); ("--owner", "18F");
                     ("--repository", "site"); ("--site-prefix", "site/18F/site");
                     ("--base-url", "/site");
                     ("--user-env-vars",
                      Sample.json_dumps
                        (VList [VDict [("name", VStr "API_KEY");
                                       ("value", VStr "plain:c2VjcmV0")]]));
                     ("--config", "{}")])).
    assert (Hin : In (Called
                        (ctx_run
                           (command "build-jekyll"
                              (Some [("--branch", "main"); ("--owner", "18F");
                                     ("--repository", "site");
                                     ("--site-prefix", "site/18F/site");
                                     ("--base-url", "/site");
                                     ("--user-env-vars",
                                      Sample.json_dumps
                                        (VList [VDict [("name", VStr "API_KEY");
                                                       ("value",
                                                        VStr "plain:c2VjcmV0")]]));
                                     ("--config", "{}")])) None)
                        true (Returned VNone))
                     (Sample.trace_of "jekyll" Sample.all_well)).
    { vm_compute. tauto. }
    destruct (Hcmd _ None true (Returned VNone) Hin)
      as [[Hstatic _]|(task & flags & _ & _ & _ & _ & Hlex & Hword)].
    + vm_compute in Hstatic. discriminate Hstatic.
    + exists (Sh.Word true "inv" :: Sh.Word true task :: map flag_word flags).
      split; [exact Hin|]. split; [reflexivity|]. split; [exact Hlex|].
      right. right. exact Hword.
Defined.

End SampleRuns.

(* ===================================================================== *)
(** * Further properties of the code *)
(* ===================================================================== *)

(** ** The parameter sanitizer *)

(** X1.  What the script does with [user_environment_variables]
    (lines 56-58): a string that is not empty is parsed as JSON, and a
    document that does not parse ends the script with the parser's
    exception; any other value that is not [null] -- a list, the empty
    string -- reaches [build] as it was given. *)
Theorem user_environment_variables_are_parsed
    (build_arguments : list string) (json_loads : string -> Py.result Py.value)
    (params : Py.dict Py.value) (given : Py.value) :
  Py.dict_get "user_environment_variables"
    (Sanitizer.kwargs_of build_arguments params) = Some given ->
  let outcome := snd (Sanitizer.sanitize build_arguments json_loads params) in
  match given with
  | Py.VStr (String _ _ as text) =>
      match json_loads text with
      | Py.Raise e => outcome = Py.Raise e
      | Py.Ok parsed =>
          forall kwargs, outcome = Py.Ok kwargs ->
            Py.dict_get "user_environment_variables" kwargs = Some parsed
      end
  | _ =>
      forall kwargs, outcome = Py.Ok kwargs ->
        Py.dict_get "user_environment_variables" kwargs = Some given
  end.
Proof.
  intros Hgiven outcome.
  pose proof (parse_uevs_self json_loads _ _ Hgiven) as Hparse.
  assert (Hkeep : forall kw1 kwargs,
            Sanitizer.parse_uevs json_loads
              (Sanitizer.kwargs_of build_arguments params) = Py.Ok kw1 ->
            outcome = Py.Ok kwargs ->
            Py.dict_get "user_environment_variables" kwargs
            = Py.dict_get "user_environment_variables" kw1).
  { intros kw1 kwargs H0 H. subst outcome. cbn [snd Sanitizer.sanitize] in H.
    apply clean_Ok in H as (kw1' & kw2 & kw3 & H0' & H1 & H2 & H3).
    rewrite H0 in H0'. injection H0' as <-.
    apply (quotings_other _ _ _ _ _ H1 H2 H3). cbn. intuition discriminate. }
  destruct given as [| | | |[|c s]| |];
    try (intros kwargs H; rewrite (Hkeep _ _ Hparse H); exact Hgiven).
  destruct (json_loads (String c s)) as [parsed|e].
  - destruct Hparse as (kw' & Hparse & Hparsed).
    intros kwargs H. now rewrite (Hkeep _ _ Hparse H).
  - subst outcome. cbn [snd Sanitizer.sanitize]. unfold Sanitizer.clean.
    now rewrite Hparse.
Qed.

Lemma user_environment_variables_are_parsed_witness :
  Py.dict_get "user_environment_variables" Cloud.sanitized = Some (Py.VList []).
Proof.
  apply (user_environment_variables_are_parsed
           Sample.build_arguments Sample.json_loads Sample.request (Py.VStr "[]")).
  - reflexivity.
  - vm_compute. reflexivity.
Defined.

(** X2.  The keywords the script does not read reach [build] unchanged:
    for a request without repeated keys and a build step whose parameters
    are lower-case names, a keyword other than the four the script reads is
    bound, in the call of [build], exactly when the request holds that very
    name with a value that is not [null] and the name is a parameter of
    [build], and then to the request's value. *)
Theorem other_keywords_reach_build_unchanged
    (build_arguments : list string) (json_loads : string -> Py.result Py.value)
    (params kwargs : Py.dict Py.value) (k : string) :
  Sanitizer.lower_case_names build_arguments ->
  List.NoDup (map fst params) ->
  snd (Sanitizer.sanitize build_arguments json_loads params) = Py.Ok kwargs ->
  ~ In k Sanitizer.required ->
  Py.dict_get k kwargs
  = match Py.dict_get k params with
    | Some v =>
        if Py.is_not_None v && Py.contains build_arguments k then Some v else None
    | None => None
    end.
Proof.
  intros Hlow Hnd H Hk. cbn [snd Sanitizer.sanitize] in H.
  rewrite (clean_other json_loads k _ _ H Hk).
  now apply kwargs_of_request.
Qed.

Lemma other_keywords_reach_build_unchanged_witness :
  Py.dict_get "generator" Cloud.sanitized = Some (Py.VStr "hugo")
  /\ Py.dict_get "colour" Cloud.sanitized = None.
Proof.
  assert (Hlow : Sanitizer.lower_case_names Sample.build_arguments).
  { intros a Ha. simpl in Ha.
    repeat (destruct Ha as [<-|Ha]; [reflexivity|]). destruct Ha. }
  assert (Hnd : List.NoDup (map fst Sample.request)).
  { cbn. repeat (apply List.NoDup_cons; [cbn; intuition discriminate|]).
    apply List.NoDup_nil. }
  assert (Hrun : snd (Sanitizer.sanitize Sample.build_arguments Sample.json_loads
                        Sample.request) = Py.Ok Cloud.sanitized).
  { vm_compute. reflexivity. }
  split.
  - apply (other_keywords_reach_build_unchanged
             Sample.build_arguments Sample.json_loads Sample.request Cloud.sanitized
             "generator" Hlow Hnd Hrun).
    cbn. intuition discriminate.
  - apply (other_keywords_reach_build_unchanged
             Sample.build_arguments Sample.json_loads Sample.request Cloud.sanitized
             "colour" Hlow Hnd Hrun).
    cbn. intuition discriminate.
Defined.

(** X3.  Every keyword with which [build] is called comes from the
    request: it is the lower-case form of a request key that is spelled as
    a parameter of [build] and whose value is not [null].  The script
    invents no keyword, and passes no key it warned about under that
    key's own spelling. *)
Theorem build_receives_only_request_keywords
    (build_arguments : list string) (json_loads : string -> Py.result Py.value)
    (params kwargs : Py.dict Py.value) (k : string) (v : Py.value) :
  snd (Sanitizer.sanitize build_arguments json_loads params) = Py.Ok kwargs ->
  Py.dict_get k kwargs = Some v ->
  exists k' v',
    In (k', v') params /\ In k' build_arguments /\ Str.lower k' = k
    /\ v' <> Py.VNone
    /\ ~ In (Sanitizer.warning k') (Sanitizer.warnings build_arguments params).
Proof.
  intros H Hv. cbn [snd Sanitizer.sanitize] in H.
  destruct (clean_bound json_loads k _ _ v H Hv) as (v0 & Hv0).
  apply kwargs_of_bound in Hv0 as (k' & Hin & Hnn & Hba & Hlow).
  exists k', v0. split; [exact Hin|]. split; [now apply contains_In|].
  split; [exact Hlow|]. split; [intros ->; discriminate Hnn|].
  unfold Sanitizer.warnings. rewrite in_map_iff.
  intros (k0 & Heq & Hk0). apply warning_inj in Heq. subst k0.
  apply filter_In in Hk0 as [_ Hk0]. now rewrite Hba in Hk0.
Qed.

Lemma build_receives_only_request_keywords_witness :
  exists k' v',
    In (k', v') Sample.request /\ In k' Sample.build_arguments
    /\ Str.lower k' = "generator" /\ v' <> Py.VNone
    /\ ~ In (Sanitizer.warning k')
           (Sanitizer.warnings Sample.build_arguments Sample.request).
Proof.
  apply (build_receives_only_request_keywords
           Sample.build_arguments Sample.json_loads Sample.request Cloud.sanitized
           "generator" (Py.VStr "hugo")).
  - vm_compute. reflexivity.
  - reflexivity.
Defined.

(** X4.  Every key of the request is accounted for in one of three ways
    (lines 49-54).  A key that is not spelled as a parameter of [build] is
    warned about, and warnings are printed for such keys of the request
    only.  A key that is spelled as a parameter of [build] is never warned
    about: when its value is not [null] it is bound after the filter,
    under its lower-case form; when its value is [null] it is dropped
    without a warning -- for a request without repeated keys and a build
    step with lower-case parameters, the keyword is then missing after the
    filter. *)
Theorem every_request_key_is_accounted_for
    (build_arguments : list string) (params : Py.dict Py.value)
    (k : string) (v : Py.value) :
  In (k, v) params ->
  let warnings := Sanitizer.warnings build_arguments params in
  let kwargs := Sanitizer.kwargs_of build_arguments params in
  (In (Sanitizer.warning k) warnings <-> ~ In k build_arguments)
  /\ (forall k', In (Sanitizer.warning k') warnings ->
         In k' (map fst params) /\ ~ In k' build_arguments)
  /\ (In k build_arguments -> v <> Py.VNone ->
        exists v', Py.dict_get (Str.lower k) kwargs = Some v')
  /\ (In k build_arguments -> v = Py.VNone ->
        ~ In (Sanitizer.warning k) warnings
        /\ (Sanitizer.lower_case_names build_arguments ->
            List.NoDup (map fst params) ->
            Py.dict_get k kwargs = None)).
Proof.
  intros Hin warnings kwargs.
  assert (Hwarned : forall k', In (Sanitizer.warning k') warnings ->
                      In k' (map fst params) /\ ~ In k' build_arguments).
  { unfold warnings, Sanitizer.warnings. intros k' Hw.
    apply in_map_iff in Hw as (k0 & Heq & Hk0). apply warning_inj in Heq. subst k0.
    apply filter_In in Hk0 as [Hreq Hk0]. split; [exact Hreq|].
    intros Hba. apply contains_In in Hba. now rewrite Hba in Hk0. }
  split; [|split; [exact Hwarned|split]].
  - split; [intros Hw; now apply Hwarned in Hw|].
    intros Hba. unfold warnings, Sanitizer.warnings.
    apply in_map, filter_In. split; [apply in_map_iff; now exists (k, v)|].
    destruct (Py.contains build_arguments k) eqn:E; [|reflexivity].
    apply contains_In in E. contradiction.
  - intros Hba Hv. apply (kwargs_of_kept build_arguments k v).
    + exact Hin.
    + now destruct v.
    + now apply contains_In.
  - intros Hba ->. split; [intros Hw; now apply Hwarned in Hw|].
    intros Hlow Hnd. apply kwargs_of_absent; [exact Hlow|].
    intros v' Hin'. exact (request_value_unique k v' Py.VNone params Hnd Hin' Hin).
Qed.

Lemma every_request_key_is_accounted_for_witness :
  ~ In (Sanitizer.warning "branch")
       (Sanitizer.warnings Sample.build_arguments Sample.request_no_branch)
  /\ Py.dict_get "branch"
       (Sanitizer.kwargs_of Sample.build_arguments Sample.request_no_branch) = None.
Proof.
  destruct (every_request_key_is_accounted_for
              Sample.build_arguments Sample.request_no_branch "branch" Py.VNone)
    as (_ & _ & _ & Hnull).
  - cbn. auto.
  - destruct Hnull as [Hquiet Hdropped]; [cbn; auto 10|reflexivity|].
    split; [exact Hquiet|]. apply Hdropped.
    + intros a Ha. simpl in Ha.
      repeat (destruct Ha as [<-|Ha]; [reflexivity|]). destruct Ha.
    + cbn. repeat (apply List.NoDup_cons; [cbn; intuition discriminate|]).
      apply List.NoDup_nil.
Defined.

(** X5.  What the script makes of an identifier ([branch], [owner],
    [repository]) that is not a string (lines 60-62).  A value that counts
    as false -- [0], [false], an empty list or object -- is replaced by the
    text of two single quotes, the empty word, and [build] is called; a
    value that counts as true -- a number other than zero, [true], a list
    or object that is not empty -- makes [shlex.quote] raise [TypeError],
    which ends the script before [build] at the line that quotes it, unless
    an earlier line has already ended it. *)
Theorem identifier_that_is_not_a_string
    (build_arguments : list string) (json_loads : string -> Py.result Py.value)
    (params : Py.dict Py.value) (k : string) (v : Py.value) :
  In k Sanitizer.identifiers ->
  Py.dict_get k (Sanitizer.kwargs_of build_arguments params) = Some v ->
  Py.is_str v = false ->
  let kwargs0 := Sanitizer.kwargs_of build_arguments params in
  let outcome := snd (Sanitizer.sanitize build_arguments json_loads params) in
  if Py.truthy v then
    match Sanitizer.before json_loads k kwargs0 with
    | Py.Ok _ => exists msg, outcome = Py.Raise (Py.TypeError msg)
    | Py.Raise e => outcome = Py.Raise e
    end
  else
    forall kwargs, outcome = Py.Ok kwargs ->
      Py.dict_get k kwargs
      = Some (Py.VStr (String Shlex.squote (String Shlex.squote EmptyString))).
Proof.
  intros Hk Hv Hstr kwargs0 outcome.
  destruct (Py.truthy v) eqn:Ht.
  - assert (Hq : Py.quote v
                 = Py.Raise (Py.TypeError "expected string or bytes-like object")).
    { unfold Py.quote. rewrite Ht. cbn [negb].
      destruct v; try reflexivity. discriminate Hstr. }
    pose proof (clean_unquotable json_loads k _ v _ Hk Hv Hq) as H.
    fold kwargs0 in H.
    destruct (Sanitizer.before json_loads k kwargs0); [eexists|]; exact H.
  - intros kwargs H. subst outcome. cbn [snd Sanitizer.sanitize] in H.
    destruct (clean_quotes json_loads k _ _ Hk H) as (v' & q & Hv' & Hq & Hs).
    rewrite Hv in Hv'. injection Hv' as <-.
    unfold Py.quote in Hq. rewrite Ht in Hq. cbn [negb] in Hq.
    injection Hq as <-. exact Hs.
Qed.

Lemma identifier_that_is_not_a_string_witness :
  (exists msg,
      snd (Sanitizer.sanitize Sample.build_arguments Sample.json_loads
             [("branch", Py.VInt 7); ("owner", Py.VStr "18F");
              ("repository", Py.VStr "site");
              ("user_environment_variables", Py.VList [])])
      = Py.Raise (Py.TypeError msg))
  /\ Py.dict_get "branch"
       [("branch", Py.VStr "''"); ("owner", Py.VStr "18F");
        ("repository", Py.VStr "site");
        ("user_environment_variables", Py.VList [])]
     = Some (Py.VStr "''").
Proof.
  split.
  - apply (identifier_that_is_not_a_string
             Sample.build_arguments Sample.json_loads
             [("branch", Py.VInt 7); ("owner", Py.VStr "18F");
              ("repository", Py.VStr "site");
              ("user_environment_variables", Py.VList [])]
             "branch" (Py.VInt 7)).
    + cbn. auto.
    + reflexivity.
    + reflexivity.
  - apply (identifier_that_is_not_a_string
             Sample.build_arguments Sample.json_loads
             [("branch", Py.VInt 0); ("owner", Py.VStr "18F");
              ("repository", Py.VStr "site");
              ("user_environment_variables", Py.VList [])]
             "branch" (Py.VInt 0)).
    + cbn. auto.
    + reflexivity.
    + reflexivity.
    + vm_compute. reflexivity.
Defined.

(** X6.  The script leaves an identifier as the request gave it exactly
    when it is a word that needs no quoting: when [build] is called, the
    keyword [branch], [owner] or [repository] that the request gave as
    the string [s] is bound to [s] itself if and only if [s] is not empty
    and holds only letters, digits, and the characters [_@%+=:,./-]. *)
Theorem plain_identifiers_are_unchanged
    (build_arguments : list string) (json_loads : string -> Py.result Py.value)
    (params kwargs : Py.dict Py.value) (k s : string) :
  snd (Sanitizer.sanitize build_arguments json_loads params) = Py.Ok kwargs ->
  In k Sanitizer.identifiers ->
  Py.dict_get k (Sanitizer.kwargs_of build_arguments params) = Some (Py.VStr s) ->
  Py.dict_get k kwargs = Some (Py.VStr s) <-> Tasks.plain_word s = true.
Proof.
  intros H Hk Hs. cbn [snd Sanitizer.sanitize] in H.
  destruct (clean_quotes json_loads k _ _ Hk H) as (v & q & Hv & Hq & Hq').
  rewrite Hs in Hv. injection Hv as <-.
  assert (Hquote : q = Shlex.quote s).
  { unfold Py.quote in Hq. destruct s as [|c s]; cbn in Hq; now injection Hq. }
  subst q. rewrite Hq', <- quote_fixed. split.
  - now intros [= ->].
  - now intros ->.
Qed.

Lemma plain_identifiers_are_unchanged_witness :
  (Py.dict_get "owner" Cloud.sanitized = Some (Py.VStr "18F")
   <-> Tasks.plain_word "18F" = true)
  /\ (Py.dict_get "branch" Cloud.sanitized = Some (Py.VStr "; rm -rf /")
      <-> Tasks.plain_word "; rm -rf /" = true).
Proof.
  split.
  - apply (plain_identifiers_are_unchanged
             Sample.build_arguments Sample.json_loads Sample.request Cloud.sanitized
             "owner" "18F").
    + vm_compute. reflexivity.
    + cbn. auto.
    + reflexivity.
  - apply (plain_identifiers_are_unchanged
             Sample.build_arguments Sample.json_loads Sample.request Cloud.sanitized
             "branch" "; rm -rf /").
    + vm_compute. reflexivity.
    + cbn. auto.
    + reflexivity.
Defined.

(** ** The script and the platform *)

(** X7.  On success [load_vcap] sets [USER_ENVIRONMENT_VARIABLE_KEY] and
    nothing else, to [credentials.key] of the first user-provided service
    whose name is [federalist-<space>-uev-key].  The services before it
    must each have a name; the services after it are never looked at, so a
    second service of that name, or a malformed entry, changes
    nothing. *)
Theorem load_vcap_takes_the_first_key_service
    (json_loads : string -> Py.result Py.value) (str_of : Py.value -> string)
    (env : gmap string string) (vcap_application vcap_services space : Py.value)
    (pre post : list Py.value) (ups credentials : Py.value) (key : string) :
  json_loads (Py.getenv env "VCAP_APPLICATION" "{}") = Py.Ok vcap_application ->
  json_loads (Py.getenv env "VCAP_SERVICES" "{}") = Py.Ok vcap_services ->
  Py.subscript vcap_application "space_name" = Py.Ok space ->
  Py.subscript vcap_services "user-provided" = Py.Ok (Py.VList (pre ++ ups :: post)) ->
  Forall (fun u => exists n,
              Py.subscript u "name" = Py.Ok n
              /\ Entry.eq_str n (Entry.uev_key_name str_of space) = false) pre ->
  Py.subscript ups "name" = Py.Ok (Py.VStr (Entry.uev_key_name str_of space)) ->
  Py.subscript ups "credentials" = Py.Ok credentials ->
  Py.subscript credentials "key" = Py.Ok (Py.VStr key) ->
  Str.mem Entry.nul key = false ->
  Entry.load_vcap json_loads str_of env
  = Entry.Done (<["USER_ENVIRONMENT_VARIABLE_KEY" := key]> env).
Proof.
  intros Happ Hsrv Hspace Hup Hpre Hname Hcred Hkey Hnul.
  unfold Entry.load_vcap.
  rewrite Happ, Hsrv. cbn [Entry.std Entry.bind]. rewrite Hspace, Hup.
  cbn [Entry.std Entry.bind Py.iterate].
  rewrite (next_ups_first _ _ _ _ Hpre Hname). cbn [Entry.bind].
  rewrite Hcred. cbn [Entry.std Entry.bind]. rewrite Hkey. cbn [Entry.std Entry.bind].
  unfold Entry.setenv. now rewrite Hnul.
Qed.

Lemma load_vcap_takes_the_first_key_service_witness :
  Entry.load_vcap Cloud.json_loads Cloud.str_of Cloud.environment
  = Entry.Done (<["USER_ENVIRONMENT_VARIABLE_KEY" := "k3y"]> Cloud.environment).
Proof.
  apply (load_vcap_takes_the_first_key_service
           Cloud.json_loads Cloud.str_of Cloud.environment
           Cloud.vcap_application Cloud.vcap_services (Py.VStr "staging")
           [Py.VDict [("name", Py.VStr "federalist-staging-rds");
                      ("credentials", Py.VDict [("uri", Py.VStr "postgres://db")])]]
           [Py.VDict [("name", Py.VStr "federalist-staging-uev-key");
                      ("credentials", Py.VStr "stale")]]
           (Py.VDict [("name", Py.VStr "federalist-staging-uev-key");
                      ("credentials", Py.VDict [("key", Py.VStr "k3y")])])
           (Py.VDict [("key", Py.VStr "k3y")]) "k3y").
  - vm_compute. reflexivity.
  - vm_compute. reflexivity.
  - reflexivity.
  - reflexivity.
  - repeat constructor. eexists. split; reflexivity.
  - reflexivity.
  - reflexivity.
  - reflexivity.
  - reflexivity.
Defined.

(** X8.  When every user-provided service has a name and none is named
    [federalist-<space>-uev-key] -- in particular when there is no
    user-provided service -- [next] finds nothing and [load_vcap] ends with
    [StopIteration]. *)
Theorem load_vcap_without_key_service
    (json_loads : string -> Py.result Py.value) (str_of : Py.value -> string)
    (env : gmap string string) (vcap_application vcap_services space : Py.value)
    (services : list Py.value) :
  json_loads (Py.getenv env "VCAP_APPLICATION" "{}") = Py.Ok vcap_application ->
  json_loads (Py.getenv env "VCAP_SERVICES" "{}") = Py.Ok vcap_services ->
  Py.subscript vcap_application "space_name" = Py.Ok space ->
  Py.subscript vcap_services "user-provided" = Py.Ok (Py.VList services) ->
  Forall (fun u => exists n,
              Py.subscript u "name" = Py.Ok n
              /\ Entry.eq_str n (Entry.uev_key_name str_of space) = false)
         services ->
  Entry.load_vcap json_loads str_of env = Entry.Failed Entry.StopIteration.
Proof.
  intros Happ Hsrv Hspace Hup Hall. unfold Entry.load_vcap.
  rewrite Happ, Hsrv. cbn [Entry.std Entry.bind]. rewrite Hspace, Hup.
  cbn [Entry.std Entry.bind Py.iterate].
  now rewrite (next_ups_none _ _ Hall).
Qed.

Lemma load_vcap_without_key_service_witness :
  Entry.load_vcap Cloud.json_loads Cloud.str_of Cloud.environment_without_key
  = Entry.Failed Entry.StopIteration.
Proof.
  apply (load_vcap_without_key_service
           Cloud.json_loads Cloud.str_of Cloud.environment_without_key
           Cloud.vcap_application Cloud.vcap_services_without_key (Py.VStr "staging")
           [Py.VDict [("name", Py.VStr "federalist-staging-rds");
                      ("credentials", Py.VDict [("uri", Py.VStr "postgres://db")])]]).
  - vm_compute. reflexivity.
  - vm_compute. reflexivity.
  - reflexivity.
  - reflexivity.
  - repeat constructor. eexists. split; reflexivity.
Defined.

(** X9.  When the script reaches the call of [build], it has printed the
    warnings of the filter and nothing else, the keywords are those of
    the sanitizer, and the environment differs from the one the script
    started in on at most three variables: each callback the request holds
    (under its upper-case name) is a string and has been copied into the
    variable of that name, and [USER_ENVIRONMENT_VARIABLE_KEY] has been set
    by [load_vcap] exactly when [VCAP_APPLICATION] is set and not empty. *)
Theorem script_environment_at_build
    (build_arguments : list string) (json_loads : string -> Py.result Py.value)
    (str_of : Py.value -> string)
    (env env' : gmap string string) (params kwargs : Py.dict Py.value)
    (printed : list string) :
  Entry.script build_arguments json_loads str_of env params
  = (printed, Entry.Done (env', kwargs)) ->
  Sanitizer.sanitize build_arguments json_loads params = (printed, Py.Ok kwargs)
  /\ (forall k, ~ In k Entry.assigned -> env' !! k = env !! k)
  /\ (forall k, In k ["FEDERALIST_BUILDER_CALLBACK"; "STATUS_CALLBACK"] ->
        match Py.dict_get k params with
        | Some v => exists s, v = Py.VStr s /\ env' !! k = Some s
        | None => env' !! k = env !! k
        end)
  /\ (if Entry.is_set env "VCAP_APPLICATION"
      then exists env1,
          Entry.load_vcap json_loads str_of env1 = Entry.Done env'
          /\ (forall k, k <> "FEDERALIST_BUILDER_CALLBACK" -> k <> "STATUS_CALLBACK" ->
                env1 !! k = env !! k)
      else env' !! "USER_ENVIRONMENT_VARIABLE_KEY"
           = env !! "USER_ENVIRONMENT_VARIABLE_KEY").
Proof.
  unfold Entry.script.
  destruct (Entry.promote "FEDERALIST_BUILDER_CALLBACK" params env)
    as [env1|e] eqn:H1; cbn [Entry.bind]; [|discriminate].
  destruct (Entry.promote "STATUS_CALLBACK" params env1)
    as [env2|e] eqn:H2; [|discriminate].
  destruct (Sanitizer.clean json_loads (Sanitizer.kwargs_of build_arguments params))
    as [kw|e] eqn:Hc; cbn [Entry.std Entry.bind]; [|discriminate].
  apply promote_Done in H1, H2.
  assert (Hvcap : Entry.is_set env2 "VCAP_APPLICATION"
                  = Entry.is_set env "VCAP_APPLICATION").
  { unfold Entry.is_set.
    destruct (Py.dict_get "STATUS_CALLBACK" params) as [v2|];
      [destruct H2 as (s2 & _ & ->); rewrite lookup_insert_ne by discriminate
      |subst env2];
      (destruct (Py.dict_get "FEDERALIST_BUILDER_CALLBACK" params) as [v1|];
       [destruct H1 as (s1 & _ & ->); rewrite lookup_insert_ne by discriminate
       |subst env1]); reflexivity. }
  rewrite Hvcap.
  assert (Hframe2 : forall k, k <> "FEDERALIST_BUILDER_CALLBACK" ->
                      k <> "STATUS_CALLBACK" -> env2 !! k = env !! k).
  { intros k Hk1 Hk2.
    destruct (Py.dict_get "STATUS_CALLBACK" params) as [v2|];
      [destruct H2 as (s2 & _ & ->); rewrite lookup_insert_ne by congruence
      |subst env2];
      (destruct (Py.dict_get "FEDERALIST_BUILDER_CALLBACK" params) as [v1|];
       [destruct H1 as (s1 & _ & ->); rewrite lookup_insert_ne by congruence
       |subst env1]); reflexivity. }
  assert (Hcallbacks : forall k,
            In k ["FEDERALIST_BUILDER_CALLBACK"; "STATUS_CALLBACK"] ->
            match Py.dict_get k params with
            | Some v => exists s, v = Py.VStr s /\ env2 !! k = Some s
            | None => env2 !! k = env !! k
            end).
  { intros k [<-|[<-|[]]].
    - destruct (Py.dict_get "FEDERALIST_BUILDER_CALLBACK" params) as [v1|].
      + destruct H1 as (s1 & -> & ->). exists s1. split; [reflexivity|].
        destruct (Py.dict_get "STATUS_CALLBACK" params) as [v2|];
          [destruct H2 as (s2 & _ & ->); rewrite lookup_insert_ne by discriminate
          |subst env2]; apply lookup_insert_eq.
      + subst env1.
        destruct (Py.dict_get "STATUS_CALLBACK" params) as [v2|];
          [destruct H2 as (s2 & _ & ->); rewrite lookup_insert_ne by discriminate
          |subst env2]; reflexivity.
    - destruct (Py.dict_get "STATUS_CALLBACK" params) as [v2|].
      + destruct H2 as (s2 & -> & ->). exists s2. split; [reflexivity|].
        apply lookup_insert_eq.
      + subst env2.
        destruct (Py.dict_get "FEDERALIST_BUILDER_CALLBACK" params) as [v1|];
          [destruct H1 as (s1 & _ & ->); rewrite lookup_insert_ne by discriminate
          |subst env1]; reflexivity. }
  destruct (Entry.is_set env "VCAP_APPLICATION").
  - destruct (Entry.load_vcap json_loads str_of env2) as [env3|e] eqn:Hl;
      cbn [Entry.bind]; [|discriminate].
    intros [= <- <- <-]. split; [unfold Sanitizer.sanitize; now rewrite Hc|].
    destruct (load_vcap_Done json_loads str_of _ _ Hl) as (key & ->).
    split; [|split].
    + intros k Hk. cbn in Hk.
      rewrite lookup_insert_ne by (intros <-; tauto).
      apply Hframe2; intros ->; tauto.
    + intros k Hk. specialize (Hcallbacks k Hk).
      rewrite lookup_insert_ne by (destruct Hk as [<-|[<-|[]]]; discriminate).
      exact Hcallbacks.
    + exists env2. split; [exact Hl|exact Hframe2].
  - intros [= <- <- <-]. split; [unfold Sanitizer.sanitize; now rewrite Hc|].
    split; [|split].
    + intros k Hk. cbn in Hk. apply Hframe2; intros ->; tauto.
    + exact Hcallbacks.
    + apply Hframe2; discriminate.
Qed.

Lemma script_environment_at_build_witness :
  Sanitizer.sanitize Sample.build_arguments Cloud.json_loads Cloud.request
  = (Cloud.printed, Py.Ok Cloud.keywords_at_build)
  /\ Cloud.environment_at_build !! "HOME" = Cloud.environment !! "HOME"
  /\ Cloud.environment_at_build !! "STATUS_CALLBACK" = Some "https://app/status".
Proof.
  destruct (script_environment_at_build
              Sample.build_arguments Cloud.json_loads Cloud.str_of
              Cloud.environment Cloud.environment_at_build
              Cloud.request Cloud.keywords_at_build Cloud.printed)
    as (Hs & Hframe & Hcallbacks & _).
  - vm_compute. reflexivity.
  - split; [exact Hs|]. split.
    + apply Hframe. cbn. intuition discriminate.
    + destruct (Hcallbacks "STATUS_CALLBACK") as (s & Hv & Hs'); [cbn; auto|].
      injection Hv as <-. exact Hs'.
Defined.

(** X10.  A callback the request holds with a value that is not a string
    ends the script before anything is printed and before the sanitizer
    runs: [os.environ] takes strings only, and the assignment raises
    [TypeError] (or the other callback, assigned first, has already raised
    [TypeError] or [ValueError]). *)
Theorem callback_that_is_not_a_string
    (build_arguments : list string) (json_loads : string -> Py.result Py.value)
    (str_of : Py.value -> string)
    (env : gmap string string) (params : Py.dict Py.value) (k : string) (v : Py.value) :
  In k ["FEDERALIST_BUILDER_CALLBACK"; "STATUS_CALLBACK"] ->
  Py.dict_get k params = Some v ->
  Py.is_str v = false ->
  exists e,
    Entry.script build_arguments json_loads str_of env params
    = ([], Entry.Failed (Entry.Builtin e))
    /\ ((exists msg, e = Py.TypeError msg) \/ (exists msg, e = Py.ValueError msg)).
Proof.
  intros Hk Hv Hstr. unfold Entry.script.
  assert (Hset : forall env0 k0, exists msg,
            Entry.setenv env0 k0 v = Entry.Failed (Entry.Builtin (Py.TypeError msg))).
  { intros env0 k0. destruct v; try (eexists; reflexivity). discriminate Hstr. }
  destruct Hk as [<-|[<-|[]]].
  - unfold Entry.promote at 1. rewrite Hv.
    destruct (Hset env "FEDERALIST_BUILDER_CALLBACK") as (msg & ->).
    cbn [Entry.bind]. eexists. split; [reflexivity|]. left. now exists msg.
  - destruct (Entry.promote "FEDERALIST_BUILDER_CALLBACK" params env)
      as [env1|e] eqn:H1; cbn [Entry.bind].
    + unfold Entry.promote. rewrite Hv.
      destruct (Hset env1 "STATUS_CALLBACK") as (msg & ->).
      eexists. split; [reflexivity|]. left. now exists msg.
    + unfold Entry.promote in H1.
      destruct (Py.dict_get "FEDERALIST_BUILDER_CALLBACK" params) as [v1|] in H1;
        [|discriminate H1].
      unfold Entry.setenv in H1.
      destruct v1; try (injection H1 as <-);
        try (eexists; split; [reflexivity|]; left; eexists; reflexivity).
      destruct (Str.mem Entry.nul s); [|discriminate H1].
      injection H1 as <-. eexists. split; [reflexivity|]. right. eexists. reflexivity.
Qed.

Lemma callback_that_is_not_a_string_witness :
  exists e,
    Entry.script Sample.build_arguments Cloud.json_loads Cloud.str_of
      Cloud.environment
      [("STATUS_CALLBACK", Py.VNone); ("branch", Py.VStr "main")]
    = ([], Entry.Failed (Entry.Builtin e))
    /\ ((exists msg, e = Py.TypeError msg) \/ (exists msg, e = Py.ValueError msg)).
Proof.
  apply (callback_that_is_not_a_string
           Sample.build_arguments Cloud.json_loads Cloud.str_of Cloud.environment
           [("STATUS_CALLBACK", Py.VNone); ("branch", Py.VStr "main")]
           "STATUS_CALLBACK" Py.VNone).
  - cbn. auto.
  - reflexivity.
  - reflexivity.
Defined.

(** X11.  A callback of the request is both used and reported as
    unused: for a build step whose parameters are lower-case names, when
    the script reaches the call of [build] with a request that holds
    [FEDERALIST_BUILDER_CALLBACK] or [STATUS_CALLBACK], it has printed the
    warning for that key, and the key is not among the keywords of the
    call. *)
Theorem callbacks_are_reported_unused
    (build_arguments : list string) (json_loads : string -> Py.result Py.value)
    (str_of : Py.value -> string)
    (env env' : gmap string string) (params kwargs : Py.dict Py.value)
    (k : string) (v : Py.value) (printed : list string) :
  Sanitizer.lower_case_names build_arguments ->
  In k ["FEDERALIST_BUILDER_CALLBACK"; "STATUS_CALLBACK"] ->
  Py.dict_get k params = Some v ->
  Entry.script build_arguments json_loads str_of env params
  = (printed, Entry.Done (env', kwargs)) ->
  In (Sanitizer.warning k) printed /\ Py.dict_get k kwargs = None.
Proof.
  intros Hlow Hk Hv Hrun.
  assert (Hnot : ~ In k build_arguments).
  { intros Hin. apply Hlow in Hin.
    destruct Hk as [<-|[<-|[]]]; discriminate Hin. }
  unfold Entry.script in Hrun.
  destruct (Entry.bind _ _) in Hrun; [|discriminate Hrun].
  injection Hrun as <- Hrun.
  split.
  - unfold Sanitizer.warnings. apply in_map, filter_In. split.
    + clear -Hv. induction params as [|[k0 v0] rest IH]; [discriminate Hv|].
      cbn [Py.dict_get] in Hv. destruct (String.eqb k0 k) eqn:E.
      * apply String.eqb_eq in E. subst k0. now left.
      * right. now apply IH.
    + destruct (Py.contains build_arguments k) eqn:E; [|reflexivity].
      apply contains_In in E. contradiction.
  - destruct (Sanitizer.clean json_loads
                (Sanitizer.kwargs_of build_arguments params)) as [kw|e] eqn:Hc;
      cbn [Entry.std Entry.bind] in Hrun; [|discriminate Hrun].
    destruct (if Entry.is_set _ _ then _ else _) in Hrun;
      cbn [Entry.bind] in Hrun; [|discriminate Hrun].
    injection Hrun as _ <-.
    destruct (Py.dict_get k kw) as [x|] eqn:Hx; [|reflexivity].
    exfalso. destruct (clean_bound json_loads k _ _ x Hc Hx) as (x0 & Hx0).
    apply kwargs_of_bound in Hx0 as (k' & _ & _ & Hba & Heq).
    apply contains_In in Hba. rewrite (Hlow _ Hba) in Heq. subst k'. contradiction.
Qed.

Lemma callbacks_are_reported_unused_witness :
  In "WARNING - Ignoring unused build argument: STATUS_CALLBACK" Cloud.printed
  /\ Py.dict_get "STATUS_CALLBACK" Cloud.keywords_at_build = None.
Proof.
  apply (callbacks_are_reported_unused
           Sample.build_arguments Cloud.json_loads Cloud.str_of Cloud.environment
           Cloud.environment_at_build Cloud.request Cloud.keywords_at_build
           "STATUS_CALLBACK" (Py.VStr "https://app/status") Cloud.printed).
  - intros a Ha. simpl in Ha.
    repeat (destruct Ha as [<-|Ha]; [reflexivity|]). destruct Ha.
  - cbn. auto.
  - reflexivity.
  - vm_compute. reflexivity.
Defined.

(** ** The pipeline, from the environment to the last notification *)

Section PipelineProperties.
Import Py Tasks Plan.
Variable json_loads : string -> result value.
Variable json_dumps : value -> string.
Variable decrypt : value -> string -> result string.
Variable delta_to_mins_secs : N -> string.

Let load := Tasks.load json_loads.
Let setup := Tasks.setup json_loads decrypt.
Let try_block := Tasks.try_block json_dumps delta_to_mins_secs.
Let run_main := Tasks.run_main json_loads json_dumps decrypt delta_to_mins_secs.

(** X12.  When one of the fifteen variables [main] reads with
    [os.environ[...]] is not set, [main] ends before it has called
    anything -- no logging, no notification, no stage -- with the
    [KeyError] of a missing variable, or with the exception of [json.loads]
    on [USER_ENVIRONMENT_VARIABLES] when that line comes first. *)
Theorem missing_variable_ends_main env w k :
  In k required_variables -> env !! k = None ->
  exists e,
    run_main env w = (Raise e, initial)
    /\ ((exists k', e = KeyError k' /\ In k' required_variables /\ env !! k' = None)
        \/ json_loads (getenv env "USER_ENVIRONMENT_VARIABLES" "[]") = Raise e).
Proof.
  intros Hk Hmiss.
  destruct (load_missing json_loads env k Hk Hmiss) as (e & Hload & He).
  exists e. split; [|exact He].
  unfold run_main, Tasks.run_main, main, Tasks.setup, mbind, now, lift.
  unfold load in Hload. rewrite Hload. reflexivity.
Qed.

(** X13.  The variables [GITHUB_TOKEN], [STATUS_CALLBACK], [DATABASE_URL]
    and [USER_ENVIRONMENT_VARIABLES] are optional: when the fifteen
    required variables are set and the variables document parses, lines
    64-94 succeed, an optional variable that is not set reads as the empty
    string, and the document defaults to [[]]. *)
Theorem optional_variables_have_defaults env v :
  (forall k, In k required_variables -> exists s, env !! k = Some s) ->
  json_loads (match env !! "USER_ENVIRONMENT_VARIABLES" with
              | Some s => s
              | None => "[]"
              end) = Ok v ->
  exists l,
    load env = Ok l
    /\ USER_ENVIRONMENT_VARIABLES l = v
    /\ GITHUB_TOKEN l = default "" (env !! "GITHUB_TOKEN")
    /\ STATUS_CALLBACK l = default "" (env !! "STATUS_CALLBACK")
    /\ DATABASE_URL l = default "" (env !! "DATABASE_URL")
    /\ Forall (fun kv => env !! fst kv = Some (snd kv))
         [("BRANCH", BRANCH l); ("OWNER", OWNER l); ("REPOSITORY", REPOSITORY l);
          ("GENERATOR", GENERATOR l); ("CONFIG", CONFIG l); ("BUCKET", BUCKET l);
          ("BASEURL", BASEURL l); ("SITE_PREFIX", SITE_PREFIX l);
          ("BUILD_ID", BUILD_ID l); ("CACHE_CONTROL", CACHE_CONTROL l);
          ("AWS_DEFAULT_REGION", AWS_DEFAULT_REGION l);
          ("AWS_ACCESS_KEY_ID", AWS_ACCESS_KEY_ID l);
          ("AWS_SECRET_ACCESS_KEY", AWS_SECRET_ACCESS_KEY l);
          ("USER_ENVIRONMENT_VARIABLE_KEY", USER_ENVIRONMENT_VARIABLE_KEY l);
          ("FEDERALIST_BUILDER_CALLBACK", FEDERALIST_BUILDER_CALLBACK l)].
Proof.
  intros Hreq Hjson.
  destruct (load env) as [l|e] eqn:Hload.
  - exists l. split; [reflexivity|].
    apply load_Ok in Hload.
    destruct Hload as (H1 & H2 & H3 & H4 & H5 & H6 & H7 & H8 & H9 & H10 & H11
                       & H12 & H13 & H14 & H15 & Hj & Ht & Hs & Hd).
    unfold getenv in Hj, Ht, Hs, Hd. rewrite Hjson in Hj. injection Hj as <-.
    split; [reflexivity|]. split; [exact Ht|]. split; [exact Hs|].
    split; [exact Hd|]. repeat constructor; assumption.
  - exfalso. revert Hload. unfold load, Tasks.load.
    repeat (rewrite bind_environ;
            match goal with
            | |- context [match env !! ?k with _ => _ end] =>
                let Hs := fresh in
                destruct (Hreq k) as [? Hs]; [cbn; auto 20|]; rewrite Hs
            end).
    unfold getenv at 1. rewrite Hjson. cbn [bind].
    repeat (rewrite bind_environ;
            match goal with
            | |- context [match env !! ?k with _ => _ end] =>
                let Hs := fresh in
                destruct (Hreq k) as [? Hs]; [cbn; auto 20|]; rewrite Hs
            end).
    discriminate.
Qed.

(** X14.  A failure before the [try] statement is not reported: when the
    lines before it raise -- a missing variable, a variable that cannot be
    decrypted, a failing logging set-up -- [main] ends with that
    exception, and the only calls it has made are those of the logging
    set-up: no processing notification, no stage, no terminal
    notification. *)
Theorem setup_failure_is_not_reported env w e st :
  setup env w initial = (Raise e, st) ->
  run_main env w = (Raise e, st)
  /\ (forall c b o, In (Called c b o) (trace st) ->
        c = should_skip_logging
        \/ exists pv la db skip, c = init_logging pv la db skip)
  /\ stages (trace st) = []
  /\ terminal_notifications (trace st) = [].
Proof.
  intros H. split.
  - unfold run_main, Tasks.run_main, main, mbind. fold setup. now rewrite H.
  - revert H. unfold setup, Tasks.setup. rewrite mbind_now.
    destruct (Tasks.load json_loads env) as [l|e0];
      [rewrite mbind_lift_Ok
      |rewrite mbind_lift_Raise; intros [= <- <-]; cbn; intuition].
    destruct (decrypt_uevs decrypt l) as [us|e0];
      [rewrite mbind_lift_Ok
      |rewrite mbind_lift_Raise; intros [= <- <-]; cbn; intuition].
    destruct (private_values env (map uev_value us)) as [pv|e0];
      [rewrite mbind_lift_Ok
      |rewrite mbind_lift_Raise; intros [= <- <-]; cbn; intuition].
    unfold initial. cbn [clock]. rewrite mbind_perform_unarmed.
    destruct (ending (w 0%nat)) as [v0|e0].
    + rewrite mbind_perform_unarmed.
      destruct (ending (w 1%nat)) as [v1|e1]; [discriminate|].
      intros [= <- <-]. cbn. split; [|split; reflexivity].
      intros c b o [Hin|[Hin|[]]]; injection Hin as <- _ _; eauto 10.
    + intros [= <- <-]. cbn. split; [|split; reflexivity].
      intros c b o [Hin|[]]; injection Hin as <- _ _; eauto.
Qed.

(** X15.  A run that reaches the [try] statement starts with the same
    three calls, once each and with the timer off: [should_skip_logging],
    then [init_logging] with the private values -- the two AWS credentials,
    the token when it is not empty, and every decrypted user value -- then
    the processing notification.  Whatever comes after is a log line, a
    stage or a terminal notification: the logger knows the secrets
    before the first line is logged and before the first stage runs. *)
Theorem logging_is_set_up_first env w l uevs t0 st1 :
  setup env w initial = (Ok (l, uevs, t0), st1) ->
  exists v0 v1 o rest,
    trace (snd (run_main env w))
    = Called should_skip_logging false (Returned v0)
      :: Called (init_logging (priv_vals l uevs) (logattrs l) (DATABASE_URL l) v0)
                false (Returned v1)
      :: Called (post_build_processing (STATUS_CALLBACK l)) false o
      :: rest
    /\ forallb later_event rest = true.
Proof.
  intros H. unfold run_main. start_run_with H Hload Hpv.
  all: rewrite (private_values_loaded json_loads _ _ _ Hload) in Hpv;
    injection Hpv as <-.
  all: do 4 eexists; (split; [reflexivity|]).
  all: cbn [forallb later_event is_stage is_terminal orb andb];
    apply handler_events_kind.
Qed.

(** X16.  The first call that does not return under the timer ends the
    block.  When a call made with the timer on raises [e] -- or is cut by
    the deadline, which raises [TimeoutException] out of it -- every call
    before it has returned, and nothing follows but what the matching
    [except] clause does: a warning line and one notification, made with
    the timer off ([post_build_timeout] for [TimeoutException],
    [post_build_error] with the text of the exit for [UnexpectedExit], with
    the fixed message for any other [Exception]), whose outcome is the
    outcome of [main].  An exception outside the [Exception] hierarchy is
    not caught: nothing follows, and [main] raises it. *)
Theorem failed_call_ends_the_block env w l uevs t0 st1 c e :
  setup env w initial = (Ok (l, uevs, t0), st1) ->
  let r := run_main env w in
  In (Called c true (Raised e)) (trace (snd r)) ->
  exists pre o,
    trace (snd r) = pre ++ Called c true (Raised e) :: reported l e o
    /\ forallb returned pre = true
    /\ fst r = match reported l e o with
               | [] => Raise e
               | _ => match o with
                      | Returned _ => Ok tt
                      | Raised e' => Raise e'
                      end
               end.
Proof.
  intros H. unfold run_main. start_run H.
  all: intros Hin; apply in_app_iff in Hin as [Hin|Hin];
    [|now apply handler_events_untimed in Hin].
  all: split_in Hin.
  all: injection Hin as <- <-.
  all: rewrite handler_events_reported, handled_reported; cbn [calls].
  all: match goal with
       | |- context [?L ++ reported _ _ ?o] => exists (removelast L), o
       end.
  all: split; [reflexivity|]; split; reflexivity.
Qed.

(** X17.  The completion notification is sent only after a full build.
    If [post_build_complete] is called at all, it is called with the
    callbacks of the environment and under the timer, the generator is one
    of the five [main] knows, the stages of the run are the whole plan --
    fetch, build script, the engine of the generator if it has one,
    publish -- the fetch returned zero, no stage raised or was cut, and the
    total build time has been logged. *)
Theorem completion_follows_a_full_build env w l uevs t0 st1 s b timed o :
  setup env w initial = (Ok (l, uevs, t0), st1) ->
  let tr := trace (snd (run_main env w)) in
  In (Called (post_build_complete s b) timed o) tr ->
  s = STATUS_CALLBACK l /\ b = FEDERALIST_BUILDER_CALLBACK l /\ timed = true
  /\ In (GENERATOR l) generators
  /\ stages tr = pipeline json_dumps l uevs
  /\ (exists rc, In (Called (fetch l) true (Returned rc)) tr /\ ne_zero rc = false)
  /\ (forall c t e, is_stage c = true -> ~ In (Called c t (Raised e)) tr)
  /\ (exists d, In (Logged INFO ("Total build time: " +:+ d)) tr).
Proof.
  intros H. unfold run_main. start_run H.
  all: intros Hin; apply in_app_iff in Hin as [Hin|Hin];
    [|now apply handler_events_no_complete in Hin].
  all: split_in Hin.
  all: injection Hin as <- <- <- <-.
  all: split; [reflexivity|]; split; [reflexivity|]; split; [reflexivity|].
  all: split;
    [repeat match goal with
            | Hb : String.eqb _ _ = true |- _ => apply String.eqb_eq in Hb; rewrite Hb
            end; cbn; tauto|].
  all: split;
    [rewrite stages_app, handler_events_stages, app_nil_r;
     unfold pipeline, engine; generator_tests; reflexivity|].
  all: split;
    [eexists; split; [apply in_app_iff; left; cbn [In]; unfold fetch; eauto 10
                     |assumption]|].
  all: split;
    [|eexists; apply in_app_iff; left; cbn [In]; eauto 20].
  all: intros c0 t e0 Hc Hin; apply in_app_iff in Hin as [Hin|Hin];
    [|now apply (handler_events_no_stage _ _ _ _ _ _ _ Hc) in Hin].
  all: split_in Hin.
  all: injection Hin as <- _ _; discriminate Hc.
Qed.

(** X18.  The stages of a run are an initial part of the plan: the fetch,
    the build script, the engine of the generator, the publish, in that
    order.  No stage runs twice, none is skipped, and none runs before the
    stage planned before it. *)
Theorem stages_follow_the_plan env w l uevs t0 st1 :
  setup env w initial = (Ok (l, uevs, t0), st1) ->
  exists rest,
    pipeline json_dumps l uevs = stages (trace (snd (run_main env w))) ++ rest.
Proof.
  intros H. unfold run_main. start_run H.
  all: rewrite stages_app, handler_events_stages, app_nil_r.
  all: unfold pipeline, engine; generator_tests.
  all: eexists; reflexivity.
Qed.

(** X19.  How [main] can raise.  When a run that reached the [try]
    statement ends with the exception [e], then either the notification
    of an [except] clause raised [e], as the last call of the run; or a
    call in the block raised [e] from outside the [Exception] hierarchy,
    as the last call of the run; or [e] is the [SystemExit(1)] of a fetch
    that returned a code other than zero.  Every [Exception] raised by a
    stage or a notification in the block is caught. *)
Theorem how_main_raises env w l uevs t0 st1 e :
  setup env w initial = (Ok (l, uevs, t0), st1) ->
  let r := run_main env w in
  fst r = Raise e ->
  (exists pre c, trace (snd r) = pre ++ [Called c false (Raised e)]
                 /\ is_terminal c = true)
  \/ (is_Exception e = false
      /\ exists pre c timed, trace (snd r) = pre ++ [Called c timed (Raised e)])
  \/ (e = SystemExit 1
      /\ exists rc, In (Called (fetch l) true (Returned rc)) (trace (snd r))
                    /\ ne_zero rc = true).
Proof.
  intros H. unfold run_main. start_run H.
  all: try (intros Hr; discriminate Hr).
  all: rewrite handler_events_reported, handled_reported; cbn [calls].
  all: match goal with
       | |- context [reported _ ?e0 _] =>
           first [is_var e0; destruct e0 | idtac]
       end.
  all: cbn [reported is_Exception].
  all: try match goal with
           | |- context [match ending (?w ?n) with _ => _ end] =>
               destruct (ending (w n)) as [?v|?e]
           end.
  all: intros Hr; try discriminate Hr; injection Hr as <-.
  all: first
    [ left; eexists (_ ++ [_]), _; split; [rewrite <- app_assoc; reflexivity|];
      reflexivity
    | right; left; split; [reflexivity|];
      match goal with
      | |- context [?L ++ [] = _] => exists (removelast L)
      end; do 2 eexists; reflexivity
    | right; right; split; [reflexivity|];
      eexists; split; [apply in_app_iff; left; cbn [In]; unfold fetch; eauto 10
                      |assumption] ].
Qed.

(** X20.  The block of the [try] statement is over at most
    [TIMEOUT_SECONDS] after the processing notification has ended, however
    long the stages and the notifications under the timer would take: the
    timer cuts the call that would pass the deadline.  (Time passes inside
    calls only, and the timer interrupts the call in progress.) *)
Theorem block_ends_by_the_deadline env w l uevs t0 st1 :
  setup env w initial = (Ok (l, uevs, t0), st1) ->
  clock (snd (try_block l uevs t0 w st1))
  <= clock st1 + elapsed (w 2%nat) + TIMEOUT_SECONDS.
Proof.
  intros H.
  apply setup_Ok in H as (-> & _ & _ & pv & v0 & v1 & _ & ->).
  remember (try_block l uevs 0 w
              (State (setup_trace l pv v0 v1) 2
                     (0 + elapsed (w 0%nat) + elapsed (w 1%nat)) None)) as X eqn:HX.
  unfold try_block, Tasks.try_block, Tasks.timed_block in HX.
  exec_in HX; subst X; cbn [snd clock].
  all: repeat match goal with
              | Hb : (_ <? _) = false |- _ => apply N.ltb_ge in Hb
              | Hb : (_ <? _) = true |- _ => apply N.ltb_lt in Hb
              end.
  all: lia.
Qed.

(** X21.  The total build time counts from the start of [main].  When
    the publish returns, the line [Total build time: ...] is logged, and
    the time it gives to [delta_to_mins_secs] is the time of every call
    made so far: the two calls of the logging set-up and the processing
    notification, which the deadline does not cover, and the stages of the
    plan.  (Time passes inside calls only.) *)
Theorem total_build_time_counts_from_the_start env w l uevs t0 st1 v :
  setup env w initial = (Ok (l, uevs, t0), st1) ->
  let tr := trace (snd (run_main env w)) in
  In (Called (upload l) true (Returned v)) tr ->
  In (Logged INFO
        ("Total build time: "
         +:+ delta_to_mins_secs
               (spent w (3 + length (pipeline json_dumps l uevs)))))
     tr.
Proof.
  intros H. unfold run_main. start_run H.
  all: intros Hin; apply in_app_iff in Hin as [Hin|Hin];
    [|now apply handler_events_untimed in Hin].
  all: split_in Hin.
  all: clear Hin; apply in_app_iff; left.
  all: unfold pipeline, engine; generator_tests.
  all: cbn [length app Nat.add spent]; rewrite N.sub_0_r.
  all: cbn [In]; tauto.
Qed.

(** X22.  What [main] runs in a shell.  Every subprocess of a run is
    started under the timer and without an environment of its own, for one
    of four tasks, and an engine task runs only for its generator.
    [build-static] gets no flag.  The other tasks get six flags, in this
    order and with these values: [--branch], [--owner], [--repository],
    [--site-prefix] and [--base-url] with the values of the environment
    variables [BRANCH], [OWNER], [REPOSITORY], [SITE_PREFIX] and [BASEURL],
    and [--user-env-vars] with the JSON document of the names and the
    decrypted values of the user variables; [build-jekyll] alone gets a
    seventh, [--config] with the value of [CONFIG].  Nothing else is given
    to a subprocess as a flag: the values of [AWS_ACCESS_KEY_ID],
    [AWS_SECRET_ACCESS_KEY] and [GITHUB_TOKEN] are not read for any
    flag. *)
Theorem subprocesses_of_a_run env w l uevs t0 st1 cmd e timed o :
  setup env w initial = (Ok (l, uevs, t0), st1) ->
  In (Called (ctx_run cmd e) timed o) (trace (snd (run_main env w))) ->
  e = None /\ timed = true
  /\ exists task,
      In task ["run-federalist-script"; "build-jekyll"; "build-hugo"; "build-static"]
      /\ (task = "build-jekyll" -> GENERATOR l = "jekyll")
      /\ (task = "build-hugo" -> GENERATOR l = "hugo")
      /\ (task = "build-static" -> GENERATOR l = "static")
      /\ cmd
         = command task
             (if String.eqb task "build-static" then None
              else Some
                     ([("--branch", BRANCH l);
                       ("--owner", OWNER l);
                       ("--repository", REPOSITORY l);
                       ("--site-prefix", SITE_PREFIX l);
                       ("--base-url", BASEURL l);
                       ("--user-env-vars",
                        json_dumps
                          (VList (map (fun u => VDict [("name", uev_name u);
                                                       ("value", VStr (uev_value u))])
                                      uevs)))]
                      ++ (if String.eqb task "build-jekyll"
                          then [("--config", CONFIG l)] else []))).
Proof.
  intros H. unfold run_main. start_run H.
  all: intros Hin; apply in_app_iff in Hin as [Hin|Hin];
    try (apply handler_events_terminal_calls in Hin; discriminate Hin).
  all: split_in Hin.
  all: injection Hin as <- <- <- <-.
  all: split; [reflexivity|]; split; [reflexivity|].
  all: match goal with
       | |- context [command ?t _ = _] => exists t
       end.
  all: split; [cbn; tauto|].
  all: repeat (split;
               [intros E; first [discriminate E | now apply String.eqb_eq]|]).
  all: reflexivity.
Qed.

End PipelineProperties.

(** ** The properties of the pipeline on sample runs *)

Section MoreSampleRuns.
Import Py Tasks Plan.

Lemma missing_variable_ends_main_witness :
  exists e,
    run_main Sample.json_loads Sample.json_dumps Sample.decrypt
             Sample.delta_to_mins_secs
             (delete "BUCKET" (Sample.environment "hugo")) Sample.all_well
    = (Raise e, initial)
    /\ ((exists k', e = KeyError k' /\ In k' required_variables
                    /\ delete "BUCKET" (Sample.environment "hugo") !! k' = None)
        \/ Sample.json_loads
             (getenv (delete "BUCKET" (Sample.environment "hugo"))
                     "USER_ENVIRONMENT_VARIABLES" "[]") = Raise e).
Proof.
  apply (missing_variable_ends_main
           Sample.json_loads Sample.json_dumps Sample.decrypt
           Sample.delta_to_mins_secs
           (delete "BUCKET" (Sample.environment "hugo")) Sample.all_well "BUCKET").
  - cbn. auto.
  - vm_compute. reflexivity.
Defined.

Lemma optional_variables_have_defaults_witness :
  exists l,
    load Sample.json_loads
         (delete "GITHUB_TOKEN"
            (delete "STATUS_CALLBACK"
               (delete "USER_ENVIRONMENT_VARIABLES" (Sample.environment "hugo"))))
    = Ok l
    /\ USER_ENVIRONMENT_VARIABLES l = VList []
    /\ GITHUB_TOKEN l = EmptyString
    /\ STATUS_CALLBACK l = EmptyString
    /\ DATABASE_URL l = EmptyString.
Proof.
  destruct (optional_variables_have_defaults
              Sample.json_loads
              (delete "GITHUB_TOKEN"
                 (delete "STATUS_CALLBACK"
                    (delete "USER_ENVIRONMENT_VARIABLES" (Sample.environment "hugo"))))
              (VList []))
    as (l & Hl & Hu & Ht & Hs & Hd & _).
  - intros k Hk. cbn in Hk.
    repeat (destruct Hk as [<-|Hk]; [eexists; vm_compute; reflexivity|]).
    destruct Hk.
  - vm_compute. reflexivity.
  - exists l. repeat split; assumption.
Defined.

Lemma setup_failure_is_not_reported_witness :
  run_main Sample.json_loads Sample.json_dumps Sample.decrypt
           Sample.delta_to_mins_secs (Sample.environment_wrong_key "static")
           Sample.all_well
  = (Raise (Exception "Invalid key"), initial)
  /\ terminal_notifications (trace initial) = [].
Proof.
  destruct (setup_failure_is_not_reported
              Sample.json_loads Sample.json_dumps Sample.decrypt
              Sample.delta_to_mins_secs (Sample.environment_wrong_key "static")
              Sample.all_well (Exception "Invalid key") initial)
    as (Hrun & _ & _ & Hnone).
  - vm_compute. reflexivity.
  - split; [exact Hrun|exact Hnone].
Defined.

Lemma logging_is_set_up_first_witness :
  exists v0 v1 o rest,
    Sample.trace_of "hugo" Sample.all_well
    = Called should_skip_logging false (Returned v0)
      :: Called (init_logging ["AKIA"; "s3cr3t"; "ghp"; "plain:c2VjcmV0"]
                              (logattrs (Sample.locals_of "hugo")) EmptyString v0)
                false (Returned v1)
      :: Called (post_build_processing Sample.status_url) false o
      :: rest
    /\ forallb later_event rest = true.
Proof.
  apply (logging_is_set_up_first
           Sample.json_loads Sample.json_dumps Sample.decrypt
           Sample.delta_to_mins_secs (Sample.environment "hugo") Sample.all_well
           (Sample.locals_of "hugo") Sample.uevs 0 (Sample.started "hugo")).
  vm_compute. reflexivity.
Defined.

Lemma failed_call_ends_the_block_witness :
  exists pre o,
    Sample.trace_of "hugo" Sample.slow_fetch
    = pre ++ [Called (fetch_repo "18F" "site" "main" "ghp") true
                     (Raised TimeoutException);
              Logged WARNING "Build(18F/site@id:42) has timed out";
              Called (post_build_timeout Sample.status_url Sample.builder_url)
                     false o]
    /\ forallb returned pre = true.
Proof.
  destruct (failed_call_ends_the_block
              Sample.json_loads Sample.json_dumps Sample.decrypt
              Sample.delta_to_mins_secs (Sample.environment "hugo") Sample.slow_fetch
              (Sample.locals_of "hugo") Sample.uevs 0
              (State (trace (Sample.started "hugo")) 2 3601 None)
              (fetch_repo "18F" "site" "main" "ghp") TimeoutException)
    as (pre & o & Htrace & Hpre & _).
  - vm_compute. reflexivity.
  - vm_compute. tauto.
  - exists pre, o. split; [exact Htrace|exact Hpre].
Defined.

Lemma completion_follows_a_full_build_witness :
  stages (Sample.trace_of "static" Sample.completion_fails)
  = pipeline Sample.json_dumps (Sample.locals_of "static") Sample.uevs
  /\ In "static" generators.
Proof.
  destruct (completion_follows_a_full_build
              Sample.json_loads Sample.json_dumps Sample.decrypt
              Sample.delta_to_mins_secs (Sample.environment "static")
              Sample.completion_fails
              (Sample.locals_of "static") Sample.uevs 0 (Sample.started "static")
              Sample.status_url Sample.builder_url true
              (Raised (Exception "ConnectionError")))
    as (_ & _ & _ & Hgen & Hstages & _).
  - vm_compute. reflexivity.
  - vm_compute. tauto.
  - split; [exact Hstages|exact Hgen].
Defined.

Lemma stages_follow_the_plan_witness :
  exists rest,
    pipeline Sample.json_dumps (Sample.locals_of "jekyll") Sample.uevs
    = stages (Sample.trace_of "jekyll" Sample.fetch_fails) ++ rest.
Proof.
  apply (stages_follow_the_plan
           Sample.json_loads Sample.json_dumps Sample.decrypt
           Sample.delta_to_mins_secs (Sample.environment "jekyll") Sample.fetch_fails
           (Sample.locals_of "jekyll") Sample.uevs 0 (Sample.started "jekyll")).
  vm_compute. reflexivity.
Defined.

Lemma how_main_raises_witness :
  exists rc,
    In (Called (fetch (Sample.locals_of "hugo")) true (Returned rc))
       (Sample.trace_of "hugo" Sample.fetch_fails)
    /\ ne_zero rc = true.
Proof.
  destruct (how_main_raises
              Sample.json_loads Sample.json_dumps Sample.decrypt
              Sample.delta_to_mins_secs (Sample.environment "hugo") Sample.fetch_fails
              (Sample.locals_of "hugo") Sample.uevs 0 (Sample.started "hugo")
              (SystemExit 1))
    as [(pre & c & Htrace & _)|[(Hclass & pre & c & timed & Htrace)|(_ & Hfetch)]].
  - vm_compute. reflexivity.
  - vm_compute. reflexivity.
  - exfalso. apply (f_equal (@last event)) in Htrace. revert Htrace.
    rewrite last_snoc. vm_compute. discriminate.
  - exfalso. apply (f_equal (@last event)) in Htrace. revert Htrace.
    rewrite last_snoc. vm_compute. discriminate.
  - exact Hfetch.
Defined.

Lemma block_ends_by_the_deadline_witness :
  clock (snd (try_block Sample.json_dumps Sample.delta_to_mins_secs
                (Sample.locals_of "hugo") Sample.uevs 0 Sample.slow_fetch
                (State (trace (Sample.started "hugo")) 2 3601 None)))
  <= 3601 + 3600 + TIMEOUT_SECONDS.
Proof.
  apply (block_ends_by_the_deadline
           Sample.json_loads Sample.json_dumps Sample.decrypt
           Sample.delta_to_mins_secs (Sample.environment "hugo") Sample.slow_fetch
           (Sample.locals_of "hugo") Sample.uevs 0
           (State (trace (Sample.started "hugo")) 2 3601 None)).
  vm_compute. reflexivity.
Defined.

Lemma total_build_time_counts_from_the_start_witness :
  In (Logged INFO "Total build time: 0m")
     (Sample.trace_of "static" Sample.all_well).
Proof.
  apply (total_build_time_counts_from_the_start
           Sample.json_loads Sample.json_dumps Sample.decrypt
           Sample.delta_to_mins_secs (Sample.environment "static") Sample.all_well
           (Sample.locals_of "static") Sample.uevs 0 (Sample.started "static")
           VNone).
  - vm_compute. reflexivity.
  - vm_compute. tauto.
Defined.

Lemma subprocesses_of_a_run_witness :
  exists task,
    In task ["run-federalist-script"; "build-jekyll"; "build-hugo"; "build-static"]
    /\ command "build-hugo"
         (Some [("--branch", "main"); ("--owner", "18F"); ("--repository", "site");
                ("--site-prefix", "site/18F/site"); ("--base-url", "/site");
                ("--user-env-vars",
                 Sample.json_dumps
                   (VList [VDict [("name", VStr "API_KEY");
                                  ("value", VStr "plain:c2VjcmV0")]]))])
       = command task
           (if String.eqb task "build-static" then None
            else Some
                   ([("--branch", "main"); ("--owner", "18F");
                     ("--repository", "site"); ("--site-prefix", "site/18F/site");
                     ("--base-url", "/site");
                     ("--user-env-vars",
                      Sample.json_dumps
                        (VList [VDict [("name", VStr "API_KEY");
                                       ("value", VStr "plain:c2VjcmV0")]]))]
                    ++ (if String.eqb task "build-jekyll"
                        then [("--config", "{}")] else []))).
Proof.
  destruct (subprocesses_of_a_run
              Sample.json_loads Sample.json_dumps Sample.decrypt
              Sample.delta_to_mins_secs (Sample.environment "hugo") Sample.all_well
              (Sample.locals_of "hugo") Sample.uevs 0 (Sample.started "hugo")
              (command "build-hugo"
                 (Some [("--branch", "main"); ("--owner", "18F");
                        ("--repository", "site");
                        ("--site-prefix", "site/18F/site"); ("--base-url", "/site");
                        ("--user-env-vars",
                         Sample.json_dumps
                           (VList [VDict [("name", VStr "API_KEY");
                                          ("value", VStr "plain:c2VjcmV0")]]))]))
              None true (Returned VNone))
    as (_ & _ & task & Htask & _ & _ & _ & Hcmd).
  - vm_compute. reflexivity.
  - vm_compute. tauto.
  - exists task. split; [exact Htask|exact Hcmd].
Defined.

End MoreSampleRuns.
